(** * A fuzzy inference engine: fuzzification, rule firing, aggregation,
      defuzzification

    Shallow embedding of the classes [FuzzySet], [Variable] and
    [FuzzySystem] of [code_1.py], followed by the properties of the
    inference engine.

    Modelling conventions.
    - The classes are embedded twice, with the same control flow and two
      readings of their numbers.  The first embedding computes with exact
      rationals ([num]: a finite number is a rational, and the two
      infinities and the not-a-number value are kept because the source
      tests for them); it says which expression each result is and which
      exceptions the control flow meets.  The second, the module [Py],
      computes as Python does on [int] and [float]: integers of any size,
      binary64 floats rounded to nearest, the conversion of an integer
      operand that meets a float, and OverflowError.  What depends on the
      range of a computed degree, on a division by a computed zero or on
      overflow is stated over [Py].
    - A Python [dict] is an association list in insertion order
      ([dict_set] overwrites in place or appends), since iteration order
      decides which exception is met first.
    - A computation is a pair of the lines it printed and its outcome: a
      returned value or a raised exception.
    - Strings are ASCII; [upper] maps a-z to A-Z. *)

From Stdlib Require Import QArith Qminmax Lqa Lia List String Ascii Bool Arith.
From Stdlib Require Import Permutation Qround Qpower ZArith.
From Stdlib Require Floats.
Import ListNotations.
Open Scope Q_scope.

(** ** Numbers *)

Inductive num : Type :=
| Fin (q : Q)
| Inf (negative : bool)
| NaN.

Definition Qlt_bool (x y : Q) : bool := negb (Qle_bool y x).

(** Sign test used for the sign of a product or quotient with infinity. *)
Definition Qneg (q : Q) : bool := Qlt_bool q 0.

Definition num_add (x y : num) : num :=
  match x, y with
  | NaN, _ | _, NaN => NaN
  | Fin p, Fin q => Fin (p + q)
  | Fin _, Inf s | Inf s, Fin _ => Inf s
  | Inf s, Inf t => if Bool.eqb s t then Inf s else NaN
  end.

Definition num_sub (x y : num) : num :=
  match x, y with
  | NaN, _ | _, NaN => NaN
  | Fin p, Fin q => Fin (p - q)
  | Fin _, Inf s => Inf (negb s)
  | Inf s, Fin _ => Inf s
  | Inf s, Inf t => if Bool.eqb s t then NaN else Inf s
  end.

Definition num_mul (x y : num) : num :=
  match x, y with
  | NaN, _ | _, NaN => NaN
  | Fin p, Fin q => Fin (p * q)
  | Fin p, Inf s | Inf s, Fin p =>
      if Qeq_bool p 0 then NaN else Inf (xorb s (Qneg p))
  | Inf s, Inf t => Inf (xorb s t)
  end.

Definition num_lt (x y : num) : bool :=
  match x, y with
  | NaN, _ | _, NaN => false
  | Fin p, Fin q => Qlt_bool p q
  | Fin _, Inf s => negb s
  | Inf s, Fin _ => s
  | Inf s, Inf t => s && negb t
  end.

Definition num_le (x y : num) : bool :=
  match x, y with
  | NaN, _ | _, NaN => false
  | Fin p, Fin q => Qle_bool p q
  | Fin _, Inf s => negb s
  | Inf s, Fin _ => s
  | Inf s, Inf t => s || negb t
  end.

Definition is_zero (x : num) : bool :=
  match x with Fin q => Qeq_bool q 0 | _ => false end.

(** [degree in [float("inf"), float("-inf")]] *)
Definition num_is_inf (x : num) : bool :=
  match x with Inf _ => true | _ => false end.

(** ** Values, exceptions and computations *)

(** What a degree can be at run time: a number, or [None] (what
    [fuzzify] returns when it falls off the end). *)
Inductive value : Type :=
| VNone
| VNum (n : num).

Inductive exn : Type :=
| KeyError (key : string)
| TypeError
| ValueError
| ZeroDivisionError
| OverflowError.

Inductive outcome (A : Type) : Type :=
| Ok (a : A)
| Raise (e : exn).
Arguments Ok {A} a.
Arguments Raise {A} e.

(** Printed lines, then the outcome. *)
Definition M (A : Type) : Type := (list string * outcome A)%type.

Definition ret {A} (a : A) : M A := ([], Ok a).
Definition raise {A} (e : exn) : M A := ([], Raise e).
Definition print (line : string) : M unit := ([line], Ok tt).

Definition bind {A B} (m : M A) (k : A -> M B) : M B :=
  match m with
  | (out, Ok a) => let (out', r) := k a in (out ++ out', r)
  | (out, Raise e) => (out, Raise e)
  end.

Declare Scope py_scope.
Delimit Scope py_scope with py.
Notation "x <- m ;; k" := (bind m (fun x => k))
  (at level 61, m at next level, right associativity) : py_scope.
Notation "m ;;; k" := (bind m (fun _ => k))
  (at level 61, right associativity) : py_scope.
Open Scope py_scope.

(** True division: a zero divisor raises, whatever the dividend. *)
Definition num_div (x y : num) : M num :=
  if is_zero y then raise ZeroDivisionError
  else ret
    match x, y with
    | NaN, _ | _, NaN => NaN
    | Fin p, Fin q => Fin (p / q)
    | Fin _, Inf _ => Fin 0
    | Inf s, Fin q => Inf (xorb s (Qneg q))
    | Inf _, Inf _ => NaN
    end.

(** [x < y] on run-time values: [None] is not ordered against anything. *)
Definition value_lt (x y : value) : M bool :=
  match x, y with
  | VNum a, VNum b => ret (num_lt a b)
  | _, _ => raise TypeError
  end.

(** The builtin [min(a, b)]: keeps [a] unless [b < a]. *)
Definition py_min (a b : value) : M value :=
  lt <- value_lt b a ;; ret (if lt then b else a).

(** The builtin [max(a, b)]: keeps [a] unless [b > a]. *)
Definition py_max (a b : value) : M value :=
  gt <- value_lt a b ;; ret (if gt then b else a).

(** [1 - degree] *)
Definition one_minus (d : value) : M value :=
  match d with
  | VNum n => ret (VNum (num_sub (Fin 1) n))
  | VNone => raise TypeError
  end.

(** ** Dictionaries *)

Definition dict (V : Type) : Type := list (string * V).

Fixpoint dict_get {V} (k : string) (d : dict V) : option V :=
  match d with
  | [] => None
  | (k', v) :: rest => if String.eqb k k' then Some v else dict_get k rest
  end.

(** [d[k] = v] *)
Fixpoint dict_set {V} (k : string) (v : V) (d : dict V) : dict V :=
  match d with
  | [] => [(k, v)]
  | (k', v') :: rest =>
      if String.eqb k k' then (k', v) :: rest
      else (k', v') :: dict_set k v rest
  end.

(** [d.get(k, default)] *)
Definition dict_get_default {V} (k : string) (d : dict V) (default : V) : V :=
  match dict_get k d with Some v => v | None => default end.

(** [d[k]] *)
Definition dict_index {V} (k : string) (d : dict V) : M V :=
  match dict_get k d with Some v => ret v | None => raise (KeyError k) end.

(** [k in d] *)
Definition dict_mem {V} (k : string) (d : dict V) : bool :=
  match dict_get k d with Some _ => true | None => false end.

(** ** Strings *)

Definition upper_ascii (c : ascii) : ascii :=
  let n := nat_of_ascii c in
  if Nat.leb 97 n && Nat.leb n 122 then ascii_of_nat (n - 32) else c.

Fixpoint upper (s : string) : string :=
  match s with
  | EmptyString => EmptyString
  | String c rest => String (upper_ascii c) (upper rest)
  end.

(** ** class FuzzySet *)

Record FuzzySet : Type := mkFuzzySet {
  fs_name : string;
  fs_type : string;
  fs_values : list num
}.

(** [FuzzySet.__init__]: stores its arguments, the type uppercased; no
    check is made. *)
Definition FuzzySet_init (name type_ : string) (values : list num)
  : outcome FuzzySet :=
  Ok {| fs_name := name; fs_type := upper type_; fs_values := values |}.

(** [a <= x <= b] *)
Definition between (a x b : num) : bool := num_le a x && num_le x b.

(** [FuzzySet.fuzzify] *)
Definition fuzzify (self : FuzzySet) (crisp_value : num) : M value :=
  if String.eqb (fs_type self) "TRI" then
    match fs_values self with
    | [a; b; c] =>
        if between a crisp_value b then
          r <- num_div (num_sub crisp_value a) (num_sub b a) ;; ret (VNum r)
        else if between b crisp_value c then
          r <- num_div (num_sub c crisp_value) (num_sub c b) ;; ret (VNum r)
        else ret (VNum (Fin 0))
    | _ => raise ValueError
    end
  else if String.eqb (fs_type self) "TRAP" then
    match fs_values self with
    | [a; b; c; d] =>
        if between a crisp_value b then
          r <- num_div (num_sub crisp_value a) (num_sub b a) ;; ret (VNum r)
        else if between b crisp_value c then ret (VNum (Fin 1))
        else if between c crisp_value d then
          r <- num_div (num_sub d crisp_value) (num_sub d c) ;; ret (VNum r)
        else ret (VNum (Fin 0))
    | _ => raise ValueError
    end
  else ret VNone.

(** ** class Variable

    The class is called [FuzzyVariable] here, its own name being a
    keyword. *)

Record FuzzyVariable : Type := mkVariable {
  var_name : string;
  var_type : string;
  var_range : list num;
  fuzzy_sets : dict FuzzySet
}.

Definition Variable_init (name var_type : string) (range_ : list num)
  : FuzzyVariable :=
  {| var_name := name; var_type := upper var_type; var_range := range_;
     fuzzy_sets := [] |}.

Definition add_fuzzy_set (self : FuzzyVariable) (fuzzy_set : FuzzySet) : FuzzyVariable :=
  {| var_name := var_name self; var_type := var_type self;
     var_range := var_range self;
     fuzzy_sets := dict_set (fs_name fuzzy_set) fuzzy_set (fuzzy_sets self) |}.

(** ** class FuzzySystem *)

(** An antecedent clause [(var_name, set_name, operator)]. *)
Definition clause : Type := (string * string * string)%type.

(** A rule [(in_vars, out_var, out_set)]. *)
Definition rule : Type := (list clause * string * string)%type.

Record FuzzySystem : Type := mkFuzzySystem {
  sys_name : string;
  description : string;
  variables : dict FuzzyVariable;
  rules : list rule
}.

Definition FuzzySystem_init (name description : string) : FuzzySystem :=
  {| sys_name := name; description := description; variables := [];
     rules := [] |}.

Definition add_variable (self : FuzzySystem) (variable : FuzzyVariable)
  : FuzzySystem :=
  {| sys_name := sys_name self; description := description self;
     variables := dict_set (var_name variable) variable (variables self);
     rules := rules self |}.

Definition add_rule (self : FuzzySystem) (r : rule) : FuzzySystem :=
  {| sys_name := sys_name self; description := description self;
     variables := variables self;
     rules := rules self ++ [r] |}.

(** *** FuzzySystem.run_simulation *)

(** The dict comprehension
    [{fs_name: fs.fuzzify(crisp_value) for fs_name, fs in ...items()}]. *)
Fixpoint fuzzify_sets (items : list (string * FuzzySet)) (crisp_value : num)
    (acc : dict value) : M (dict value) :=
  match items with
  | [] => ret acc
  | (fs_name, fs) :: rest =>
      v <- fuzzify fs crisp_value ;;
      fuzzify_sets rest crisp_value (dict_set fs_name v acc)
  end.

Definition undefined_variable_message (var_name : string) : string :=
  ("Error: Variable '" ++ var_name ++ "' not defined.")%string.

(** The first loop (lines 54-62).  [None] is the bare [return] taken at an
    undefined variable; [Some] carries [fuzzified_values] to the rest of
    the function. *)
Fixpoint fuzzify_inputs (self : FuzzySystem) (items : list (string * num))
    (fuzzified_values : dict (dict value)) : M (option (dict (dict value))) :=
  match items with
  | [] => ret (Some fuzzified_values)
  | (var_name, crisp_value) :: rest =>
      match dict_get var_name (variables self) with
      | None =>
          print (undefined_variable_message var_name) ;;;
          ret None
      | Some variable =>
          degrees <- fuzzify_sets (fuzzy_sets variable) crisp_value [] ;;
          fuzzify_inputs self rest
            (dict_set var_name degrees fuzzified_values)
      end
  end.

Definition unknown_operator_message (operator : string) : string :=
  ("Unknown operator: " ++ operator ++ ". Defaulting to 'and'.")%string.

(** The inner loop over the antecedent clauses of one rule (lines 69-79). *)
Fixpoint eval_clauses (fuzzified_values : dict (dict value))
    (in_vars : list clause) (min_degree : value) : M value :=
  match in_vars with
  | [] => ret min_degree
  | (var_name, set_name, operator) :: rest =>
      degrees <- dict_index var_name fuzzified_values ;;
      let degree := dict_get_default set_name degrees (VNum (Fin 0)) in
      min_degree' <-
        (if String.eqb operator "and" then py_min min_degree degree
         else if String.eqb operator "or" then py_max min_degree degree
         else if String.eqb operator "and_not" then
           d <- one_minus degree ;; py_min min_degree d
         else
           print (unknown_operator_message operator) ;;;
           py_min min_degree degree) ;;
      eval_clauses fuzzified_values rest min_degree'
  end.

(** The loop over the rules (lines 65-86). *)
Fixpoint infer (fuzzified_values : dict (dict value)) (rs : list rule)
    (inferred_outputs : dict (dict value)) : M (dict (dict value)) :=
  match rs with
  | [] => ret inferred_outputs
  | (in_vars, out_var, out_set) :: rest =>
      min_degree <- eval_clauses fuzzified_values in_vars (VNum (Fin 1)) ;;
      let inferred_outputs :=
        if dict_mem out_var inferred_outputs then inferred_outputs
        else dict_set out_var [] inferred_outputs in
      output <- dict_index out_var inferred_outputs ;;
      m <- py_max (dict_get_default out_set output (VNum (Fin 0)))
                  min_degree ;;
      infer fuzzified_values rest
        (dict_set out_var (dict_set out_set m output) inferred_outputs)
  end.

(** [degree in [float("inf"), float("-inf")]]: [None] equals neither. *)
Definition value_is_inf (degree : value) : bool :=
  match degree with VNum n => num_is_inf n | VNone => false end.

(** [degree * centroid] *)
Definition value_mul (degree : value) (centroid : num) : M num :=
  match degree with
  | VNum n => ret (num_mul n centroid)
  | VNone => raise TypeError
  end.

(** [denominator + degree] *)
Definition add_value (denominator : num) (degree : value) : M num :=
  match degree with
  | VNum n => ret (num_add denominator n)
  | VNone => raise TypeError
  end.

(** [sum(values)]: starts from 0 and adds from the left. *)
Definition py_sum (values : list num) : num :=
  fold_left num_add values (Fin 0).

(** [len(values)] as a number. *)
Definition py_len (values : list num) : num :=
  Fin (inject_Z (Z.of_nat (List.length values))).

(** The loop over the fuzzy sets of one output variable (lines 93-99);
    returns the final [(numerator, denominator)]. *)
Fixpoint defuzz_sets (variable : FuzzyVariable) (items : list (string * value))
    (numerator denominator : num) : M (num * num) :=
  match items with
  | [] => ret (numerator, denominator)
  | (set_name, degree) :: rest =>
      if value_is_inf degree then
        defuzz_sets variable rest numerator denominator
      else
        fs <- dict_index set_name (fuzzy_sets variable) ;;
        centroid <- num_div (py_sum (fs_values fs)) (py_len (fs_values fs)) ;;
        weighted <- value_mul degree centroid ;;
        denominator' <- add_value denominator degree ;;
        defuzz_sets variable rest (num_add numerator weighted) denominator'
  end.

(** The body of the loop over the output variables (lines 90-101): the
    value stored in [results[var_name]]. *)
Definition defuzz_variable (self : FuzzySystem) (var_name : string)
    (output : dict value) : M num :=
  variable <- dict_index var_name (variables self) ;;
  nd <- defuzz_sets variable output (Fin 0) (Fin 0) ;;
  let (numerator, denominator) := nd in
  if num_lt (Fin 0) denominator then num_div numerator denominator
  else ret (Fin 0).

(** The loop over the output variables (lines 89-101). *)
Fixpoint defuzzify (self : FuzzySystem) (items : list (string * dict value))
    (results : dict num) : M (dict num) :=
  match items with
  | [] => ret results
  | (var_name, output) :: rest =>
      r <- defuzz_variable self var_name output ;;
      defuzzify self rest (dict_set var_name r results)
  end.

(** [run_simulation]: [None] is the bare [return], [Some results] the
    final [return results]. *)
Definition run_simulation (self : FuzzySystem) (crisp_values : dict num)
  : M (option (dict num)) :=
  fz <- fuzzify_inputs self crisp_values [] ;;
  match fz with
  | None => ret None
  | Some fuzzified_values =>
      inferred_outputs <- infer fuzzified_values (rules self) [] ;;
      results <- defuzzify self inferred_outputs [] ;;
      ret (Some results)
  end.

(** ** The demonstration model of [load_test_case] *)

Section Demo.
Local Open Scope string_scope.

(** An integer literal of the source. *)
Definition int (z : Z) : num := Fin (inject_Z z).

(** [variable = system.variables[var_name]] followed by calls of
    [variable.add_fuzzy_set]: the variable object is shared with the
    system, so the sets added to it are seen through [system.variables];
    here the updated variable is written back in place. *)
Definition with_sets (self : FuzzySystem) (var_name : string)
    (sets : list FuzzySet) : FuzzySystem :=
  match dict_get var_name (variables self) with
  | Some v => add_variable self (fold_left add_fuzzy_set sets v)
  | None => self
  end.

(** [FuzzySet(name, type_, values)], the object that [FuzzySet_init]
    returns. *)
Definition fuzzy_set (name type_ : string) (values : list num) : FuzzySet :=
  {| fs_name := name; fs_type := upper type_; fs_values := values |}.

Definition load_test_case (system : FuzzySystem) : FuzzySystem :=
  let system := add_variable system (Variable_init "proj_funding" "IN" [int 0; int 100]) in
  let system := add_variable system (Variable_init "exp_level" "IN" [int 0; int 60]) in
  let system := add_variable system (Variable_init "risk" "OUT" [int 0; int 100]) in
  let system := with_sets system "proj_funding"
    [ fuzzy_set "very_low" "TRAP" [int 0; int 0; int 10; int 30];
      fuzzy_set "low" "TRAP" [int 10; int 30; int 40; int 60];
      fuzzy_set "medium" "TRAP" [int 40; int 60; int 70; int 90];
      fuzzy_set "high" "TRAP" [int 70; int 90; int 100; int 100] ] in
  let system := with_sets system "exp_level"
    [ fuzzy_set "beginner" "TRI" [int 0; int 15; int 30];
      fuzzy_set "intermediate" "TRI" [int 15; int 30; int 45];
      fuzzy_set "expert" "TRI" [int 30; int 60; int 60] ] in
  let system := with_sets system "risk"
    [ fuzzy_set "low" "TRI" [int 0; int 25; int 50];
      fuzzy_set "normal" "TRI" [int 25; int 50; int 75];
      fuzzy_set "high" "TRI" [int 50; int 100; int 100] ] in
  let system := add_rule system
    ([("proj_funding", "high", "or"); ("exp_level", "expert", "or")], "risk", "low") in
  let system := add_rule system
    ([("proj_funding", "medium", "and"); ("exp_level", "intermediate", "and")], "risk", "normal") in
  let system := add_rule system
    ([("proj_funding", "medium", "and"); ("exp_level", "beginner", "and")], "risk", "normal") in
  let system := add_rule system
    ([("proj_funding", "low", "and"); ("exp_level", "beginner", "and")], "risk", "high") in
  add_rule system
    ([("proj_funding", "very_low", "and_not"); ("exp_level", "expert", "and_not")], "risk", "high").

Definition test_case : FuzzySystem :=
  load_test_case (FuzzySystem_init "test_case" "Predefined system for testing.").

(** The inputs of the demonstration run, and their fuzzified degrees. *)
Definition demo_inputs : dict num :=
  [("proj_funding", int 50); ("exp_level", int 40)].

Definition demo_fuzzified : dict (dict value) :=
  match fuzzify_inputs test_case demo_inputs [] with
  | (_, Ok (Some fz)) => fz
  | _ => []
  end.

(** The output variable of the demonstration model. *)
Definition risk_variable : FuzzyVariable :=
  match dict_get "risk" (variables test_case) with
  | Some variable => variable
  | None => Variable_init "risk" "OUT" []
  end.

(** The demonstration model reduced to its fourth rule, which does not
    fire on the demonstration inputs. *)
Definition quiet_case : FuzzySystem :=
  {| sys_name := "quiet_case"; description := "One rule that does not fire.";
     variables := variables test_case;
     rules := [([("proj_funding", "low", "and");
                 ("exp_level", "beginner", "and")], "risk", "high")] |}.

(** The demonstration model with every variable declared as an output
    variable of empty range. *)
Definition relabelled_case : FuzzySystem :=
  {| sys_name := "relabelled"; description := "";
     variables :=
       map (fun e => (fst e,
                      {| var_name := var_name (snd e); var_type := "OUT";
                         var_range := [];
                         fuzzy_sets := fuzzy_sets (snd e) |}))
           (variables test_case);
     rules := rules test_case |}.

End Demo.

(** ** The rule parser of [main]

    The body of the [try] block that reads one rule (lines 209-226), on
    the line typed once stripped.  The three exceptions it can raise are
    kept apart: the ValueError raised for a line without exactly one
    " => ", the ValueError of unpacking the consequent, both caught by the
    handler that follows, and the IndexError of reading past the
    conditions, which nothing catches. *)

Inductive parse_outcome (A : Type) : Type :=
| Parsed (a : A)
| InvalidRuleFormat
| UnpackError
| IndexError.
Arguments Parsed {A} a.
Arguments InvalidRuleFormat {A}.
Arguments UnpackError {A}.
Arguments IndexError {A}.

(** [c.isspace()], on ASCII. *)
Definition is_space (c : ascii) : bool :=
  let n := nat_of_ascii c in
  (Nat.leb 9 n && Nat.leb n 13) || (Nat.leb 28 n && Nat.leb n 32).

(** [s.split(sep)] for a non-empty separator: [piece] is the piece being
    read, [skip] the number of characters of a separator still to pass. *)
Fixpoint split_from (sep s : string) (skip : nat) (piece : string)
  : list string :=
  match s with
  | EmptyString => [piece]
  | String c rest =>
      match skip with
      | S skip' => split_from sep rest skip' piece
      | O =>
          if String.prefix sep s then
            piece :: split_from sep rest (String.length sep - 1) EmptyString
          else split_from sep rest 0 (piece ++ String c EmptyString)%string
      end
  end.

Definition split (s sep : string) : list string :=
  split_from sep s 0 EmptyString.

(** [s.split()]: pieces between runs of whitespace, none empty. *)
Fixpoint split_whitespace_from (s piece : string) : list string :=
  match s with
  | EmptyString =>
      match piece with EmptyString => [] | _ => [piece] end
  | String c rest =>
      if is_space c then
        match piece with
        | EmptyString => split_whitespace_from rest EmptyString
        | _ => piece :: split_whitespace_from rest EmptyString
        end
      else split_whitespace_from rest (piece ++ String c EmptyString)%string
  end.

Definition split_whitespace (s : string) : list string :=
  split_whitespace_from s EmptyString.

(** [token in {"and", "or", "and_not"}] *)
Definition in_operator_set (token : string) : bool :=
  String.eqb token "and" || String.eqb token "or"
  || String.eqb token "and_not".

(** The [while] loop over the conditions (lines 217-223); [None] when the
    fuel runs out. *)
Fixpoint parse_loop (fuel : nat) (conditions : list string) (idx : nat)
    (in_vars : list clause) : option (parse_outcome (list clause)) :=
  match fuel with
  | O => None
  | S fuel' =>
      if Nat.ltb idx (List.length conditions) then
        match nth_error conditions idx with
        | None => Some IndexError
        | Some var_name =>
            match nth_error conditions (idx + 1) with
            | None => Some IndexError
            | Some set_name =>
                let operator :=
                  match nth_error conditions (idx + 2) with
                  | Some token =>
                      if Nat.ltb (idx + 2) (List.length conditions)
                         && in_operator_set token
                      then token else "and"%string
                  | None => "and"%string
                  end in
                parse_loop fuel' conditions
                  (idx + (if String.eqb operator "" then 2 else 3))
                  (in_vars ++ [(var_name, set_name, operator)])
            end
        end
      else Some (Parsed in_vars)
  end.

(** The loop from [idx = 0] and [in_vars = []], with one unit of fuel per
    condition and one to leave the loop. *)
Definition parse_conditions (conditions : list string)
  : option (parse_outcome (list clause)) :=
  parse_loop (S (List.length conditions)) conditions 0 [].

(** The body of the [try] block, up to the rule handed to [add_rule]. *)
Definition parse_rule (rule_input : string) : option (parse_outcome rule) :=
  match split rule_input " => " with
  | [in_part; out_part] =>
      match parse_conditions (split in_part " ") with
      | None => None
      | Some (Parsed in_vars) =>
          match split_whitespace out_part with
          | [out_var; out_set] => Some (Parsed (in_vars, out_var, out_set))
          | _ => Some UnpackError
          end
      | Some InvalidRuleFormat => Some InvalidRuleFormat
      | Some UnpackError => Some UnpackError
      | Some IndexError => Some IndexError
      end
  | _ => Some InvalidRuleFormat
  end.

(** The conditions read three by three: a variable, a set and, when there
    is a third token, an operator, which is kept if it is one of the three
    operators and replaced by "and" otherwise. *)
Fixpoint clauses_by_three (tokens : list string) : option (list clause) :=
  match tokens with
  | [] => Some []
  | [_] => None
  | [var_name; set_name] => Some [(var_name, set_name, "and"%string)]
  | var_name :: set_name :: token :: rest =>
      option_map
        (cons (var_name, set_name,
               if in_operator_set token then token else "and"%string))
        (clauses_by_three rest)
  end.

(** * Definitions used to state the properties *)

(** ** Membership functions as the specification sees them *)

(** A fuzzy set declared with a shape and the wrong number of parameters
    for it. *)
Definition wrong_parameter_count (shape_type : string) (values : list num)
  : bool :=
  (String.eqb shape_type "TRI" && negb (Nat.eqb (List.length values) 3))
  || (String.eqb shape_type "TRAP" && negb (Nat.eqb (List.length values) 4)).

Inductive shape : Type :=
| TRIANGULAR (a b c : Q)
| TRAPEZOIDAL (a b c d : Q).


(** The piecewise-linear reference definition of the degree [q] of [x],
    in the words of the specification. *)
Definition reference_degree (s : shape) (x q : Q) : Prop :=
  match s with
  | TRIANGULAR a b c =>
      (a <= x <= b -> q == (x - a) / (b - a)) /\
      (b <= x <= c -> q == (c - x) / (c - b)) /\
      (x < a \/ c < x -> q == 0)
  | TRAPEZOIDAL a b c d =>
      (a <= x <= b -> q == (x - a) / (b - a)) /\
      (b <= x <= c -> q == 1) /\
      (c <= x <= d -> q == (d - x) / (d - c)) /\
      (x < a \/ d < x -> q == 0)
  end.

(** ** Firing strength as the specification sees it *)

(** [combine(acc, d, operator)] *)
Definition spec_combine (acc d : Q) (operator : string) : Q :=
  if String.eqb operator "and" then Qmin acc d
  else if String.eqb operator "or" then Qmax acc d
  else if String.eqb operator "and_not" then Qmin acc (1 - d)
  else Qmin acc d.

(** The degree a clause reads, [fuzzifiedDegrees[variableName].get(setName,
    0)], when the variable is there and the degree is a finite number. *)
Definition clause_degree (fz : dict (dict value)) (c : clause) : option Q :=
  let '(var_name, set_name, _) := c in
  match dict_get var_name fz with
  | None => None
  | Some degrees =>
      match dict_get_default set_name degrees (VNum (Fin 0)) with
      | VNum (Fin q) => Some q
      | _ => None
      end
  end.

Definition degree_of (fz : dict (dict value)) (c : clause) : Q :=
  match clause_degree fz c with Some q => q | None => 0 end.

(** Every clause reads a finite number. *)
Definition clauses_resolved (fz : dict (dict value)) (in_vars : list clause)
  : bool :=
  forallb (fun c => match clause_degree fz c with Some _ => true
                                              | None => false end) in_vars.

Definition operator_of (c : clause) : string := snd c.

(** The left fold of [spec_combine] over the clauses, from 1. *)
Definition spec_firing_strength (fz : dict (dict value))
    (in_vars : list clause) : Q :=
  fold_left (fun acc c => spec_combine acc (degree_of fz c) (operator_of c))
            in_vars 1.

Definition recognized (operator : string) : bool :=
  String.eqb operator "and" || String.eqb operator "or"
  || String.eqb operator "and_not".

(** The warnings a rule prints: one per clause with an unrecognized
    operator, in order. *)
Definition warnings (in_vars : list clause) : list string :=
  map (fun c => unknown_operator_message (operator_of c))
      (filter (fun c => negb (recognized (operator_of c))) in_vars).

(** A degree as fuzzification can produce it: not-a-number, or a finite
    number of the unit interval. *)
Definition unit_or_nan (r : num) : Prop :=
  match r with
  | Fin q => 0 <= q <= 1
  | Inf _ => False
  | NaN => True
  end.

Definition degree_ok (v : value) : Prop :=
  match v with VNone => True | VNum r => unit_or_nan r end.

(** Every degree stored in [fuzzified_values] is [None], not-a-number or
    in the unit interval. *)
Definition fuzzified_ok (fz : dict (dict value)) : Prop :=
  Forall (fun e => Forall (fun p => degree_ok (snd p)) (snd e)) fz.

(** The clause reads a number: its variable was fuzzified, and the degree
    of its set (0 when the set is missing) is not [None]. *)
Definition reads_number (fz : dict (dict value)) (c : clause) : bool :=
  let '(var_name, set_name, _) := c in
  match dict_get var_name fz with
  | None => false
  | Some degrees =>
      match dict_get_default set_name degrees (VNum (Fin 0)) with
      | VNone => false
      | VNum _ => true
      end
  end.

(** ** Aggregation as the specification sees it *)

Definition antecedents (r : rule) : list clause := fst (fst r).
Definition out_var_of (r : rule) : string := snd (fst r).
Definition out_set_of (r : rule) : string := snd r.

(** The rule concludes the pair (output variable, output set). *)
Definition concludes (var_name set_name : string) (r : rule) : bool :=
  String.eqb (out_var_of r) var_name && String.eqb (out_set_of r) set_name.

Definition rules_resolved (fz : dict (dict value)) (rs : list rule) : bool :=
  forallb (fun r => clauses_resolved fz (antecedents r)) rs.

(** The firing strengths of the rules concluding a pair, in rule order. *)
Definition strengths_for (fz : dict (dict value)) (rs : list rule)
    (var_name set_name : string) : list Q :=
  map (fun r => spec_firing_strength fz (antecedents r))
      (filter (concludes var_name set_name) rs).

(** The aggregated degree of a pair, read as the source reads it: an
    absent entry counts as 0. *)
Definition agg_degree (inferred_outputs : dict (dict value))
    (var_name set_name : string) : value :=
  match dict_get var_name inferred_outputs with
  | Some output => dict_get_default set_name output (VNum (Fin 0))
  | None => VNum (Fin 0)
  end.


(** Every aggregated degree stored is a finite number. *)
Definition outputs_finite (inferred_outputs : dict (dict value)) : Prop :=
  Forall (fun e => Forall (fun p => exists q, snd p = VNum (Fin q)) (snd e))
         inferred_outputs.

Definition agg_q (inferred_outputs : dict (dict value))
    (var_name set_name : string) : Q :=
  match agg_degree inferred_outputs var_name set_name with
  | VNum (Fin q) => q
  | _ => 0
  end.

(** [inferred_outputs] once the source has made sure [out_var] has an
    entry, and that entry. *)
Definition ensured (out_var : string) (io : dict (dict value))
  : dict (dict value) :=
  if dict_mem out_var io then io else dict_set out_var [] io.

Definition entry_of (out_var : string) (io : dict (dict value)) : dict value :=
  match dict_get out_var io with Some output => output | None => [] end.

(** ** Rules a run can carry through *)

(** The consequent names a variable of the model and one of its fuzzy
    sets, and that set has at least one parameter. *)
Definition consequent_ok (self : FuzzySystem) (r : rule) : bool :=
  match dict_get (out_var_of r) (variables self) with
  | None => false
  | Some variable =>
      match dict_get (out_set_of r) (fuzzy_sets variable) with
      | None => false
      | Some fs => match fs_values fs with [] => false | _ => true end
      end
  end.

Definition rule_ok (self : FuzzySystem) (fz : dict (dict value)) (r : rule)
  : bool :=
  forallb (reads_number fz) (antecedents r) && consequent_ok self r.

Definition rules_ok (self : FuzzySystem) (fz : dict (dict value)) : bool :=
  forallb (rule_ok self fz) (rules self).

Definition set_ok (variable : FuzzyVariable) (set_name : string) : Prop :=
  exists fs,
    dict_get set_name (fuzzy_sets variable) = Some fs /\ fs_values fs <> [].

(** An entry of [inferred_outputs] that defuzzification can process. *)
Definition entry_ok (self : FuzzySystem) (e : string * dict value) : Prop :=
  exists variable,
    dict_get (fst e) (variables self) = Some variable /\
    Forall (fun p => (exists r, snd p = VNum r) /\ set_ok variable (fst p))
           (snd e).

(** ** Defuzzification as the specification sees it *)

Definition Qsum (l : list Q) : Q := fold_right Qplus 0 l.






(** No key occurs twice, as in any Python dict. *)
Fixpoint unique_keys {V} (d : dict V) : bool :=
  match d with
  | [] => true
  | (k, _) :: rest => negb (dict_mem k rest) && unique_keys rest
  end.



(** ** Further definitions: membership functions *)

(** Parameters in order, equal neighbours allowed. *)
Definition ordered_shape (s : shape) : Prop :=
  match s with
  | TRIANGULAR a b c => a <= b /\ b <= c
  | TRAPEZOIDAL a b c d => a <= b /\ b <= c /\ c <= d
  end.

(** The crisp value sits on a vertical left edge: the first two
    parameters coincide and [x] is there. *)
Definition on_vertical_left_edge (s : shape) (x : Q) : Prop :=
  match s with
  | TRIANGULAR a b _ => a == b /\ x == a
  | TRAPEZOIDAL a b _ _ => a == b /\ x == a
  end.

(** ** Further definitions: models *)

(** Within every variable of the model no fuzzy-set name occurs twice, as
    in any Python dict. *)
Definition sets_unique (self : FuzzySystem) : bool :=
  forallb (fun e => unique_keys (fuzzy_sets (snd e))) (variables self).

(** Every name of the crisp-input mapping is a variable of the model. *)
Definition inputs_defined (self : FuzzySystem) (crisp_values : dict num)
  : bool :=
  forallb (fun e => dict_mem (fst e) (variables self)) crisp_values.

(** ** Further definitions: runs *)

(** Every aggregated degree stored is a finite number of the unit
    interval. *)
Definition unit_outputs (inferred_outputs : dict (dict value)) : Prop :=
  Forall (fun e =>
            Forall (fun p => exists q, snd p = VNum (Fin q) /\ 0 <= q <= 1)
                   (snd e))
         inferred_outputs.

(** The warnings of the rules, in rule order. *)
Definition rule_warnings (rs : list rule) : list string :=
  flat_map (fun r => warnings (antecedents r)) rs.

(** A key list extended by [k] unless it is there already: what [d[k] = v]
    does to the keys of a dict. *)
Definition add_key (k : string) (keys : list string) : list string :=
  if existsb (String.eqb k) keys then keys else (keys ++ [k])%list.

(** The names of a list in order of first occurrence, each once. *)
Definition first_occurrences (l : list string) : list string :=
  fold_left (fun keys k => add_key k keys) l [].



(** The variables of a model reduced to what a run reads of them: the name
    under which each is stored and its fuzzy sets. *)
Definition sets_view (self : FuzzySystem) : list (string * dict FuzzySet) :=
  map (fun e => (fst e, fuzzy_sets (snd e))) (variables self).

(** ** Rules as the prompt of [main] shows them *)

(** The characters of a name that can be typed in a rule: no whitespace
    and no "=". *)
Fixpoint plain_chars (s : string) : bool :=
  match s with
  | EmptyString => true
  | String c rest =>
      negb (is_space c) && negb (Ascii.eqb c "=") && plain_chars rest
  end.

Definition plain (s : string) : bool :=
  match s with EmptyString => false | _ => plain_chars s end.

(** The tokens of an antecedent in the format of the prompt, "IN_variable
    set operator IN_variable set": the operator of the last clause is not
    written. *)
Fixpoint prompt_tokens (in_vars : list clause) : list string :=
  match in_vars with
  | [] => []
  | [(var_name, set_name, _)] => [var_name; set_name]
  | (var_name, set_name, operator) :: rest =>
      var_name :: set_name :: operator :: prompt_tokens rest
  end.

(** The line for a rule: "... => OUT_variable set". *)
Definition prompt_line (r : rule) : string :=
  (String.concat " " (prompt_tokens (antecedents r))
   ++ " => " ++ out_var_of r ++ " " ++ out_set_of r)%string.

Definition last_operator (in_vars : list clause) : string :=
  operator_of (last in_vars (""%string, ""%string, ""%string)).

(** A rule that the format of the prompt can express: at least one clause,
    plain names, the three operators only, and "and" on the last clause. *)
Definition typable (r : rule) : bool :=
  match antecedents r with [] => false | _ => true end
  && forallb (fun c => plain (fst (fst c)) && plain (snd (fst c))
                       && in_operator_set (snd c)) (antecedents r)
  && String.eqb (last_operator (antecedents r)) "and"
  && plain (out_var_of r) && plain (out_set_of r).




(** * The same classes in Python's own arithmetic

    The embedding above computes with exact rationals.  [Py] embeds the
    same source once more with the numbers Python has: an [int] is an
    integer of any size, a [float] is a binary64 number, and every
    operation on floats rounds to the nearest representable value, ties to
    even.  What each operation does with an [int] and a [float] together,
    and the exceptions it raises, follow the Python reference:
    - [int] with [int]: [+], [-] and [*] are exact; [/] is the quotient
      rounded once, ZeroDivisionError on a zero divisor, OverflowError
      when the quotient is beyond the floats;
    - as soon as one operand is a [float], an [int] operand is first
      converted (rounded; OverflowError when it is beyond the floats) and
      the operation is the one on floats, where overflow gives an infinity
      without an exception and a zero divisor raises ZeroDivisionError;
    - comparisons compare the exact values, also between an [int] and a
      [float].
    The two zeros of binary64 are not told apart: no operation of the
    source can distinguish them.  [sum] adds from the left, one rounding
    per addition, as CPython does up to version 3.11; from 3.12 on, [sum]
    compensates the rounding errors of a list of floats, which can change
    the last digits of a centroid of floats but not whether it is
    computed, and nothing below depends on the value of such a sum beyond
    the example [float_sum_cancels]. *)

(** ** Rounding to binary64 *)

(** The integer nearest to [m], the even one at a tie. *)
Definition round_half_even (m : Q) : Z :=
  let f := Qfloor m in
  match Qcompare (m - inject_Z f) (1 # 2) with
  | Lt => f
  | Gt => (f + 1)%Z
  | Eq => if Z.even f then f else (f + 1)%Z
  end.

(** For [q > 0], the integer [l] with [2^l <= q < 2^(l+1)]. *)
Definition floor_log2 (q : Q) : Z :=
  let l := (Z.log2 (Qnum q) - Z.log2 (QDen q))%Z in
  if Qle_bool (2 ^ l) q then l else (l - 1)%Z.

(** The exponent of the last place of the floats around [q > 0]: 53
    significant bits, and never below the subnormal spacing [2^-1074]. *)
Definition binade (q : Q) : Z := Z.max (floor_log2 q - 52) (-1074).

(** [q > 0] rounded to a multiple of its last place. *)
Definition nearest (q : Q) : Q :=
  inject_Z (round_half_even (q * 2 ^ (- binade q))) * 2 ^ binade q.

(** [q > 0] rounded to binary64; [None] when the result is beyond the
    largest float, [2^1024 - 2^971]. *)
Definition round_pos (q : Q) : option Q :=
  let r := nearest q in
  if Qle_bool (2 ^ 1024) r then None else Some (Qred r).

Module Py.

(** ** Numbers *)

Inductive float : Type :=
| Fin (q : Q)
| Inf (negative : bool)
| NaN.

(** The float nearest to a rational. *)
Definition round (q : Q) : float :=
  match Qcompare q 0 with
  | Eq => Fin 0
  | Gt => match round_pos q with Some r => Fin r | None => Inf false end
  | Lt => match round_pos (- q) with Some r => Fin (- r) | None => Inf true end
  end.

Inductive num : Type :=
| Int (z : Z)
| Float (f : float).

Definition float_add (x y : float) : float :=
  match x, y with
  | NaN, _ | _, NaN => NaN
  | Fin p, Fin q => round (p + q)
  | Fin _, Inf s | Inf s, Fin _ => Inf s
  | Inf s, Inf t => if Bool.eqb s t then Inf s else NaN
  end.

Definition float_sub (x y : float) : float :=
  match x, y with
  | NaN, _ | _, NaN => NaN
  | Fin p, Fin q => round (p - q)
  | Fin _, Inf s => Inf (negb s)
  | Inf s, Fin _ => Inf s
  | Inf s, Inf t => if Bool.eqb s t then NaN else Inf s
  end.

Definition float_mul (x y : float) : float :=
  match x, y with
  | NaN, _ | _, NaN => NaN
  | Fin p, Fin q => round (p * q)
  | Fin p, Inf s | Inf s, Fin p =>
      if Qeq_bool p 0 then NaN else Inf (xorb s (Qneg p))
  | Inf s, Inf t => Inf (xorb s t)
  end.

(** The quotient of two floats, the divisor not being zero. *)
Definition float_quot (x y : float) : float :=
  match x, y with
  | NaN, _ | _, NaN => NaN
  | Fin p, Fin q => round (p / q)
  | Fin _, Inf _ => Fin 0
  | Inf s, Fin q => Inf (xorb s (Qneg q))
  | Inf _, Inf _ => NaN
  end.

Definition float_is_zero (x : float) : bool :=
  match x with Fin q => Qeq_bool q 0 | _ => false end.

Definition float_div (x y : float) : M float :=
  if float_is_zero y then raise ZeroDivisionError
  else ret (float_quot x y).

Definition float_lt (x y : float) : bool :=
  match x, y with
  | NaN, _ | _, NaN => false
  | Fin p, Fin q => Qlt_bool p q
  | Fin _, Inf s => negb s
  | Inf s, Fin _ => s
  | Inf s, Inf t => s && negb t
  end.

Definition float_le (x y : float) : bool :=
  match x, y with
  | NaN, _ | _, NaN => false
  | Fin p, Fin q => Qle_bool p q
  | Fin _, Inf s => negb s
  | Inf s, Fin _ => s
  | Inf s, Inf t => s || negb t
  end.

(** The conversion of an operand to [float]. *)
Definition to_float (x : num) : M float :=
  match x with
  | Float f => ret f
  | Int z =>
      match round (inject_Z z) with
      | Fin q => ret (Fin q)
      | _ => raise OverflowError
      end
  end.

Definition num_add (x y : num) : M num :=
  match x, y with
  | Int a, Int b => ret (Int (a + b))
  | _, _ =>
      fx <- to_float x ;; fy <- to_float y ;; ret (Float (float_add fx fy))
  end.

Definition num_sub (x y : num) : M num :=
  match x, y with
  | Int a, Int b => ret (Int (a - b))
  | _, _ =>
      fx <- to_float x ;; fy <- to_float y ;; ret (Float (float_sub fx fy))
  end.

Definition num_mul (x y : num) : M num :=
  match x, y with
  | Int a, Int b => ret (Int (a * b))
  | _, _ =>
      fx <- to_float x ;; fy <- to_float y ;; ret (Float (float_mul fx fy))
  end.

(** True division. *)
Definition num_div (x y : num) : M num :=
  match x, y with
  | Int a, Int b =>
      if (b =? 0)%Z then raise ZeroDivisionError
      else match round (inject_Z a / inject_Z b) with
           | Fin q => ret (Float (Fin q))
           | _ => raise OverflowError
           end
  | _, _ =>
      fx <- to_float x ;; fy <- to_float y ;;
      r <- float_div fx fy ;; ret (Float r)
  end.

(** The exact value of a number, an [int] not being rounded: what the
    comparisons compare. *)
Definition exact (x : num) : float :=
  match x with
  | Int z => Fin (inject_Z z)
  | Float f => f
  end.

Definition num_lt (x y : num) : bool := float_lt (exact x) (exact y).
Definition num_le (x y : num) : bool := float_le (exact x) (exact y).

(** [degree in [float("inf"), float("-inf")]] *)
Definition num_is_inf (x : num) : bool :=
  match x with Float (Inf _) => true | _ => false end.

(** ** The floats of the kernel

    The kernel of Rocq computes on binary64 numbers.  They are read back
    here as [float]s, to check the rounding above on examples. *)

Definition of_kernel (f : PrimFloat.float) : float :=
  match FloatOps.Prim2SF f with
  | SpecFloat.S754_zero _ => Fin 0
  | SpecFloat.S754_finite negative m e =>
      Fin (Qred (inject_Z (if negative then Z.neg m else Z.pos m) * 2 ^ e))
  | SpecFloat.S754_infinity negative => Inf negative
  | SpecFloat.S754_nan => NaN
  end.

(** The kernel float nearest to [m * 2^e], for [|m| < 2^63]. *)
Definition kernel (m e : Z) : PrimFloat.float :=
  let magnitude := PrimFloat.of_uint63 (Uint63.of_Z (Z.abs m)) in
  FloatOps.Z.ldexp (if (m <? 0)%Z then PrimFloat.opp magnitude else magnitude)
                   e.

(** Pairs of floats on which the operations are compared: small
    integers, integers around [2^53], values that cancel, overflow,
    underflow, subnormal numbers and ties. *)
Definition kernel_pairs : list (PrimFloat.float * PrimFloat.float) :=
  [ (kernel 1 0, kernel 3 0);
    (kernel 5 0, kernel 15 0);
    (kernel 1 0, kernel 10 0);
    (kernel 7 0, kernel (-3) 0);
    (kernel (-1) 0, kernel 3 0);
    (kernel 9007199254740994 0, kernel 9007199254740992 0);
    (kernel 9007199254740992 0, kernel 1 0);
    (kernel 9007199254740994 0, kernel 1 0);
    (kernel (-10000000000000000) 0, kernel 3 0);
    (kernel 175 0, kernel 36 (-1));
    (kernel 1 1023, kernel 2 0);
    (kernel 1 1023, kernel 1 1023);
    (kernel (-1) 1023, kernel 1 1023);
    (kernel 1 (-1074), kernel 2 0);
    (kernel 3 (-1074), kernel 2 0);
    (kernel 1 (-600), kernel 1 (-600));
    (kernel 1 (-1022), kernel 3 (-1074));
    (kernel 9007199254740991 971, kernel 1 970);
    (kernel 9007199254740991 971, kernel 1 969) ].

Definition kernel_integers : list Z :=
  [ 0; 1; -1; 9007199254740993; 9007199254740995; -9007199254740993;
    123456789012345678; 9223372036854775807 ]%Z.

(** ** Values *)

Inductive value : Type :=
| VNone
| VNum (n : num).

Definition value_lt (x y : value) : M bool :=
  match x, y with
  | VNum a, VNum b => ret (num_lt a b)
  | _, _ => raise TypeError
  end.

(** The builtin [min(a, b)]: keeps [a] unless [b < a]. *)
Definition py_min (a b : value) : M value :=
  lt <- value_lt b a ;; ret (if lt then b else a).

(** The builtin [max(a, b)]: keeps [a] unless [b > a]. *)
Definition py_max (a b : value) : M value :=
  gt <- value_lt a b ;; ret (if gt then b else a).

(** [1 - degree] *)
Definition one_minus (d : value) : M value :=
  match d with
  | VNum n => r <- num_sub (Int 1) n ;; ret (VNum r)
  | VNone => raise TypeError
  end.

(** ** class FuzzySet *)

Record FuzzySet : Type := mkFuzzySet {
  fs_name : string;
  fs_type : string;
  fs_values : list num
}.

Definition FuzzySet_init (name type_ : string) (values : list num)
  : outcome FuzzySet :=
  Ok {| fs_name := name; fs_type := upper type_; fs_values := values |}.

(** [a <= x <= b] *)
Definition between (a x b : num) : bool := num_le a x && num_le x b.

(** [(p - q) / (r - s)]: the two differences, left to right, then the
    quotient. *)
Definition slope (p q r s : num) : M value :=
  n <- num_sub p q ;; d <- num_sub r s ;; v <- num_div n d ;; ret (VNum v).

(** [FuzzySet.fuzzify] *)
Definition fuzzify (self : FuzzySet) (crisp_value : num) : M value :=
  if String.eqb (fs_type self) "TRI" then
    match fs_values self with
    | [a; b; c] =>
        if between a crisp_value b then slope crisp_value a b a
        else if between b crisp_value c then slope c crisp_value c b
        else ret (VNum (Int 0))
    | _ => raise ValueError
    end
  else if String.eqb (fs_type self) "TRAP" then
    match fs_values self with
    | [a; b; c; d] =>
        if between a crisp_value b then slope crisp_value a b a
        else if between b crisp_value c then ret (VNum (Int 1))
        else if between c crisp_value d then slope d crisp_value d c
        else ret (VNum (Int 0))
    | _ => raise ValueError
    end
  else ret VNone.

(** ** class Variable *)

Record FuzzyVariable : Type := mkVariable {
  var_name : string;
  var_type : string;
  var_range : list num;
  fuzzy_sets : dict FuzzySet
}.

Definition Variable_init (name var_type : string) (range_ : list num)
  : FuzzyVariable :=
  {| var_name := name; var_type := upper var_type; var_range := range_;
     fuzzy_sets := [] |}.

Definition add_fuzzy_set (self : FuzzyVariable) (fuzzy_set : FuzzySet)
  : FuzzyVariable :=
  {| var_name := var_name self; var_type := var_type self;
     var_range := var_range self;
     fuzzy_sets := dict_set (fs_name fuzzy_set) fuzzy_set (fuzzy_sets self) |}.

(** ** class FuzzySystem *)

Record FuzzySystem : Type := mkFuzzySystem {
  sys_name : string;
  description : string;
  variables : dict FuzzyVariable;
  rules : list rule
}.

Definition FuzzySystem_init (name description : string) : FuzzySystem :=
  {| sys_name := name; description := description; variables := [];
     rules := [] |}.

Definition add_variable (self : FuzzySystem) (variable : FuzzyVariable)
  : FuzzySystem :=
  {| sys_name := sys_name self; description := description self;
     variables := dict_set (var_name variable) variable (variables self);
     rules := rules self |}.

Definition add_rule (self : FuzzySystem) (r : rule) : FuzzySystem :=
  {| sys_name := sys_name self; description := description self;
     variables := variables self;
     rules := rules self ++ [r] |}.

(** *** FuzzySystem.run_simulation *)

Fixpoint fuzzify_sets (items : list (string * FuzzySet)) (crisp_value : num)
    (acc : dict value) : M (dict value) :=
  match items with
  | [] => ret acc
  | (fs_name, fs) :: rest =>
      v <- fuzzify fs crisp_value ;;
      fuzzify_sets rest crisp_value (dict_set fs_name v acc)
  end.

(** The first loop (lines 54-62). *)
Fixpoint fuzzify_inputs (self : FuzzySystem) (items : list (string * num))
    (fuzzified_values : dict (dict value)) : M (option (dict (dict value))) :=
  match items with
  | [] => ret (Some fuzzified_values)
  | (var_name, crisp_value) :: rest =>
      match dict_get var_name (variables self) with
      | None =>
          print (undefined_variable_message var_name) ;;;
          ret None
      | Some variable =>
          degrees <- fuzzify_sets (fuzzy_sets variable) crisp_value [] ;;
          fuzzify_inputs self rest
            (dict_set var_name degrees fuzzified_values)
      end
  end.

(** The inner loop over the antecedent clauses of one rule (lines 69-79). *)
Fixpoint eval_clauses (fuzzified_values : dict (dict value))
    (in_vars : list clause) (min_degree : value) : M value :=
  match in_vars with
  | [] => ret min_degree
  | (var_name, set_name, operator) :: rest =>
      degrees <- dict_index var_name fuzzified_values ;;
      let degree := dict_get_default set_name degrees (VNum (Int 0)) in
      min_degree' <-
        (if String.eqb operator "and" then py_min min_degree degree
         else if String.eqb operator "or" then py_max min_degree degree
         else if String.eqb operator "and_not" then
           d <- one_minus degree ;; py_min min_degree d
         else
           print (unknown_operator_message operator) ;;;
           py_min min_degree degree) ;;
      eval_clauses fuzzified_values rest min_degree'
  end.

(** The loop over the rules (lines 65-86). *)
Fixpoint infer (fuzzified_values : dict (dict value)) (rs : list rule)
    (inferred_outputs : dict (dict value)) : M (dict (dict value)) :=
  match rs with
  | [] => ret inferred_outputs
  | (in_vars, out_var, out_set) :: rest =>
      min_degree <- eval_clauses fuzzified_values in_vars (VNum (Int 1)) ;;
      let inferred_outputs :=
        if dict_mem out_var inferred_outputs then inferred_outputs
        else dict_set out_var [] inferred_outputs in
      output <- dict_index out_var inferred_outputs ;;
      m <- py_max (dict_get_default out_set output (VNum (Int 0)))
                  min_degree ;;
      infer fuzzified_values rest
        (dict_set out_var (dict_set out_set m output) inferred_outputs)
  end.

Definition value_is_inf (degree : value) : bool :=
  match degree with VNum n => num_is_inf n | VNone => false end.

(** [degree * centroid] *)
Definition value_mul (degree : value) (centroid : num) : M num :=
  match degree with
  | VNum n => num_mul n centroid
  | VNone => raise TypeError
  end.

(** [denominator + degree] *)
Definition add_value (denominator : num) (degree : value) : M num :=
  match degree with
  | VNum n => num_add denominator n
  | VNone => raise TypeError
  end.

(** [sum(values)]: starts from the integer 0 and adds from the left. *)
Fixpoint sum_from (values : list num) (total : num) : M num :=
  match values with
  | [] => ret total
  | v :: rest => total' <- num_add total v ;; sum_from rest total'
  end.

Definition py_sum (values : list num) : M num := sum_from values (Int 0).

Definition py_len (values : list num) : num :=
  Int (Z.of_nat (List.length values)).

(** [sum(fs.values) / len(fs.values)] *)
Definition centroid_of (values : list num) : M num :=
  total <- py_sum values ;; num_div total (py_len values).

(** The loop over the fuzzy sets of one output variable (lines 93-99). *)
Fixpoint defuzz_sets (variable : FuzzyVariable) (items : list (string * value))
    (numerator denominator : num) : M (num * num) :=
  match items with
  | [] => ret (numerator, denominator)
  | (set_name, degree) :: rest =>
      if value_is_inf degree then
        defuzz_sets variable rest numerator denominator
      else
        fs <- dict_index set_name (fuzzy_sets variable) ;;
        centroid <- centroid_of (fs_values fs) ;;
        weighted <- value_mul degree centroid ;;
        numerator' <- num_add numerator weighted ;;
        denominator' <- add_value denominator degree ;;
        defuzz_sets variable rest numerator' denominator'
  end.

(** The body of the loop over the output variables (lines 90-101). *)
Definition defuzz_variable (self : FuzzySystem) (var_name : string)
    (output : dict value) : M num :=
  variable <- dict_index var_name (variables self) ;;
  nd <- defuzz_sets variable output (Int 0) (Int 0) ;;
  let (numerator, denominator) := nd in
  if num_lt (Int 0) denominator then num_div numerator denominator
  else ret (Int 0).

(** The loop over the output variables (lines 89-101). *)
Fixpoint defuzzify (self : FuzzySystem) (items : list (string * dict value))
    (results : dict num) : M (dict num) :=
  match items with
  | [] => ret results
  | (var_name, output) :: rest =>
      r <- defuzz_variable self var_name output ;;
      defuzzify self rest (dict_set var_name r results)
  end.

Definition run_simulation (self : FuzzySystem) (crisp_values : dict num)
  : M (option (dict num)) :=
  fz <- fuzzify_inputs self crisp_values [] ;;
  match fz with
  | None => ret None
  | Some fuzzified_values =>
      inferred_outputs <- infer fuzzified_values (rules self) [] ;;
      results <- defuzzify self inferred_outputs [] ;;
      ret (Some results)
  end.

(** ** The demonstration model of [load_test_case] *)

Section Demo.
Local Open Scope string_scope.

Definition with_sets (self : FuzzySystem) (var_name : string)
    (sets : list FuzzySet) : FuzzySystem :=
  match dict_get var_name (variables self) with
  | Some v => add_variable self (fold_left add_fuzzy_set sets v)
  | None => self
  end.

Definition fuzzy_set (name type_ : string) (values : list num) : FuzzySet :=
  {| fs_name := name; fs_type := upper type_; fs_values := values |}.

Definition load_test_case (system : FuzzySystem) : FuzzySystem :=
  let system := add_variable system (Variable_init "proj_funding" "IN" [Int 0; Int 100]) in
  let system := add_variable system (Variable_init "exp_level" "IN" [Int 0; Int 60]) in
  let system := add_variable system (Variable_init "risk" "OUT" [Int 0; Int 100]) in
  let system := with_sets system "proj_funding"
    [ fuzzy_set "very_low" "TRAP" [Int 0; Int 0; Int 10; Int 30];
      fuzzy_set "low" "TRAP" [Int 10; Int 30; Int 40; Int 60];
      fuzzy_set "medium" "TRAP" [Int 40; Int 60; Int 70; Int 90];
      fuzzy_set "high" "TRAP" [Int 70; Int 90; Int 100; Int 100] ] in
  let system := with_sets system "exp_level"
    [ fuzzy_set "beginner" "TRI" [Int 0; Int 15; Int 30];
      fuzzy_set "intermediate" "TRI" [Int 15; Int 30; Int 45];
      fuzzy_set "expert" "TRI" [Int 30; Int 60; Int 60] ] in
  let system := with_sets system "risk"
    [ fuzzy_set "low" "TRI" [Int 0; Int 25; Int 50];
      fuzzy_set "normal" "TRI" [Int 25; Int 50; Int 75];
      fuzzy_set "high" "TRI" [Int 50; Int 100; Int 100] ] in
  let system := add_rule system
    ([("proj_funding", "high", "or"); ("exp_level", "expert", "or")], "risk", "low") in
  let system := add_rule system
    ([("proj_funding", "medium", "and"); ("exp_level", "intermediate", "and")], "risk", "normal") in
  let system := add_rule system
    ([("proj_funding", "medium", "and"); ("exp_level", "beginner", "and")], "risk", "normal") in
  let system := add_rule system
    ([("proj_funding", "low", "and"); ("exp_level", "beginner", "and")], "risk", "high") in
  add_rule system
    ([("proj_funding", "very_low", "and_not"); ("exp_level", "expert", "and_not")], "risk", "high").

Definition test_case : FuzzySystem :=
  load_test_case (FuzzySystem_init "test_case" "Predefined system for testing.").

(** [test_inputs] of [main]. *)
Definition demo_inputs : dict num :=
  [("proj_funding", Int 50); ("exp_level", Int 40)].

Definition demo_fuzzified : dict (dict value) :=
  match fuzzify_inputs test_case demo_inputs [] with
  | (_, Ok (Some fz)) => fz
  | _ => []
  end.

(** A triangular set whose integer parameters lie beyond [2^53], where the
    floats are two apart, and a model with a rule made of one "or" clause
    on it. *)
Definition far_set : FuzzySet :=
  fuzzy_set "far" "TRI"
    [Int 9007199254740993; Int 9007199254740994; Int 9007199254741002].

Definition far_case : FuzzySystem :=
  let system := FuzzySystem_init "far_case" "Parameters beyond 2^53." in
  let system := add_variable system (Variable_init "x" "IN" []) in
  let system := add_variable system (Variable_init "y" "OUT" []) in
  let system := with_sets system "x" [far_set] in
  let system := with_sets system "y"
    [fuzzy_set "on" "TRI" [Int 0; Int 1; Int 2]] in
  add_rule system ([("x", "far", "or")], "y", "on").

End Demo.

(** ** Definitions used to state the properties *)

Definition is_int (x : num) : bool :=
  match x with Int _ => true | Float _ => false end.

Definition is_float (x : num) : bool :=
  match x with Int _ => false | Float _ => true end.

(** The rational is a binary64 number: rounding leaves it as it is. *)
Definition is_binary64 (q : Q) : bool :=
  match round q with Fin r => Qeq_bool r q | _ => false end.

(** A number of the unit interval. *)
Definition in_unit (x : num) : Prop :=
  match exact x with Fin q => 0 <= q <= 1 | _ => False end.

(** A number of the unit interval, or not-a-number. *)
Definition unit_or_nan (x : num) : Prop :=
  match exact x with
  | Fin q => 0 <= q <= 1
  | Inf _ => False
  | NaN => True
  end.

(** The type is one of the two shapes. *)
Definition known_type (fs : FuzzySet) : bool :=
  String.eqb (fs_type fs) "TRI" || String.eqb (fs_type fs) "TRAP".

(** The type is one of the two shapes and the parameters are not as many
    as the shape takes. *)
Definition wrong_count (fs : FuzzySet) : bool :=
  (String.eqb (fs_type fs) "TRI"
   && negb (Nat.eqb (List.length (fs_values fs)) 3))
  || (String.eqb (fs_type fs) "TRAP"
      && negb (Nat.eqb (List.length (fs_values fs)) 4)).

(** The shape a fuzzy set of integer parameters stands for. *)
Definition int_shape_of (fs : FuzzySet) : option shape :=
  if String.eqb (fs_type fs) "TRI" then
    match fs_values fs with
    | [Int a; Int b; Int c] =>
        Some (TRIANGULAR (inject_Z a) (inject_Z b) (inject_Z c))
    | _ => None
    end
  else if String.eqb (fs_type fs) "TRAP" then
    match fs_values fs with
    | [Int a; Int b; Int c; Int d] =>
        Some (TRAPEZOIDAL (inject_Z a) (inject_Z b) (inject_Z c) (inject_Z d))
    | _ => None
    end
  else None.

(** The shape a fuzzy set of finite float parameters stands for. *)
Definition float_shape_of (fs : FuzzySet) : option shape :=
  if String.eqb (fs_type fs) "TRI" then
    match fs_values fs with
    | [Float (Fin a); Float (Fin b); Float (Fin c)] =>
        if is_binary64 a && is_binary64 b && is_binary64 c
        then Some (TRIANGULAR a b c) else None
    | _ => None
    end
  else if String.eqb (fs_type fs) "TRAP" then
    match fs_values fs with
    | [Float (Fin a); Float (Fin b); Float (Fin c); Float (Fin d)] =>
        if is_binary64 a && is_binary64 b && is_binary64 c && is_binary64 d
        then Some (TRAPEZOIDAL a b c d) else None
    | _ => None
    end
  else None.

(** [(p - q) / (r - s)] on floats: each difference rounded, then the
    quotient rounded. *)
Definition float_slope (p q r s : Q) : float :=
  float_quot (round (p - q)) (round (r - s)).


(** Three numbers of one kind. *)
Definition one_kind3 (a x b : num) : bool :=
  (is_int a && is_int x && is_int b)
  || (is_float a && is_float x && is_float b).

(** The numbers of a model: the parameters of all its fuzzy sets. *)
Definition model_numbers (self : FuzzySystem) : list num :=
  flat_map (fun e => flat_map (fun s => fs_values (snd s))
                              (fuzzy_sets (snd e)))
           (variables self).

(** The parameters of the model and the crisp values are all of one kind:
    all [int], or all [float]. *)
Definition one_kind (self : FuzzySystem) (crisp_values : dict num) : bool :=
  let numbers := (map snd crisp_values ++ model_numbers self)%list in
  forallb is_int numbers || forallb is_float numbers.

Definition degree_ok (v : value) : Prop :=
  match v with VNone => True | VNum r => unit_or_nan r end.

(** Every degree stored in [fuzzified_values] is [None], not-a-number or
    in the unit interval. *)
Definition fuzzified_ok (fz : dict (dict value)) : Prop :=
  Forall (fun e => Forall (fun p => degree_ok (snd p)) (snd e)) fz.

(** The number a clause reads, when its variable was fuzzified and the
    degree is a number. *)
Definition clause_degree (fz : dict (dict value)) (c : clause) : option num :=
  let '(var_name, set_name, _) := c in
  match dict_get var_name fz with
  | None => None
  | Some degrees =>
      match dict_get_default set_name degrees (VNum (Int 0)) with
      | VNum d => Some d
      | VNone => None
      end
  end.

Definition reads_number (fz : dict (dict value)) (c : clause) : bool :=
  match clause_degree fz c with Some _ => true | None => false end.

(** [inferred_outputs] once the source has made sure [out_var] has an
    entry, and that entry. *)
Definition ensured (out_var : string) (io : dict (dict value))
  : dict (dict value) :=
  if dict_mem out_var io then io else dict_set out_var [] io.

Definition entry_of (out_var : string) (io : dict (dict value)) : dict value :=
  match dict_get out_var io with Some output => output | None => [] end.

(** Every aggregated degree stored is a number of the unit interval. *)
Definition unit_outputs (inferred_outputs : dict (dict value)) : Prop :=
  Forall (fun e =>
            Forall (fun p => exists d, snd p = VNum d /\ in_unit d) (snd e))
         inferred_outputs.

(** [sum(values) / len(values)] returns a number: the list is not empty and
    neither the sum nor the quotient is beyond the floats. *)
Definition centroid_ok (values : list num) : bool :=
  match centroid_of values with
  | (_, Ok _) => true
  | (_, Raise _) => false
  end.

(** The consequent names a variable of the model and one of its fuzzy
    sets, and the centroid of that set can be computed. *)
Definition consequent_ok (self : FuzzySystem) (r : rule) : bool :=
  match dict_get (out_var_of r) (variables self) with
  | None => false
  | Some variable =>
      match dict_get (out_set_of r) (fuzzy_sets variable) with
      | None => false
      | Some fs => centroid_ok (fs_values fs)
      end
  end.

(** A number that the clause loop can carry: an integer degree is 0 or 1
    (the literals of the source and [1 - degree] on them); any float. *)
Definition small (r : num) : Prop :=
  match r with
  | Int z => (0 <= z <= 1)%Z
  | Float _ => True
  end.

Definition small_value (v : value) : Prop :=
  match v with VNone => True | VNum r => small r end.

(** Every integer degree stored in [fuzzified_values] is 0 or 1. *)
Definition fuzzified_small (fz : dict (dict value)) : Prop :=
  Forall (fun e => Forall (fun p => small_value (snd p)) (snd e)) fz.

Definition set_ok (variable : FuzzyVariable) (set_name : string) : Prop :=
  exists fs,
    dict_get set_name (fuzzy_sets variable) = Some fs /\
    centroid_ok (fs_values fs) = true.

(** An entry of [inferred_outputs] that defuzzification can process, with
    at most [bound] fuzzy sets. *)
Definition entry_ok (self : FuzzySystem) (bound : Z)
    (e : string * dict value) : Prop :=
  exists variable,
    dict_get (fst e) (variables self) = Some variable /\
    (Z.of_nat (List.length (snd e)) <= bound)%Z /\
    Forall (fun p => (exists r, snd p = VNum r /\ small r)
                     /\ set_ok variable (fst p))
           (snd e).

(** The numerator of the defuzzification loop: the integer 0 it starts
    from, or a float. *)
Definition numerator_ok (n : num) : Prop :=
  match n with Int z => z = 0%Z | Float _ => True end.

(** Its denominator: a float, or an integer count of at most [bound]. *)
Definition denominator_ok (bound : Z) (d : num) : Prop :=
  match d with Int z => (0 <= z <= bound)%Z | Float _ => True end.

Definition rule_ok (self : FuzzySystem) (fz : dict (dict value)) (r : rule)
  : bool :=
  forallb (reads_number fz) (antecedents r) && consequent_ok self r.

Definition rules_ok (self : FuzzySystem) (fz : dict (dict value)) : bool :=
  forallb (rule_ok self fz) (rules self).

End Py.

(** * Properties

    This part and the next are about the embedding in exact arithmetic:
    which expression each result is, which exceptions the control flow
    meets, what is printed.  The last part is about [Py]. *)

Open Scope string_scope.

(** ** Computations *)

Lemma bind_ret {A B} (a : A) (k : A -> M B) : bind (ret a) k = k a.
Proof. unfold bind, ret. destruct (k a); reflexivity. Qed.

Lemma bind_Ok {A B} (m : M A) (k : A -> M B) out a out' r :
  m = (out, Ok a) -> k a = (out', r) -> bind m k = ((out ++ out')%list, r).
Proof. intros -> H. unfold bind. rewrite H. reflexivity. Qed.

Lemma bind_inv_Ok {A B} (m : M A) (k : A -> M B) out b :
  bind m k = (out, Ok b) ->
  exists out1 a out2,
    m = (out1, Ok a) /\ k a = (out2, Ok b) /\ out = (out1 ++ out2)%list.
Proof.
  unfold bind. destruct m as [out1 [a | e]]; [| discriminate].
  destruct (k a) as [out2 r] eqn:E. intros H. inversion H; subst.
  exists out1, a, out2. auto.
Qed.

(** ** Rational comparisons *)

Lemma Qlt_bool_iff (x y : Q) : Qlt_bool x y = true <-> x < y.
Proof.
  unfold Qlt_bool. rewrite negb_true_iff. split; intros H.
  - apply Qnot_le_lt. intros L. apply Qle_bool_iff in L. congruence.
  - destruct (Qle_bool y x) eqn:E; [| reflexivity].
    apply Qle_bool_iff in E. exfalso. apply (Qlt_not_le _ _ H E).
Qed.

Lemma Qlt_bool_false (x y : Q) : Qlt_bool x y = false <-> y <= x.
Proof.
  unfold Qlt_bool. rewrite negb_false_iff. apply Qle_bool_iff.
Qed.

Lemma Qle_bool_false (x y : Q) : Qle_bool x y = false <-> y < x.
Proof.
  rewrite <- Qlt_bool_iff. unfold Qlt_bool.
  destruct (Qle_bool x y); simpl; split; congruence.
Qed.

Lemma Qeq_bool_false (x y : Q) : Qeq_bool x y = false <-> ~ x == y.
Proof.
  rewrite <- Qeq_bool_iff. destruct (Qeq_bool x y); split; congruence.
Qed.

(** The builtin [min] and [max] agree, on finite numbers, with the
    minimum and maximum of rationals, up to the choice of representative. *)
Lemma py_min_Fin (a d : Q) :
  py_min (VNum (Fin a)) (VNum (Fin d)) = ret (VNum (Fin (Qmin a d))).
Proof.
  unfold py_min, value_lt. rewrite bind_ret. simpl.
  unfold Qmin, GenericMinMax.gmin, Qlt_bool, Qle_bool, Qcompare, Z.leb.
  destruct (Qnum a * QDen d ?= Qnum d * QDen a)%Z; reflexivity.
Qed.

Lemma py_max_Fin (a d : Q) :
  py_max (VNum (Fin a)) (VNum (Fin d)) = ret (VNum (Fin (Qmax a d))).
Proof.
  unfold py_max, value_lt. rewrite bind_ret. simpl.
  unfold Qmax, GenericMinMax.gmax, Qlt_bool, Qle_bool, Qcompare, Z.leb.
  rewrite (Z.compare_antisym (Qnum a * QDen d) (Qnum d * QDen a)).
  destruct (Qnum a * QDen d ?= Qnum d * QDen a)%Z; reflexivity.
Qed.

(** ** Dictionaries *)

Lemma dict_get_set_same {V} (k : string) (v : V) (d : dict V) :
  dict_get k (dict_set k v d) = Some v.
Proof.
  induction d as [| [k' v'] d IH]; simpl.
  - rewrite String.eqb_refl. reflexivity.
  - destruct (String.eqb k k') eqn:E; simpl; rewrite E; auto.
Qed.

Lemma dict_get_set_other {V} (k k0 : string) (v : V) (d : dict V) :
  k0 <> k -> dict_get k0 (dict_set k v d) = dict_get k0 d.
Proof.
  intros N. induction d as [| [k' v'] d IH]; simpl.
  - apply String.eqb_neq in N. rewrite N. reflexivity.
  - destruct (String.eqb k k') eqn:E; simpl.
    + apply String.eqb_eq in E. subst k'.
      apply String.eqb_neq in N. rewrite N. reflexivity.
    + rewrite IH. reflexivity.
Qed.

Lemma dict_set_Forall {V} (P : string * V -> Prop) k v (d : dict V) :
  Forall P d -> (forall k', P (k', v)) -> Forall P (dict_set k v d).
Proof.
  intros H Hv. induction H as [| [k' v'] d Hx Hd IH]; simpl.
  - constructor; auto.
  - destruct (String.eqb k k'); constructor; auto.
Qed.

Lemma dict_get_Forall {V} (P : string * V -> Prop) k v (d : dict V) :
  Forall P d -> dict_get k d = Some v -> exists k', P (k', v).
Proof.
  intros H. induction H as [| [k' v'] d Hx Hd IH]; simpl; [discriminate |].
  destruct (String.eqb k k').
  - intros E. inversion E; subst. eauto.
  - auto.
Qed.

Lemma dict_get_In {V} k (v : V) (d : dict V) :
  dict_get k d = Some v -> In (k, v) d.
Proof.
  induction d as [| [k' v'] d IH]; simpl; [discriminate |].
  destruct (String.eqb k k') eqn:E.
  - apply String.eqb_eq in E. intros H. inversion H; subst. auto.
  - auto.
Qed.

(** ** Membership functions *)


Lemma between_Fin (a x b : Q) :
  between (Fin a) (Fin x) (Fin b) = true <-> a <= x <= b.
Proof.
  unfold between. simpl. rewrite andb_true_iff, !Qle_bool_iff. tauto.
Qed.

Lemma between_Fin_false (a x b : Q) :
  between (Fin a) (Fin x) (Fin b) = false <-> x < a \/ b < x.
Proof.
  unfold between. simpl. rewrite andb_false_iff, !Qle_bool_false. tauto.
Qed.

(** A rising edge: the quotient is a degree. *)
Lemma ratio_unit (lo x hi : Q) :
  lo < hi -> lo <= x <= hi -> 0 <= (x - lo) / (hi - lo) <= 1.
Proof.
  intros L [H1 H2]. split.
  - apply Qle_shift_div_l; lra.
  - apply Qle_shift_div_r; lra.
Qed.

(** A falling edge. *)
Lemma ratio_unit_down (lo x hi : Q) :
  lo < hi -> lo <= x <= hi -> 0 <= (hi - x) / (hi - lo) <= 1.
Proof.
  intros L [H1 H2]. split.
  - apply Qle_shift_div_l; lra.
  - apply Qle_shift_div_r; lra.
Qed.



(** C10: a fuzzy set constructed with a type that, uppercased, is neither
    "TRI" nor "TRAP" makes [fuzzify] return [None] for every input, without
    printing or raising; and a rule clause that meets such a degree cannot
    combine it: whatever the operator and the accumulator, the evaluation of
    the rule raises a TypeError. *)
Theorem fuzzify_unknown_type_returns_None
    (name type_ : string) (values : list num) (fs : FuzzySet) :
  upper type_ <> "TRI" ->
  upper type_ <> "TRAP" ->
  FuzzySet_init name type_ values = Ok fs ->
  (forall x, fuzzify fs x = ([], Ok VNone)) /\
  (forall fz var_name set_name operator rest acc degrees,
      dict_get var_name fz = Some degrees ->
      dict_get set_name degrees = Some VNone ->
      exists out,
        eval_clauses fz ((var_name, set_name, operator) :: rest) acc
          = (out, Raise TypeError)).
Proof.
  intros N1 N2 E. unfold FuzzySet_init in E. inversion E; subst fs; clear E.
  split.
  - intros x. unfold fuzzify. simpl.
    apply String.eqb_neq in N1, N2. rewrite N1, N2. reflexivity.
  - intros fz v s op rest acc degrees Hv Hs. cbn [eval_clauses].
    unfold dict_index. rewrite Hv. rewrite bind_ret.
    unfold dict_get_default. rewrite Hs.
    assert (Hmin : py_min acc VNone = ([], Raise TypeError)) by reflexivity.
    assert (Hmax : py_max acc VNone = ([], Raise TypeError))
      by (destruct acc; reflexivity).
    destruct (String.eqb op "and").
    { rewrite Hmin. eexists; reflexivity. }
    destruct (String.eqb op "or").
    { rewrite Hmax. eexists; reflexivity. }
    destruct (String.eqb op "and_not").
    { eexists; reflexivity. }
    rewrite Hmin. eexists; reflexivity.
Qed.

Lemma fuzzify_unknown_type_returns_None_witness :
  fuzzify {| fs_name := "wide"; fs_type := "GAUSS";
             fs_values := [int 0; int 1] |} (int 5) = ([], Ok VNone) /\
  exists out,
    eval_clauses [("x", [("wide", VNone)])] [("x", "wide", "or")]
      (VNum (Fin 1)) = (out, Raise TypeError).
Proof.
  destruct (fuzzify_unknown_type_returns_None "wide" "gauss" [int 0; int 1]
              {| fs_name := "wide"; fs_type := "GAUSS";
                 fs_values := [int 0; int 1] |}) as [H1 H2].
  - discriminate.
  - discriminate.
  - reflexivity.
  - split.
    + exact (H1 (int 5)).
    + exact (H2 [("x", [("wide", VNone)])] "x" "wide" "or" [] (VNum (Fin 1))
                [("wide", VNone)] eq_refl eq_refl).
Defined.

(** C9, as the specification states it, fails: constructing a triangular
    set with two parameters succeeds. *)
Lemma wrong_count_accepted_at_construction :
  wrong_parameter_count (upper "tri") [int 0; int 25] = true /\
  FuzzySet_init "low" "tri" [int 0; int 25]
    = Ok {| fs_name := "low"; fs_type := "TRI";
            fs_values := [int 0; int 25] |}.
Proof. split; reflexivity. Qed.

(** C9 (amended): construction accepts any parameter list; a set whose
    parameter count does not fit its declared type is rejected only when it
    is fuzzified, where unpacking its parameters raises a ValueError for
    every crisp value. *)
Theorem wrong_count_fails_at_fuzzification
    (name type_ : string) (values : list num) :
  wrong_parameter_count (upper type_) values = true ->
  exists fs,
    FuzzySet_init name type_ values = Ok fs /\
    forall x, fuzzify fs x = ([], Raise ValueError).
Proof.
  intros W. eexists. split; [reflexivity |]. intros x.
  unfold fuzzify. simpl. unfold wrong_parameter_count in W.
  destruct (String.eqb (upper type_) "TRI") eqn:Tri.
  - simpl in W. rewrite orb_true_iff in W. destruct W as [W | W].
    + destruct values as [| a [| b [| c [| d rest]]]];
        try reflexivity; discriminate.
    + apply String.eqb_eq in Tri. rewrite Tri in W. discriminate.
  - simpl in W.
    destruct (String.eqb (upper type_) "TRAP") eqn:Trap; [| discriminate].
    destruct values as [| a [| b [| c [| d [| e rest]]]]];
      try reflexivity; discriminate.
Qed.

Lemma wrong_count_fails_at_fuzzification_witness :
  exists fs,
    FuzzySet_init "low" "tri" [int 0; int 25] = Ok fs /\
    forall x, fuzzify fs x = ([], Raise ValueError).
Proof.
  apply (wrong_count_fails_at_fuzzification "low" "tri" [int 0; int 25]).
  reflexivity.
Defined.

(** ** Firing strength *)

(** One step of the clause loop, on a finite accumulator and a clause that
    reads a finite degree. *)
Lemma eval_clauses_step fz c rest (acc d : Q) :
  clause_degree fz c = Some d ->
  eval_clauses fz (c :: rest) (VNum (Fin acc)) =
  bind (if recognized (operator_of c) then ret tt
        else print (unknown_operator_message (operator_of c)))
       (fun _ => eval_clauses fz rest
                   (VNum (Fin (spec_combine acc d (operator_of c))))).
Proof.
  destruct c as [[v s] op]. unfold clause_degree, operator_of. simpl snd.
  intros H. cbn [eval_clauses]. unfold dict_index.
  destruct (dict_get v fz) as [degrees |]; [| discriminate].
  rewrite bind_ret.
  destruct (dict_get_default s degrees (VNum (Fin 0))) as [| [q | |]];
    try discriminate.
  inversion H; subst q; clear H.
  unfold spec_combine, recognized.
  assert (Hone : one_minus (VNum (Fin d)) = ret (VNum (Fin (1 - d))))
    by reflexivity.
  destruct (String.eqb op "and").
  { cbn [orb]. rewrite py_min_Fin, !bind_ret. reflexivity. }
  destruct (String.eqb op "or").
  { cbn [orb]. rewrite py_max_Fin, !bind_ret. reflexivity. }
  destruct (String.eqb op "and_not").
  { cbn [orb]. rewrite Hone, bind_ret, py_min_Fin, !bind_ret. reflexivity. }
  cbn [orb]. rewrite py_min_Fin. unfold bind, print, ret.
  destruct (eval_clauses fz rest (VNum (Fin (Qmin acc d)))) as [out r].
  reflexivity.
Qed.

Lemma eval_clauses_fold fz in_vars (acc : Q) :
  clauses_resolved fz in_vars = true ->
  eval_clauses fz in_vars (VNum (Fin acc)) =
  (warnings in_vars,
   Ok (VNum (Fin (fold_left
                    (fun a c => spec_combine a (degree_of fz c) (operator_of c))
                    in_vars acc)))).
Proof.
  revert acc. induction in_vars as [| c rest IH]; intros acc R.
  - reflexivity.
  - simpl in R. apply andb_true_iff in R. destruct R as [Rc Rrest].
    destruct (clause_degree fz c) as [d |] eqn:D; [| discriminate].
    rewrite (eval_clauses_step fz c rest acc d D).
    rewrite (IH _ Rrest). unfold warnings, degree_of. simpl. rewrite D.
    destruct (recognized (operator_of c)); reflexivity.
Qed.

(** C1: when every clause of a rule reads a finite degree (its variable was
    fuzzified; a missing set name reads 0), the strength computed by the
    clause loop is the left fold of [spec_combine] over the clauses in
    order, from 1: min for "and", max for "or", min with 1 - d for
    "and_not", and min for any other operator token, which also prints one
    warning. *)
Theorem firing_strength_is_left_fold fz in_vars :
  clauses_resolved fz in_vars = true ->
  eval_clauses fz in_vars (VNum (Fin 1)) =
  (warnings in_vars, Ok (VNum (Fin (spec_firing_strength fz in_vars)))).
Proof. intros R. apply eval_clauses_fold. exact R. Qed.

(** ** The range of fuzzification, infinities included *)

Lemma num_div_inv (x y : num) out r :
  num_div x y = (out, Ok r) ->
  is_zero y = false /\ out = [] /\
  r = match x, y with
      | NaN, _ | _, NaN => NaN
      | Fin p, Fin q => Fin (p / q)
      | Fin _, Inf _ => Fin 0
      | Inf s, Fin q => Inf (xorb s (Qneg q))
      | Inf _, Inf _ => NaN
      end.
Proof.
  unfold num_div. destruct (is_zero y); [discriminate |].
  intros H. inversion H. auto.
Qed.

Lemma rising_edge_range (a x b : num) out r :
  between a x b = true ->
  num_div (num_sub x a) (num_sub b a) = (out, Ok r) ->
  unit_or_nan r.
Proof.
  intros B D. apply num_div_inv in D. destruct D as (Z & _ & ->).
  destruct a as [a | [] |], x as [x | [] |], b as [b | [] |];
    try discriminate B; simpl; try exact I; try lra.
  apply between_Fin in B. simpl in Z. apply Qeq_bool_false in Z.
  apply ratio_unit; [| assumption].
  destruct B as [B1 B2]. apply Qnot_le_lt. intros L. apply Z. lra.
Qed.

Lemma falling_edge_range (c x d : num) out r :
  between c x d = true ->
  num_div (num_sub d x) (num_sub d c) = (out, Ok r) ->
  unit_or_nan r.
Proof.
  intros B D. apply num_div_inv in D. destruct D as (Z & _ & ->).
  destruct c as [c | [] |], x as [x | [] |], d as [d | [] |];
    try discriminate B; simpl; try exact I; try lra.
  apply between_Fin in B. simpl in Z. apply Qeq_bool_false in Z.
  apply ratio_unit_down; [| assumption].
  destruct B as [B1 B2]. apply Qnot_le_lt. intros L. apply Z. lra.
Qed.

(** In exact arithmetic, whatever the parameters and the crisp value, a
    number returned by [fuzzify] is not-a-number or lies in [0, 1].  With
    Python's numbers this holds when they are all of one kind
    ([py_fuzzify_range]) and fails when integers meet floats. *)
Lemma fuzzify_range (fs : FuzzySet) (x : num) out r :
  fuzzify fs x = (out, Ok (VNum r)) -> unit_or_nan r.
Proof.
  unfold fuzzify.
  assert (E : forall m out r, bind m (fun r => ret (VNum r))
                = (out, Ok (VNum r)) -> m = (out, Ok r)).
  { intros [o [a | e]] out' r'; unfold bind, ret; intros H; inversion H.
    rewrite app_nil_r. reflexivity. }
  destruct (String.eqb (fs_type fs) "TRI").
  - destruct (fs_values fs) as [| a [| b [| c [| ? ?]]]]; try discriminate.
    destruct (between a x b) eqn:B1.
    { intros H. apply E in H. eapply rising_edge_range; eauto. }
    destruct (between b x c) eqn:B2.
    { intros H. apply E in H. eapply falling_edge_range; eauto. }
    intros H. inversion H. simpl. lra.
  - destruct (String.eqb (fs_type fs) "TRAP"); [| discriminate].
    destruct (fs_values fs) as [| a [| b [| c [| d [| ? ?]]]]];
      try discriminate.
    destruct (between a x b) eqn:B1.
    { intros H. apply E in H. eapply rising_edge_range; eauto. }
    destruct (between b x c) eqn:B2.
    { intros H. inversion H. simpl. lra. }
    destruct (between c x d) eqn:B3.
    { intros H. apply E in H. eapply falling_edge_range; eauto. }
    intros H. inversion H. simpl. lra.
Qed.

Lemma fuzzify_sets_ok items x acc out d :
  Forall (fun p => degree_ok (snd p)) acc ->
  fuzzify_sets items x acc = (out, Ok d) ->
  Forall (fun p => degree_ok (snd p)) d.
Proof.
  revert acc out. induction items as [| [name fs] rest IH]; intros acc out A H.
  - inversion H; subst. exact A.
  - cbn [fuzzify_sets] in H. apply bind_inv_Ok in H.
    destruct H as (o1 & v & o2 & Hf & Hrest & _).
    apply (IH (dict_set name v acc) o2); [| exact Hrest].
    apply dict_set_Forall; [exact A |]. intros k'. simpl.
    destruct v as [| r]; simpl; [exact I |].
    eapply fuzzify_range; eauto.
Qed.

Lemma fuzzify_inputs_ok self items fz0 out fz :
  fuzzified_ok fz0 ->
  fuzzify_inputs self items fz0 = (out, Ok (Some fz)) ->
  fuzzified_ok fz.
Proof.
  revert fz0 out. induction items as [| [name x] rest IH]; intros fz0 out A H.
  - inversion H; subst. exact A.
  - cbn [fuzzify_inputs] in H.
    destruct (dict_get name (variables self)) as [variable |].
    + apply bind_inv_Ok in H.
      destruct H as (o1 & degrees & o2 & Hs & Hrest & _).
      apply (IH (dict_set name degrees fz0) o2); [| exact Hrest].
      apply dict_set_Forall; [exact A |]. intros k'. simpl.
      eapply fuzzify_sets_ok; [| exact Hs]. constructor.
    + discriminate H.
Qed.


Lemma firing_strength_is_left_fold_witness :
  clauses_resolved demo_fuzzified
    [("proj_funding", "medium", "and"); ("exp_level", "expert", "and_not");
     ("exp_level", "absent", "or"); ("exp_level", "beginner", "xor")] = true /\
  eval_clauses demo_fuzzified
    [("proj_funding", "medium", "and"); ("exp_level", "expert", "and_not");
     ("exp_level", "absent", "or"); ("exp_level", "beginner", "xor")]
    (VNum (Fin 1)) =
  (warnings
     [("proj_funding", "medium", "and"); ("exp_level", "expert", "and_not");
      ("exp_level", "absent", "or"); ("exp_level", "beginner", "xor")],
   Ok (VNum (Fin (spec_firing_strength demo_fuzzified
     [("proj_funding", "medium", "and"); ("exp_level", "expert", "and_not");
      ("exp_level", "absent", "or"); ("exp_level", "beginner", "xor")])))).
Proof.
  split; [reflexivity |].
  apply (firing_strength_is_left_fold demo_fuzzified). reflexivity.
Defined.

Lemma Qmax_one (d : Q) : d <= 1 -> Qmax 1 d = 1.
Proof.
  intros H. unfold Qmax, GenericMinMax.gmax.
  destruct (Qcompare 1 d) eqn:E; try reflexivity.
  apply Qlt_alt in E. lra.
Qed.

(** ** Aggregation *)

Lemma agg_degree_finite io v s :
  outputs_finite io -> agg_degree io v s = VNum (Fin (agg_q io v s)).
Proof.
  intros F. unfold agg_q, agg_degree.
  destruct (dict_get v io) as [output |] eqn:G; [| reflexivity].
  destruct (dict_get_Forall _ _ _ _ F G) as [k' Ho]. simpl in Ho.
  unfold dict_get_default.
  destruct (dict_get s output) as [d |] eqn:S; [| reflexivity].
  destruct (dict_get_Forall _ _ _ _ Ho S) as [k'' [q Hq]]. simpl in Hq.
  subst d. reflexivity.
Qed.

Lemma dict_index_ensured out_var io :
  dict_index out_var (ensured out_var io) = ret (entry_of out_var io).
Proof.
  unfold ensured, dict_mem, dict_index, entry_of.
  destruct (dict_get out_var io) as [output |] eqn:G.
  - rewrite G. reflexivity.
  - rewrite dict_get_set_same. reflexivity.
Qed.

Lemma entry_default io v s :
  dict_get_default s (entry_of v io) (VNum (Fin 0)) = agg_degree io v s.
Proof.
  unfold entry_of, agg_degree. destruct (dict_get v io); reflexivity.
Qed.

Lemma agg_degree_update io out_var out_set m v s :
  agg_degree
    (dict_set out_var (dict_set out_set m (entry_of out_var io))
       (ensured out_var io)) v s
  = if String.eqb v out_var && String.eqb s out_set then m
    else agg_degree io v s.
Proof.
  unfold agg_degree.
  destruct (String.eqb v out_var) eqn:Ev.
  - apply String.eqb_eq in Ev. subst v. rewrite dict_get_set_same.
    unfold dict_get_default.
    destruct (String.eqb s out_set) eqn:Es; simpl.
    + apply String.eqb_eq in Es. subst s. rewrite dict_get_set_same.
      reflexivity.
    + apply String.eqb_neq in Es. rewrite dict_get_set_other by exact Es.
      unfold entry_of. destruct (dict_get out_var io); reflexivity.
  - apply String.eqb_neq in Ev. simpl.
    rewrite dict_get_set_other by exact Ev.
    unfold ensured. destruct (dict_mem out_var io); [reflexivity |].
    rewrite dict_get_set_other by exact Ev. reflexivity.
Qed.

Lemma outputs_finite_update io out_var out_set q :
  outputs_finite io ->
  outputs_finite
    (dict_set out_var (dict_set out_set (VNum (Fin q)) (entry_of out_var io))
       (ensured out_var io)).
Proof.
  intros F. unfold outputs_finite. apply dict_set_Forall.
  - unfold ensured. destruct (dict_mem out_var io); [exact F |].
    apply dict_set_Forall; [exact F |]. intros k'. constructor.
  - intros k'. simpl. apply dict_set_Forall.
    + unfold entry_of. destruct (dict_get out_var io) as [output |] eqn:G.
      * destruct (dict_get_Forall _ _ _ _ F G) as [k'' Ho]. exact Ho.
      * constructor.
    + intros k''. simpl. eauto.
Qed.

Lemma strengths_for_cons fz r rs v s :
  strengths_for fz (r :: rs) v s =
  if concludes v s r then
    spec_firing_strength fz (antecedents r) :: strengths_for fz rs v s
  else strengths_for fz rs v s.
Proof.
  unfold strengths_for. simpl. destruct (concludes v s r); reflexivity.
Qed.

(** The rule loop, from any finite table of aggregated degrees: it
    completes, and each pair ends at the running maximum of its previous
    degree and the strengths of the rules concluding it. *)
Lemma infer_running_maximum fz rs io :
  rules_resolved fz rs = true ->
  outputs_finite io ->
  exists out io',
    infer fz rs io = (out, Ok io') /\
    outputs_finite io' /\
    forall v s,
      agg_degree io' v s =
      VNum (Fin (fold_left Qmax (strengths_for fz rs v s) (agg_q io v s))).
Proof.
  revert io. induction rs as [| [[in_vars out_var] out_set] rest IH];
    intros io R F.
  - exists [], io. split; [reflexivity |]. split; [exact F |].
    intros v s. simpl. apply agg_degree_finite. exact F.
  - simpl in R. apply andb_true_iff in R. destruct R as [Rr Rrest].
    unfold antecedents in Rr. simpl in Rr.
    set (st := spec_firing_strength fz in_vars).
    set (m := Qmax (agg_q io out_var out_set) st).
    destruct (IH _ Rrest (outputs_finite_update io out_var out_set m F))
      as (out & io' & Hinfer & F' & Hagg).
    exists (warnings in_vars ++ out)%list, io'.
    split; [| split; [exact F' |]].
    + cbn [infer]. apply bind_Ok with (a := VNum (Fin st)).
      { apply eval_clauses_fold. exact Rr. }
      cbv beta zeta. fold (ensured out_var io).
      rewrite dict_index_ensured, bind_ret.
      rewrite entry_default, (agg_degree_finite io out_var out_set F).
      rewrite py_max_Fin, bind_ret. exact Hinfer.
    + intros v s. rewrite Hagg, strengths_for_cons.
      unfold agg_q at 1. rewrite agg_degree_update.
      unfold concludes, out_var_of, out_set_of. simpl fst. simpl snd.
      rewrite (String.eqb_sym out_var v), (String.eqb_sym out_set s).
      destruct (String.eqb v out_var && String.eqb s out_set) eqn:E.
      * apply andb_true_iff in E. destruct E as [Ev Es].
        apply String.eqb_eq in Ev, Es. subst v s. reflexivity.
      * reflexivity.
Qed.








(** ** Completion of a run *)

Lemma dict_set_Forall_key {V} (P : string * V -> Prop) k v (d : dict V) :
  Forall P d -> P (k, v) -> Forall P (dict_set k v d).
Proof.
  intros H Hv. induction H as [| [k' v'] d Hx Hd IH]; simpl.
  - constructor; auto.
  - destruct (String.eqb k k') eqn:E; constructor; auto.
    apply String.eqb_eq in E. subst k'. exact Hv.
Qed.

Lemma dict_get_Forall_key {V} (P : string * V -> Prop) k v (d : dict V) :
  Forall P d -> dict_get k d = Some v -> P (k, v).
Proof.
  intros H G. apply dict_get_In in G.
  rewrite Forall_forall in H. apply H. exact G.
Qed.

Lemma py_min_num (a b : num) :
  exists r, py_min (VNum a) (VNum b) = ret (VNum r).
Proof.
  unfold py_min, value_lt. rewrite bind_ret.
  destruct (num_lt b a); eauto.
Qed.

Lemma py_max_num (a b : num) :
  exists r, py_max (VNum a) (VNum b) = ret (VNum r).
Proof.
  unfold py_max, value_lt. rewrite bind_ret.
  destruct (num_lt a b); eauto.
Qed.

(** The clause loop completes, with a number, when every clause reads a
    number. *)
Lemma eval_clauses_completes fz in_vars (acc : num) :
  forallb (reads_number fz) in_vars = true ->
  exists out r, eval_clauses fz in_vars (VNum acc) = (out, Ok (VNum r)).
Proof.
  revert acc. induction in_vars as [| [[v s] op] rest IH]; intros acc R.
  - exists [], acc. reflexivity.
  - cbn [forallb] in R. apply andb_true_iff in R. destruct R as [Rc Rrest].
    unfold reads_number in Rc.
    destruct (dict_get v fz) as [degrees |] eqn:G; [| discriminate].
    destruct (dict_get_default s degrees (VNum (Fin 0))) as [| d] eqn:D;
      [discriminate |].
    cbn [eval_clauses]. unfold dict_index. rewrite G, bind_ret, D.
    destruct (py_min_num acc d) as [r1 H1].
    destruct (py_max_num acc d) as [r2 H2].
    destruct (py_min_num acc (num_sub (Fin 1) d)) as [r3 H3].
    destruct (String.eqb op "and").
    { rewrite H1, bind_ret. apply IH. exact Rrest. }
    destruct (String.eqb op "or").
    { rewrite H2, bind_ret. apply IH. exact Rrest. }
    destruct (String.eqb op "and_not").
    { unfold one_minus. rewrite bind_ret, H3, bind_ret. apply IH.
      exact Rrest. }
    destruct (IH r1 Rrest) as (out & r & H).
    exists (unknown_operator_message op :: out), r.
    rewrite H1. unfold bind, print, ret. rewrite H. reflexivity.
Qed.

Lemma consequent_ok_inv self in_vars out_var out_set :
  consequent_ok self (in_vars, out_var, out_set) = true ->
  exists variable,
    dict_get out_var (variables self) = Some variable /\
    set_ok variable out_set.
Proof.
  unfold consequent_ok, out_var_of, out_set_of. simpl.
  destruct (dict_get out_var (variables self)) as [variable |];
    [| discriminate].
  destruct (dict_get out_set (fuzzy_sets variable)) as [fs |] eqn:S;
    [| discriminate].
  destruct (fs_values fs) eqn:V; [discriminate |].
  intros _. exists variable. split; [reflexivity |].
  exists fs. split; [exact S |]. rewrite V. discriminate.
Qed.

(** The rule loop completes, and leaves only entries that defuzzification
    can process. *)
Lemma infer_completes self fz rs io :
  forallb (rule_ok self fz) rs = true ->
  Forall (entry_ok self) io ->
  exists out io',
    infer fz rs io = (out, Ok io') /\ Forall (entry_ok self) io'.
Proof.
  revert io. induction rs as [| [[in_vars out_var] out_set] rest IH];
    intros io R F.
  - exists [], io. split; [reflexivity | exact F].
  - cbn [forallb] in R. apply andb_true_iff in R. destruct R as [Rr Rrest].
    unfold rule_ok in Rr. apply andb_true_iff in Rr. destruct Rr as [Ra Rc].
    unfold antecedents in Ra. simpl in Ra.
    destruct (eval_clauses_completes fz in_vars (Fin 1) Ra)
      as (o1 & st & Hst).
    destruct (consequent_ok_inv _ _ _ _ Rc) as (variable & Hv & Hs).
    assert (Fe : Forall
              (fun p => (exists r, snd p = VNum r) /\ set_ok variable (fst p))
              (entry_of out_var io)).
    { unfold entry_of. destruct (dict_get out_var io) as [output |] eqn:G;
        [| constructor].
      destruct (dict_get_Forall_key _ _ _ _ F G) as (variable' & Hv' & Ho).
      simpl in Hv'. rewrite Hv in Hv'. inversion Hv'; subst variable'.
      exact Ho. }
    assert (Hex : exists d,
              dict_get_default out_set (entry_of out_var io) (VNum (Fin 0))
              = VNum d).
    { unfold dict_get_default.
      destruct (dict_get out_set (entry_of out_var io)) as [d |] eqn:G;
        [| eauto].
      destruct (dict_get_Forall_key _ _ _ _ Fe G) as [[r Hr] _].
      simpl in Hr. eauto. }
    destruct Hex as [d Hd].
    destruct (py_max_num d st) as [m Hm].
    destruct (IH (dict_set out_var
                    (dict_set out_set (VNum m) (entry_of out_var io))
                    (ensured out_var io)) Rrest) as (o2 & io' & Hinfer & F').
    { apply dict_set_Forall_key.
      - unfold ensured. destruct (dict_mem out_var io); [exact F |].
        apply dict_set_Forall_key; [exact F |].
        exists variable. split; [exact Hv | constructor].
      - exists variable. split; [exact Hv |]. simpl.
        apply dict_set_Forall_key; [exact Fe |].
        split; [simpl; eauto | exact Hs]. }
    exists (o1 ++ o2)%list, io'. split; [| exact F'].
    cbn [infer]. apply bind_Ok with (a := VNum st); [exact Hst |].
    cbv beta zeta. fold (ensured out_var io).
    rewrite dict_index_ensured, bind_ret, Hd, Hm, bind_ret. exact Hinfer.
Qed.








(** ** Undefined input variables *)

Lemma fuzzify_inputs_defined self items fz0 out fz :
  fuzzify_inputs self items fz0 = (out, Ok (Some fz)) ->
  forallb (fun e => dict_mem (fst e) (variables self)) items = true.
Proof.
  revert fz0 out. induction items as [| [name x] rest IH]; intros fz0 out H.
  - reflexivity.
  - cbn [fuzzify_inputs] in H. cbn [forallb fst]. unfold dict_mem at 1.
    destruct (dict_get name (variables self)) as [variable |].
    + apply bind_inv_Ok in H. destruct H as (o1 & d & o2 & _ & Hrest & _).
      simpl. eapply IH. exact Hrest.
    + discriminate H.
Qed.

Lemma fuzzify_inputs_app self before rest fz0 out fz :
  fuzzify_inputs self before fz0 = (out, Ok (Some fz)) ->
  fuzzify_inputs self (before ++ rest)%list fz0 =
  bind (out, Ok tt) (fun _ => fuzzify_inputs self rest fz).
Proof.
  revert fz0 out. induction before as [| [name x] before IH];
    intros fz0 out H.
  - inversion H; subst. simpl.
    destruct (fuzzify_inputs self rest fz); reflexivity.
  - cbn [fuzzify_inputs] in H. simpl app. cbn [fuzzify_inputs].
    destruct (dict_get name (variables self)) as [variable |];
      [| discriminate H].
    apply bind_inv_Ok in H.
    destruct H as (o1 & d & o2 & Hs & Hrest & ->).
    rewrite Hs. unfold bind at 1. rewrite (IH _ _ Hrest).
    unfold bind. destruct (fuzzify_inputs self rest fz) as [o3 r].
    rewrite app_assoc. reflexivity.
Qed.

(** C4, as the specification states it, fails: on the demonstration model,
    an input mapping with an undefined name stops on a ZeroDivisionError
    raised while fuzzifying the input before it, and the undefined name is
    never reported. *)
Lemma undefined_name_not_reported :
  existsb (fun e => negb (dict_mem (fst e) (variables test_case)))
          [("proj_funding", int 0); ("not_a_var", int 1)] = true /\
  run_simulation test_case [("proj_funding", int 0); ("not_a_var", int 1)]
    = ([], Raise ZeroDivisionError).
Proof. split; reflexivity. Qed.

(** C4 (amended): a crisp-input mapping containing a name that is not a
    variable of the model never produces results; and when the inputs
    before the first such name are fuzzified without an exception, the run
    prints the message naming it and returns nothing. *)
Theorem undefined_variable_aborts self crisp_values :
  existsb (fun e => negb (dict_mem (fst e) (variables self))) crisp_values
    = true ->
  (forall out results,
      run_simulation self crisp_values <> (out, Ok (Some results))) /\
  (forall before var_name x rest out fz,
      crisp_values = (before ++ (var_name, x) :: rest)%list ->
      dict_get var_name (variables self) = None ->
      fuzzify_inputs self before [] = (out, Ok (Some fz)) ->
      run_simulation self crisp_values
        = ((out ++ [undefined_variable_message var_name])%list, Ok None)).
Proof.
  intros U. split.
  - intros out results H. unfold run_simulation in H.
    apply bind_inv_Ok in H. destruct H as (o1 & a & o2 & Hfz & Hk & _).
    destruct a as [fz |]; [| discriminate Hk].
    apply fuzzify_inputs_defined in Hfz.
    apply existsb_exists in U. destruct U as (e & He & Hn).
    rewrite forallb_forall in Hfz. rewrite (Hfz e He) in Hn. discriminate.
  - intros before var_name x rest out fz -> Hu Hb.
    unfold run_simulation.
    rewrite (fuzzify_inputs_app self before _ [] out fz Hb).
    cbn [fuzzify_inputs]. rewrite Hu. unfold bind, print, ret.
    cbn [app]. rewrite !app_nil_r. reflexivity.
Qed.

Lemma undefined_variable_aborts_witness :
  (forall out results,
      run_simulation test_case [("exp_level", int 40); ("not_a_var", int 1)]
        <> (out, Ok (Some results))) /\
  run_simulation test_case [("exp_level", int 40); ("not_a_var", int 1)]
    = (["Error: Variable 'not_a_var' not defined."], Ok None).
Proof.
  destruct (undefined_variable_aborts test_case
              [("exp_level", int 40); ("not_a_var", int 1)] eq_refl)
    as [H1 H2].
  split; [exact H1 |].
  exact (H2 [("exp_level", int 40)] "not_a_var" (int 1) [] [] _
            eq_refl eq_refl eq_refl).
Defined.

(** ** Defuzzification *)

Lemma fold_left_Qplus (l : list Q) (a : Q) :
  fold_left Qplus l a == a + Qsum l.
Proof.
  revert a. induction l as [| x l IH]; intros a; simpl.
  - lra.
  - rewrite IH. lra.
Qed.





Lemma dict_mem_set {V} (k0 k : string) (v : V) (d : dict V) :
  dict_mem k0 (dict_set k v d) = String.eqb k0 k || dict_mem k0 d.
Proof.
  unfold dict_mem. destruct (String.eqb k0 k) eqn:E.
  - apply String.eqb_eq in E. subst k0. rewrite dict_get_set_same.
    reflexivity.
  - apply String.eqb_neq in E. rewrite dict_get_set_other by exact E.
    reflexivity.
Qed.

Lemma unique_keys_set {V} (k : string) (v : V) (d : dict V) :
  unique_keys d = true -> unique_keys (dict_set k v d) = true.
Proof.
  induction d as [| [k' v'] d IH]; intros U.
  - reflexivity.
  - cbn [unique_keys] in U. apply andb_true_iff in U. destruct U as [U1 U2].
    cbn [dict_set]. destruct (String.eqb k k') eqn:E; cbn [unique_keys].
    + rewrite U1, U2. reflexivity.
    + rewrite dict_mem_set, (String.eqb_sym k' k), E. simpl orb.
      rewrite U1, (IH U2). reflexivity.
Qed.


Lemma infer_unique_keys fz rs io out io' :
  infer fz rs io = (out, Ok io') ->
  unique_keys io = true -> unique_keys io' = true.
Proof.
  revert io out. induction rs as [| [[in_vars out_var] out_set] rest IH];
    intros io out H U.
  - inversion H; subst. exact U.
  - cbn [infer] in H. apply bind_inv_Ok in H.
    destruct H as (o1 & st & o2 & _ & H & _). cbv beta zeta in H.
    apply bind_inv_Ok in H. destruct H as (o3 & output & o4 & _ & H & _).
    apply bind_inv_Ok in H. destruct H as (o5 & m & o6 & _ & H & _).
    apply (IH _ _ H). apply unique_keys_set.
    destruct (dict_mem out_var io); [exact U |].
    apply unique_keys_set. exact U.
Qed.





(** ** Output variables whose rules do not fire *)





(** On the reduced model, the only rule has strength 0 and the output
    variable is reported as 0. *)
Example quiet_case_reports_zero :
  infer demo_fuzzified (rules quiet_case) []
    = ([], Ok [("risk", [("high", VNum (Fin 0))])]) /\
  run_simulation quiet_case demo_inputs = ([], Ok (Some [("risk", Fin 0)])).
Proof. split; reflexivity. Qed.

(** The demonstration run: risk is 531562500/10935000, about 48.6. *)
Example demo_run :
  run_simulation test_case demo_inputs
    = ([], Ok (Some [("risk", Fin (531562500 # 10935000))])).
Proof. reflexivity. Qed.

(** * Further properties of the code *)

(** ** Fuzzification of the inputs *)

Lemma fuzzify_sets_get items x acc out d :
  fuzzify_sets items x acc = (out, Ok d) ->
  unique_keys items = true ->
  forall name,
    match dict_get name items with
    | Some fs =>
        exists v, snd (fuzzify fs x) = Ok v /\ dict_get name d = Some v
    | None => dict_get name d = dict_get name acc
    end.
Proof.
  revert acc out. induction items as [| [k fs] rest IH]; intros acc out H U name.
  - inversion H; subst. reflexivity.
  - cbn [fuzzify_sets] in H. apply bind_inv_Ok in H.
    destruct H as (o1 & v & o2 & Hf & Hrest & _).
    cbn [unique_keys] in U. apply andb_true_iff in U. destruct U as [U1 U2].
    specialize (IH _ _ Hrest U2). cbn [dict_get].
    destruct (String.eqb name k) eqn:E.
    + apply String.eqb_eq in E. subst name. exists v.
      split; [rewrite Hf; reflexivity |].
      specialize (IH k). unfold dict_mem in U1.
      destruct (dict_get k rest); [discriminate |].
      rewrite IH. apply dict_get_set_same.
    + apply String.eqb_neq in E. specialize (IH name).
      destruct (dict_get name rest); [exact IH |].
      rewrite IH. apply dict_get_set_other. exact E.
Qed.

Lemma fuzzify_inputs_get self items fz0 out fz :
  fuzzify_inputs self items fz0 = (out, Ok (Some fz)) ->
  unique_keys items = true ->
  sets_unique self = true ->
  forall var_name,
    match dict_get var_name items with
    | Some x =>
        exists variable degrees,
          dict_get var_name (variables self) = Some variable /\
          dict_get var_name fz = Some degrees /\
          forall set_name,
            match dict_get set_name (fuzzy_sets variable) with
            | Some fs =>
                exists v, snd (fuzzify fs x) = Ok v /\
                          dict_get set_name degrees = Some v
            | None => dict_get set_name degrees = None
            end
    | None => dict_get var_name fz = dict_get var_name fz0
    end.
Proof.
  intros H U W. revert fz0 out H U.
  induction items as [| [k x] rest IH]; intros fz0 out H U name.
  - inversion H; subst. reflexivity.
  - cbn [fuzzify_inputs] in H.
    destruct (dict_get k (variables self)) as [variable |] eqn:G;
      [| discriminate H].
    apply bind_inv_Ok in H. destruct H as (o1 & degrees & o2 & Hs & Hrest & _).
    cbn [unique_keys] in U. apply andb_true_iff in U. destruct U as [U1 U2].
    specialize (IH _ _ Hrest U2). cbn [dict_get].
    destruct (String.eqb name k) eqn:E.
    + apply String.eqb_eq in E. subst name. exists variable, degrees.
      split; [exact G |]. split.
      * specialize (IH k). unfold dict_mem in U1.
        destruct (dict_get k rest); [discriminate |].
        rewrite IH. apply dict_get_set_same.
      * assert (Uv : unique_keys (fuzzy_sets variable) = true).
        { unfold sets_unique in W. rewrite forallb_forall in W.
          apply (W (k, variable)). apply dict_get_In. exact G. }
        exact (fuzzify_sets_get _ _ _ _ _ Hs Uv).
    + apply String.eqb_neq in E. specialize (IH name).
      destruct (dict_get name rest); [exact IH |].
      rewrite IH. apply dict_get_set_other. exact E.
Qed.

(** X3: when fuzzification succeeds on a mapping of crisp inputs, the
    fuzzified degrees hold an entry exactly for the names supplied; the
    entry of a name has exactly the fuzzy sets of that variable, each with
    the value [fuzzify] returns for it at the supplied crisp value.  So a
    clause reads the default 0 only for a set name its variable does not
    have. *)
Theorem fuzzification_covers_sets self crisp_values out fz :
  fuzzify_inputs self crisp_values [] = (out, Ok (Some fz)) ->
  unique_keys crisp_values = true ->
  sets_unique self = true ->
  forall var_name,
    match dict_get var_name crisp_values with
    | Some x =>
        exists variable degrees,
          dict_get var_name (variables self) = Some variable /\
          dict_get var_name fz = Some degrees /\
          forall set_name,
            match dict_get set_name (fuzzy_sets variable) with
            | Some fs =>
                exists v, snd (fuzzify fs x) = Ok v /\
                          dict_get set_name degrees = Some v
            | None => dict_get set_name degrees = None
            end
    | None => dict_get var_name fz = None
    end.
Proof.
  intros H U W name.
  exact (fuzzify_inputs_get self crisp_values [] out fz H U W name).
Qed.

Lemma fuzzification_covers_sets_witness :
  exists variable degrees,
    dict_get "exp_level" (variables test_case) = Some variable /\
    dict_get "exp_level" demo_fuzzified = Some degrees /\
    forall set_name,
      match dict_get set_name (fuzzy_sets variable) with
      | Some fs =>
          exists v, snd (fuzzify fs (int 40)) = Ok v /\
                    dict_get set_name degrees = Some v
      | None => dict_get set_name degrees = None
      end.
Proof.
  exact (fuzzification_covers_sets test_case demo_inputs [] demo_fuzzified
           eq_refl eq_refl eq_refl "exp_level").
Defined.

Lemma fuzzify_sets_silent items x acc :
  fst (fuzzify_sets items x acc) = [].
Proof.
  revert acc. induction items as [| [k fs] rest IH]; intros acc.
  - reflexivity.
  - cbn [fuzzify_sets].
    assert (S : fst (fuzzify fs x) = []).
    { unfold fuzzify.
      assert (D : forall p q, fst (bind (num_div p q)
                                    (fun r => ret (VNum r))) = []).
      { intros p q. unfold num_div. destruct (is_zero q); reflexivity. }
      destruct (String.eqb (fs_type fs) "TRI").
      - destruct (fs_values fs) as [| a [| b [| c [| ? ?]]]];
          try reflexivity.
        destruct (between a x b); [apply D |].
        destruct (between b x c); [apply D | reflexivity].
      - destruct (String.eqb (fs_type fs) "TRAP"); [| reflexivity].
        destruct (fs_values fs) as [| a [| b [| c [| d [| ? ?]]]]];
          try reflexivity.
        destruct (between a x b); [apply D |].
        destruct (between b x c); [reflexivity |].
        destruct (between c x d); [apply D | reflexivity]. }
    destruct (fuzzify fs x) as [o [v | e]]; simpl in S; subst o.
    + specialize (IH (dict_set k v acc)). unfold bind.
      destruct (fuzzify_sets rest x (dict_set k v acc)) as [o r].
      simpl in IH. subst o. reflexivity.
    + reflexivity.
Qed.

(** X4: when every name of the crisp-input mapping is a variable of the
    model, fuzzification prints nothing and never takes the bare [return],
    so the run never returns [None]: a run returns [None] only for an
    undefined name. *)
Theorem defined_inputs_never_return_None self crisp_values :
  inputs_defined self crisp_values = true ->
  fst (fuzzify_inputs self crisp_values []) = [] /\
  snd (fuzzify_inputs self crisp_values []) <> Ok None /\
  forall out, run_simulation self crisp_values <> (out, Ok None).
Proof.
  intros D.
  assert (G : forall fz0,
             fst (fuzzify_inputs self crisp_values fz0) = [] /\
             snd (fuzzify_inputs self crisp_values fz0) <> Ok None).
  { unfold inputs_defined in D.
    induction crisp_values as [| [k x] rest IH]; intros fz0.
    - split; [reflexivity | discriminate].
    - cbn [forallb fst] in D. apply andb_true_iff in D.
      destruct D as [Dk Drest]. unfold dict_mem in Dk.
      cbn [fuzzify_inputs].
      destruct (dict_get k (variables self)) as [variable |];
        [| discriminate].
      pose proof (fuzzify_sets_silent (fuzzy_sets variable) x []) as S.
      destruct (fuzzify_sets (fuzzy_sets variable) x []) as [o [d | e]];
        simpl in S; subst o.
      + destruct (IH Drest (dict_set k d fz0)) as [I1 I2].
        unfold bind.
        destruct (fuzzify_inputs self rest (dict_set k d fz0)) as [o r].
        simpl in *. subst o. split; [reflexivity | exact I2].
      + split; [reflexivity | discriminate]. }
  destruct (G []) as [G1 G2]. split; [exact G1 |]. split; [exact G2 |].
  intros out H. unfold run_simulation in H.
  destruct (fuzzify_inputs self crisp_values []) as [o [[fz |] | e]].
  - unfold bind in H.
    destruct (infer fz (rules self) []) as [o1 [io | e]];
      [| inversion H].
    destruct (defuzzify self io []) as [o2 [res | e]]; inversion H.
  - apply G2. reflexivity.
  - inversion H.
Qed.

Lemma defined_inputs_never_return_None_witness :
  fst (fuzzify_inputs test_case demo_inputs []) = [] /\
  snd (fuzzify_inputs test_case demo_inputs []) <> Ok None /\
  forall out, run_simulation test_case demo_inputs <> (out, Ok None).
Proof.
  exact (defined_inputs_never_return_None test_case demo_inputs eq_refl).
Defined.

(** ** Degrees during a run *)

Lemma bind_silent {A B} (m : M A) (k : A -> M B) :
  fst m = [] -> (forall a, fst (k a) = []) -> fst (bind m k) = [].
Proof.
  intros Hm Hk. destruct m as [o [a | e]]; simpl in Hm; subst o; simpl.
  - specialize (Hk a). destruct (k a) as [o r]. exact Hk.
  - reflexivity.
Qed.

Lemma degree_read_ok fz var_name degrees set_name :
  fuzzified_ok fz ->
  dict_get var_name fz = Some degrees ->
  degree_ok (dict_get_default set_name degrees (VNum (Fin 0))).
Proof.
  intros A G. destruct (dict_get_Forall _ _ _ _ A G) as [k' Hd]. simpl in Hd.
  unfold dict_get_default.
  destruct (dict_get set_name degrees) as [v |] eqn:S.
  - destruct (dict_get_Forall _ _ _ _ Hd S) as [k'' Hv]. exact Hv.
  - simpl. lra.
Qed.

Lemma py_min_unit (acc : Q) (r : num) :
  0 <= acc <= 1 -> unit_or_nan r ->
  exists q, py_min (VNum (Fin acc)) (VNum r) = ([], Ok (VNum (Fin q)))
            /\ 0 <= q <= 1.
Proof.
  intros Ha Hr. unfold py_min, value_lt. rewrite bind_ret.
  destruct r as [d | s |]; simpl in *.
  - destruct (Qlt_bool d acc); eexists; (split; [reflexivity | assumption]).
  - contradiction.
  - eexists; (split; [reflexivity | assumption]).
Qed.

Lemma py_max_unit (acc : Q) (r : num) :
  0 <= acc <= 1 -> unit_or_nan r ->
  exists q, py_max (VNum (Fin acc)) (VNum r) = ([], Ok (VNum (Fin q)))
            /\ 0 <= q <= 1.
Proof.
  intros Ha Hr. unfold py_max, value_lt. rewrite bind_ret.
  destruct r as [d | s |]; simpl in *.
  - destruct (Qlt_bool acc d); eexists; (split; [reflexivity | assumption]).
  - contradiction.
  - eexists; (split; [reflexivity | assumption]).
Qed.

Lemma one_minus_unit (r : num) :
  unit_or_nan r -> unit_or_nan (num_sub (Fin 1) r).
Proof. destruct r as [d | s |]; simpl; [lra | tauto | tauto]. Qed.

(** The clause loop, from fuzzified degrees and an accumulator of the unit
    interval: when it completes, it has printed the warnings of the
    clauses and its result is a finite number of the unit interval. *)
Lemma eval_clauses_inv fz in_vars (acc : Q) out v :
  fuzzified_ok fz ->
  0 <= acc <= 1 ->
  eval_clauses fz in_vars (VNum (Fin acc)) = (out, Ok v) ->
  out = warnings in_vars /\ exists q, v = VNum (Fin q) /\ 0 <= q <= 1.
Proof.
  intros A. revert acc out.
  induction in_vars as [| [[var_name set_name] op] rest IH];
    intros acc out Hacc H.
  - inversion H; subst. split; [reflexivity | eauto].
  - cbn [eval_clauses] in H. unfold dict_index in H.
    destruct (dict_get var_name fz) as [degrees |] eqn:G;
      [| discriminate H].
    rewrite bind_ret in H.
    pose proof (degree_read_ok fz var_name degrees set_name A G) as Hd.
    destruct (dict_get_default set_name degrees (VNum (Fin 0))) as [| r].
    { exfalso. revert H. clear.
      assert (Hmin : py_min (VNum (Fin acc)) VNone = ([], Raise TypeError))
        by reflexivity.
      assert (Hmax : py_max (VNum (Fin acc)) VNone = ([], Raise TypeError))
        by reflexivity.
      destruct (String.eqb op "and"); [rewrite Hmin; discriminate |].
      destruct (String.eqb op "or"); [rewrite Hmax; discriminate |].
      destruct (String.eqb op "and_not"); [discriminate |].
      rewrite Hmin. discriminate. }
    simpl in Hd.
    destruct (py_min_unit acc r Hacc Hd) as (q1 & H1 & U1).
    destruct (py_max_unit acc r Hacc Hd) as (q2 & H2 & U2).
    destruct (py_min_unit acc _ Hacc (one_minus_unit r Hd)) as (q3 & H3 & U3).
    unfold warnings, recognized, operator_of. cbn [filter snd].
    destruct (String.eqb op "and").
    { rewrite H1 in H. change ([], Ok (VNum (Fin q1))) with (ret (VNum (Fin q1))) in H.
      rewrite bind_ret in H. exact (IH q1 out U1 H). }
    destruct (String.eqb op "or").
    { rewrite H2 in H. change ([], Ok (VNum (Fin q2))) with (ret (VNum (Fin q2))) in H.
      rewrite bind_ret in H. exact (IH q2 out U2 H). }
    destruct (String.eqb op "and_not").
    { unfold one_minus in H. rewrite bind_ret, H3 in H.
      change ([], Ok (VNum (Fin q3))) with (ret (VNum (Fin q3))) in H.
      rewrite bind_ret in H. exact (IH q3 out U3 H). }
    rewrite H1 in H. unfold bind, print, ret in H.
    destruct (eval_clauses fz rest (VNum (Fin q1))) as [o r'] eqn:E.
    inversion H; subst. destruct (IH q1 o U1 E) as [-> Hq].
    split; [reflexivity | exact Hq].
Qed.

Lemma infer_inv fz rs io out io' :
  fuzzified_ok fz ->
  unit_outputs io ->
  infer fz rs io = (out, Ok io') ->
  out = rule_warnings rs /\ unit_outputs io'.
Proof.
  intros A. revert io out.
  induction rs as [| [[in_vars out_var] out_set] rest IH]; intros io out U H.
  - inversion H; subst. split; [reflexivity | exact U].
  - cbn [infer] in H. apply bind_inv_Ok in H.
    destruct H as (o1 & st & o2 & Hst & H & ->). cbv beta zeta in H.
    apply eval_clauses_inv in Hst; [| exact A | lra].
    destruct Hst as (-> & q & -> & Uq).
    fold (ensured out_var io) in H.
    rewrite dict_index_ensured, bind_ret in H.
    assert (Ue : Forall (fun p => exists q, snd p = VNum (Fin q) /\ 0 <= q <= 1)
                        (entry_of out_var io)).
    { unfold entry_of. destruct (dict_get out_var io) as [output |] eqn:G;
        [| constructor].
      destruct (dict_get_Forall _ _ _ _ U G) as [k' Ho]. exact Ho. }
    assert (Hex : exists e,
              dict_get_default out_set (entry_of out_var io) (VNum (Fin 0))
              = VNum (Fin e) /\ 0 <= e <= 1).
    { unfold dict_get_default.
      destruct (dict_get out_set (entry_of out_var io)) as [d |] eqn:G.
      - destruct (dict_get_Forall _ _ _ _ Ue G) as [k' Hd]. exact Hd.
      - exists 0. split; [reflexivity | lra]. }
    destruct Hex as (e & He & Ue').
    rewrite He in H.
    destruct (py_max_unit e (Fin q) Ue' Uq) as (m & Hm & Um).
    rewrite Hm in H. change ([], Ok (VNum (Fin m))) with (ret (VNum (Fin m))) in H.
    rewrite bind_ret in H.
    apply IH in H.
    + destruct H as [-> U']. split; [reflexivity | exact U'].
    + unfold unit_outputs. apply dict_set_Forall.
      * unfold ensured. destruct (dict_mem out_var io); [exact U |].
        apply dict_set_Forall; [exact U |]. intros k'. constructor.
      * intros k'. simpl. apply dict_set_Forall; [exact Ue |].
        intros k''. simpl. eauto.
Qed.

(** ** What a run prints *)

Lemma fuzzify_inputs_silent self items fz0 out fz :
  fuzzify_inputs self items fz0 = (out, Ok (Some fz)) -> out = [].
Proof.
  revert fz0 out. induction items as [| [k x] rest IH]; intros fz0 out H.
  - inversion H. reflexivity.
  - cbn [fuzzify_inputs] in H.
    destruct (dict_get k (variables self)) as [variable |];
      [| discriminate H].
    apply bind_inv_Ok in H. destruct H as (o1 & d & o2 & Hs & Hrest & ->).
    pose proof (fuzzify_sets_silent (fuzzy_sets variable) x []) as S.
    rewrite Hs in S. simpl in S. subst o1.
    apply IH in Hrest. subst o2. reflexivity.
Qed.

Lemma num_div_silent (x y : num) : fst (num_div x y) = [].
Proof. unfold num_div. destruct (is_zero y); reflexivity. Qed.

Lemma dict_index_silent {V} k (d : dict V) : fst (dict_index k d) = [].
Proof. unfold dict_index. destruct (dict_get k d); reflexivity. Qed.

Lemma defuzz_sets_silent variable items (numerator denominator : num) :
  fst (defuzz_sets variable items numerator denominator) = [].
Proof.
  revert numerator denominator.
  induction items as [| [set_name degree] rest IH];
    intros numerator denominator.
  - reflexivity.
  - cbn [defuzz_sets]. destruct (value_is_inf degree); [apply IH |].
    apply bind_silent; [apply dict_index_silent |]. intros fs.
    apply bind_silent; [apply num_div_silent |]. intros centroid.
    apply bind_silent; [destruct degree; reflexivity |]. intros weighted.
    apply bind_silent; [destruct degree; reflexivity |]. intros d'.
    apply IH.
Qed.

Lemma defuzzify_silent self items results :
  fst (defuzzify self items results) = [].
Proof.
  revert results. induction items as [| [var_name output] rest IH];
    intros results.
  - reflexivity.
  - cbn [defuzzify]. apply bind_silent; [| intros r; apply IH].
    unfold defuzz_variable.
    apply bind_silent; [apply dict_index_silent |]. intros variable.
    apply bind_silent; [apply defuzz_sets_silent |]. intros [nu de].
    destruct (num_lt (Fin 0) de); [apply num_div_silent | reflexivity].
Qed.

(** X6: a run that returns results has printed exactly the warnings of
    its rules, one line per clause with an unrecognized operator, in rule
    and clause order; fuzzification and defuzzification print nothing. *)
Theorem run_prints_only_warnings self crisp_values out results :
  run_simulation self crisp_values = (out, Ok (Some results)) ->
  out = rule_warnings (rules self).
Proof.
  intros H. unfold run_simulation in H. apply bind_inv_Ok in H.
  destruct H as (o1 & a & o2 & Hfz & H & ->).
  destruct a as [fz |]; [| discriminate H].
  pose proof (fuzzify_inputs_silent _ _ _ _ _ Hfz) as S1. subst o1.
  assert (A : fuzzified_ok fz).
  { eapply fuzzify_inputs_ok; [| exact Hfz]. constructor. }
  apply bind_inv_Ok in H. destruct H as (o3 & io & o4 & Hinfer & H & ->).
  destruct (infer_inv fz (rules self) [] o3 io A (Forall_nil _) Hinfer)
    as [-> _].
  apply bind_inv_Ok in H. destruct H as (o5 & res & o6 & Hres & H & ->).
  pose proof (defuzzify_silent self io []) as S2. rewrite Hres in S2.
  simpl in S2. subst o5. inversion H; subst.
  simpl. rewrite !app_nil_r. reflexivity.
Qed.

Lemma run_prints_only_warnings_witness :
  [unknown_operator_message "xor"] =
  rule_warnings
    (rules (add_rule test_case
              ([("exp_level", "expert", "xor")], "risk", "low"))).
Proof.
  apply (run_prints_only_warnings
           (add_rule test_case
              ([("exp_level", "expert", "xor")], "risk", "low"))
           demo_inputs [unknown_operator_message "xor"]
           [("risk", Fin (531562500 # 10935000))]).
  reflexivity.
Defined.

(** ** The keys of the results *)

Lemma dict_mem_keys {V} k (d : dict V) :
  dict_mem k d = existsb (String.eqb k) (map fst d).
Proof.
  unfold dict_mem. induction d as [| [k' v'] d IH]; simpl.
  - reflexivity.
  - destruct (String.eqb k k'); [reflexivity | exact IH].
Qed.

Lemma keys_dict_set {V} k (v : V) (d : dict V) :
  map fst (dict_set k v d) = add_key k (map fst d).
Proof.
  unfold add_key. induction d as [| [k' v'] d IH]; simpl.
  - reflexivity.
  - destruct (String.eqb k k'); simpl; [reflexivity |].
    rewrite IH. destruct (existsb (String.eqb k) (map fst d)); reflexivity.
Qed.

Lemma add_key_idempotent k keys : add_key k (add_key k keys) = add_key k keys.
Proof.
  unfold add_key. destruct (existsb (String.eqb k) keys) eqn:E.
  - rewrite E. reflexivity.
  - rewrite existsb_app. simpl. rewrite String.eqb_refl.
    rewrite orb_true_r. reflexivity.
Qed.

Lemma keys_ensured k (io : dict (dict value)) :
  map fst (ensured k io) = add_key k (map fst io).
Proof.
  unfold ensured. rewrite dict_mem_keys.
  destruct (existsb (String.eqb k) (map fst io)) eqn:E.
  - unfold add_key. rewrite E. reflexivity.
  - apply keys_dict_set.
Qed.

Lemma infer_keys fz rs io out io' :
  infer fz rs io = (out, Ok io') ->
  map fst io' =
  fold_left (fun keys k => add_key k keys) (map out_var_of rs) (map fst io).
Proof.
  revert io out. induction rs as [| [[in_vars out_var] out_set] rest IH];
    intros io out H.
  - inversion H; subst. reflexivity.
  - cbn [infer] in H. apply bind_inv_Ok in H.
    destruct H as (o1 & st & o2 & _ & H & _). cbv beta zeta in H.
    fold (ensured out_var io) in H.
    apply bind_inv_Ok in H. destruct H as (o3 & output & o4 & _ & H & _).
    apply bind_inv_Ok in H. destruct H as (o5 & m & o6 & _ & H & _).
    apply IH in H. rewrite H. simpl. unfold out_var_of at 2. simpl.
    rewrite keys_dict_set, keys_ensured, add_key_idempotent. reflexivity.
Qed.

Lemma fold_add_key_fresh {V} (d : dict V) (keys : list string) :
  unique_keys d = true ->
  (forall k, In k (map fst d) -> existsb (String.eqb k) keys = false) ->
  fold_left (fun keys k => add_key k keys) (map fst d) keys
  = (keys ++ map fst d)%list.
Proof.
  revert keys. induction d as [| [k v] d IH]; intros keys U F.
  - simpl. rewrite app_nil_r. reflexivity.
  - cbn [unique_keys] in U. apply andb_true_iff in U. destruct U as [U1 U2].
    simpl. unfold add_key at 2. rewrite (F k) by (left; reflexivity).
    rewrite IH.
    + rewrite <- app_assoc. reflexivity.
    + exact U2.
    + intros k' Hk'. rewrite existsb_app. simpl. rewrite orb_false_r.
      rewrite (F k') by (right; exact Hk'). simpl.
      destruct (String.eqb k' k) eqn:E; [| reflexivity].
      apply String.eqb_eq in E. subst k'.
      rewrite dict_mem_keys in U1. apply negb_true_iff in U1.
      assert (X : existsb (String.eqb k) (map fst d) = true).
      { apply existsb_exists. exists k. split; [exact Hk' |].
        apply String.eqb_refl. }
      congruence.
Qed.

Lemma defuzzify_keys self items results out results' :
  defuzzify self items results = (out, Ok results') ->
  map fst results' =
  fold_left (fun keys k => add_key k keys) (map fst items) (map fst results).
Proof.
  revert results out. induction items as [| [v output] rest IH];
    intros results out H.
  - inversion H; subst. reflexivity.
  - cbn [defuzzify] in H. apply bind_inv_Ok in H.
    destruct H as (o1 & r & o2 & _ & H & _).
    apply IH in H. rewrite H. simpl. rewrite keys_dict_set. reflexivity.
Qed.

(** X7: the results of a run hold exactly the output variables that the
    rules conclude, each once, in the order in which the rules first
    conclude them.  A variable that no rule concludes, whatever its declared
    type, has no entry. *)
Theorem results_keys self crisp_values out results :
  run_simulation self crisp_values = (out, Ok (Some results)) ->
  map fst results = first_occurrences (map out_var_of (rules self)).
Proof.
  intros H. unfold run_simulation in H. apply bind_inv_Ok in H.
  destruct H as (o1 & a & o2 & _ & H & _).
  destruct a as [fz |]; [| discriminate H].
  apply bind_inv_Ok in H. destruct H as (o3 & io & o4 & Hinfer & H & _).
  apply bind_inv_Ok in H. destruct H as (o5 & res & o6 & Hres & H & _).
  inversion H; subst res.
  rewrite (defuzzify_keys _ _ _ _ _ Hres). simpl map at 2.
  rewrite (fold_add_key_fresh io []).
  - simpl. apply (infer_keys _ _ _ _ _ Hinfer).
  - apply (infer_unique_keys _ _ _ _ _ Hinfer). reflexivity.
  - reflexivity.
Qed.

Lemma results_keys_witness :
  map fst [("risk", Fin (531562500 # 10935000))]
  = first_occurrences (map out_var_of (rules test_case)).
Proof.
  apply (results_keys test_case demo_inputs []
           [("risk", Fin (531562500 # 10935000))]).
  reflexivity.
Defined.

(** ** The defuzzified value *)





(** ** Aggregation and the order of the rules *)

Lemma fold_max_proper (l : list Q) (a a' : Q) :
  a == a' -> fold_left Qmax l a == fold_left Qmax l a'.
Proof.
  revert a a'. induction l as [| x l IH]; intros a a' E; simpl.
  - exact E.
  - apply IH. apply Q.max_compat; [exact E | reflexivity].
Qed.

Lemma fold_max_perm (l l' : list Q) :
  Permutation l l' ->
  forall a, fold_left Qmax l a == fold_left Qmax l' a.
Proof.
  induction 1 as [| x l l' _ IH | x y l | l l' l'' _ IH1 _ IH2]; intros a.
  - reflexivity.
  - simpl. apply IH.
  - simpl. apply fold_max_proper.
    rewrite <- !Q.max_assoc. apply Q.max_compat; [reflexivity |].
    apply Q.max_comm.
  - rewrite IH1. apply IH2.
Qed.

Lemma filter_perm {A} (f : A -> bool) (l l' : list A) :
  Permutation l l' -> Permutation (filter f l) (filter f l').
Proof.
  induction 1 as [| x l l' _ IH | x y l | l l' l'' _ IH1 _ IH2]; simpl.
  - constructor.
  - destruct (f x); [constructor |]; exact IH.
  - destruct (f x), (f y); try reflexivity. constructor.
  - eapply Permutation_trans; eassumption.
Qed.

Lemma rules_resolved_perm fz rs rs' :
  Permutation rs rs' ->
  rules_resolved fz rs = true -> rules_resolved fz rs' = true.
Proof.
  unfold rules_resolved. intros P R. rewrite forallb_forall in *.
  intros r Hr. apply R. apply (Permutation_in r (Permutation_sym P) Hr).
Qed.

(** X10: the aggregated degrees do not depend on the order of the rules:
    when every rule reads finite degrees, the rule loop run on any
    permutation of the rules leaves, for every (output variable, output
    set) pair, the same aggregated degree. *)
Theorem aggregation_order_independent fz rs rs' :
  rules_resolved fz rs = true ->
  Permutation rs rs' ->
  exists out io out' io',
    infer fz rs [] = (out, Ok io) /\
    infer fz rs' [] = (out', Ok io') /\
    forall v s, exists m m',
      agg_degree io v s = VNum (Fin m) /\
      agg_degree io' v s = VNum (Fin m') /\
      m == m'.
Proof.
  intros R P.
  pose proof (rules_resolved_perm fz rs rs' P R) as R'.
  destruct (infer_running_maximum fz rs [] R (Forall_nil _))
    as (out & io & H & _ & Hagg).
  destruct (infer_running_maximum fz rs' [] R' (Forall_nil _))
    as (out' & io' & H' & _ & Hagg').
  exists out, io, out', io'. split; [exact H |]. split; [exact H' |].
  intros v s. eexists. eexists.
  split; [apply Hagg |]. split; [apply Hagg' |].
  apply fold_max_perm. unfold strengths_for.
  apply Permutation_map. apply filter_perm. exact P.
Qed.

Lemma aggregation_order_independent_witness :
  exists out io out' io',
    infer demo_fuzzified (rules test_case) [] = (out, Ok io) /\
    infer demo_fuzzified (rev (rules test_case)) [] = (out', Ok io') /\
    forall v s, exists m m',
      agg_degree io v s = VNum (Fin m) /\
      agg_degree io' v s = VNum (Fin m') /\
      m == m'.
Proof.
  apply (aggregation_order_independent demo_fuzzified (rules test_case)
           (rev (rules test_case))).
  - reflexivity.
  - apply Permutation_rev.
Defined.

Lemma strengths_for_app fz rs rs' v s :
  strengths_for fz (rs ++ rs')%list v s
  = (strengths_for fz rs v s ++ strengths_for fz rs' v s)%list.
Proof.
  unfold strengths_for. rewrite filter_app, map_app. reflexivity.
Qed.

(** X11: adding a rule to a system ([add_rule] appends it) changes the
    aggregated degree of the pair it concludes to the maximum of the former
    degree and its own firing strength, and leaves every other pair as it
    was: no aggregated degree is ever lowered by a further rule. *)
Theorem add_rule_raises_only_its_pair self fz r :
  rules_resolved fz (rules (add_rule self r)) = true ->
  exists out io out' io',
    infer fz (rules self) [] = (out, Ok io) /\
    infer fz (rules (add_rule self r)) [] = (out', Ok io') /\
    forall v s, exists m,
      agg_degree io v s = VNum (Fin m) /\
      agg_degree io' v s =
        VNum (Fin (if concludes v s r
                   then Qmax m (spec_firing_strength fz (antecedents r))
                   else m)) /\
      m <= (if concludes v s r
            then Qmax m (spec_firing_strength fz (antecedents r))
            else m).
Proof.
  intros R'. cbn [add_rule rules] in *.
  assert (R : rules_resolved fz (rules self) = true).
  { unfold rules_resolved in *. rewrite forallb_app in R'.
    apply andb_true_iff in R'. tauto. }
  destruct (infer_running_maximum fz (rules self) [] R (Forall_nil _))
    as (out & io & H & _ & Hagg).
  destruct (infer_running_maximum fz _ [] R' (Forall_nil _))
    as (out' & io' & H' & _ & Hagg').
  exists out, io, out', io'. split; [exact H |]. split; [exact H' |].
  intros v s. eexists. split; [apply Hagg |]. split.
  - rewrite Hagg', strengths_for_app, fold_left_app.
    rewrite (strengths_for_cons fz r [] v s).
    destruct (concludes v s r); reflexivity.
  - destruct (concludes v s r); [apply Q.le_max_l | apply Qle_refl].
Qed.

Lemma add_rule_raises_only_its_pair_witness :
  exists out io out' io',
    infer demo_fuzzified (rules quiet_case) [] = (out, Ok io) /\
    infer demo_fuzzified
      (rules (add_rule quiet_case
                ([("exp_level", "expert", "and")], "risk", "high"))) []
      = (out', Ok io') /\
    forall v s, exists m,
      agg_degree io v s = VNum (Fin m) /\
      agg_degree io' v s =
        VNum (Fin (if concludes v s
                        ([("exp_level", "expert", "and")], "risk", "high")
                   then Qmax m (spec_firing_strength demo_fuzzified
                                  (antecedents
                                     ([("exp_level", "expert", "and")],
                                      "risk", "high")))
                   else m)) /\
      m <= (if concludes v s
                 ([("exp_level", "expert", "and")], "risk", "high")
            then Qmax m (spec_firing_strength demo_fuzzified
                           (antecedents
                              ([("exp_level", "expert", "and")],
                               "risk", "high")))
            else m).
Proof.
  apply (add_rule_raises_only_its_pair quiet_case demo_fuzzified
           ([("exp_level", "expert", "and")], "risk", "high")).
  reflexivity.
Defined.

(** ** What a run reads of the model *)

Lemma sets_view_get self self' k :
  sets_view self = sets_view self' ->
  option_map fuzzy_sets (dict_get k (variables self))
  = option_map fuzzy_sets (dict_get k (variables self')).
Proof.
  unfold sets_view. generalize (variables self') as d'.
  induction (variables self) as [| [k1 v1] d IH]; intros [| [k2 v2] d'] H;
    try discriminate.
  - reflexivity.
  - simpl in H. inversion H; subst k2. simpl.
    destruct (String.eqb k k1).
    + simpl. congruence.
    + apply IH. assumption.
Qed.

Lemma bind_ext {A B} (m : M A) (k k' : A -> M B) :
  (forall a, k a = k' a) -> bind m k = bind m k'.
Proof.
  intros E. destruct m as [o [a | e]]; simpl; [rewrite E |]; reflexivity.
Qed.

Lemma defuzz_sets_ext variable variable' items (numerator denominator : num) :
  fuzzy_sets variable = fuzzy_sets variable' ->
  defuzz_sets variable items numerator denominator
  = defuzz_sets variable' items numerator denominator.
Proof.
  intros E. revert numerator denominator.
  induction items as [| [set_name degree] rest IH];
    intros numerator denominator.
  - reflexivity.
  - cbn [defuzz_sets]. rewrite E.
    destruct (value_is_inf degree); [apply IH |].
    apply bind_ext; intros fs. apply bind_ext; intros centroid.
    apply bind_ext; intros weighted. apply bind_ext; intros d'. apply IH.
Qed.

Lemma defuzzify_ext self self' items results :
  sets_view self = sets_view self' ->
  defuzzify self items results = defuzzify self' items results.
Proof.
  intros V. revert results.
  induction items as [| [var_name output] rest IH]; intros results.
  - reflexivity.
  - cbn [defuzzify].
    replace (defuzz_variable self' var_name output)
      with (defuzz_variable self var_name output).
    { apply bind_ext; intros r. apply IH. }
    unfold defuzz_variable, dict_index.
    pose proof (sets_view_get self self' var_name V) as G.
    destruct (dict_get var_name (variables self)) as [v |],
             (dict_get var_name (variables self')) as [v' |];
      simpl in G; try discriminate; [| reflexivity].
    inversion G as [E]. rewrite !bind_ret.
    rewrite (defuzz_sets_ext v v' output (Fin 0) (Fin 0) E). reflexivity.
Qed.

Lemma fuzzify_inputs_ext self self' items fz0 :
  sets_view self = sets_view self' ->
  fuzzify_inputs self items fz0 = fuzzify_inputs self' items fz0.
Proof.
  intros V. revert fz0. induction items as [| [k x] rest IH]; intros fz0.
  - reflexivity.
  - cbn [fuzzify_inputs].
    pose proof (sets_view_get self self' k V) as G.
    destruct (dict_get k (variables self)) as [v |],
             (dict_get k (variables self')) as [v' |];
      simpl in G; try discriminate; [| reflexivity].
    inversion G as [E]. rewrite E. apply bind_ext; intros d. apply IH.
Qed.

(** X12: a run reads of the variables only the name under which each is
    stored and its fuzzy sets.  Two models with the same rules, the same
    variable names and the same fuzzy sets give the same run on every
    input, whatever the declared types (IN or OUT) and ranges: neither is
    enforced, a crisp value outside the range is fuzzified as any other, and
    a variable declared OUT is accepted as an input. *)
Theorem run_ignores_type_and_range self self' crisp_values :
  rules self = rules self' ->
  sets_view self = sets_view self' ->
  run_simulation self crisp_values = run_simulation self' crisp_values.
Proof.
  intros R V. unfold run_simulation.
  rewrite (fuzzify_inputs_ext self self' crisp_values [] V).
  apply bind_ext. intros [fz |]; [| reflexivity].
  rewrite R. apply bind_ext; intros io.
  rewrite (defuzzify_ext self self' io [] V). reflexivity.
Qed.

Lemma run_ignores_type_and_range_witness :
  run_simulation test_case [("proj_funding", int 250); ("exp_level", int 40)]
  = run_simulation relabelled_case
      [("proj_funding", int 250); ("exp_level", int 40)].
Proof.
  apply (run_ignores_type_and_range test_case relabelled_case).
  - reflexivity.
  - reflexivity.
Defined.

(** ** Building a model *)

(** X13: [add_variable] stores the variable under its name: looking that
    name up returns it, the other names and the rules are untouched, and
    keys stay unique.  A variable added under a name already present takes
    the place of the former one, whose fuzzy sets are gone: fuzzifying an
    input for a freshly constructed variable yields an empty mapping of
    degrees. *)
Theorem add_variable_lookup self variable :
  dict_get (var_name variable) (variables (add_variable self variable))
    = Some variable /\
  (forall k, k <> var_name variable ->
     dict_get k (variables (add_variable self variable))
     = dict_get k (variables self)) /\
  rules (add_variable self variable) = rules self /\
  (unique_keys (variables self) = true ->
   unique_keys (variables (add_variable self variable)) = true) /\
  (forall name var_type range_ x fz0,
     fuzzify_inputs (add_variable self (Variable_init name var_type range_))
       [(name, x)] fz0
     = ([], Ok (Some (dict_set name [] fz0)))).
Proof.
  split; [apply dict_get_set_same |].
  split; [intros k N; apply dict_get_set_other; exact N |].
  split; [reflexivity |].
  split; [apply unique_keys_set |].
  intros name var_type range_ x fz0. cbn [fuzzify_inputs].
  unfold add_variable, Variable_init. cbn [variables var_name].
  rewrite dict_get_set_same. reflexivity.
Qed.

Lemma add_variable_lookup_witness :
  dict_get "risk"
    (variables (add_variable test_case (Variable_init "risk" "out" [])))
    = Some (Variable_init "risk" "out" []) /\
  dict_get "exp_level"
    (variables (add_variable test_case (Variable_init "risk" "out" [])))
    = dict_get "exp_level" (variables test_case) /\
  unique_keys
    (variables (add_variable test_case (Variable_init "risk" "out" [])))
    = true.
Proof.
  destruct (add_variable_lookup test_case (Variable_init "risk" "out" []))
    as (H1 & H2 & _ & H4 & _).
  split; [exact H1 |]. split.
  - apply (H2 "exp_level"). discriminate.
  - apply H4. reflexivity.
Defined.

(** X14: [add_fuzzy_set] stores the set under its name in the variable:
    looking that name up returns it (a former set of that name is
    replaced), the other sets, the name, the type and the range of the
    variable are untouched, and keys stay unique. *)
Theorem add_fuzzy_set_lookup variable fs :
  dict_get (fs_name fs) (fuzzy_sets (add_fuzzy_set variable fs)) = Some fs /\
  (forall k, k <> fs_name fs ->
     dict_get k (fuzzy_sets (add_fuzzy_set variable fs))
     = dict_get k (fuzzy_sets variable)) /\
  var_name (add_fuzzy_set variable fs) = var_name variable /\
  var_type (add_fuzzy_set variable fs) = var_type variable /\
  var_range (add_fuzzy_set variable fs) = var_range variable /\
  (unique_keys (fuzzy_sets variable) = true ->
   unique_keys (fuzzy_sets (add_fuzzy_set variable fs)) = true).
Proof.
  split; [apply dict_get_set_same |].
  split; [intros k N; apply dict_get_set_other; exact N |].
  repeat (split; [reflexivity |]).
  apply unique_keys_set.
Qed.

Lemma add_fuzzy_set_lookup_witness :
  dict_get "low"
    (fuzzy_sets (add_fuzzy_set risk_variable
                   (fuzzy_set "extreme" "TRI" [int 90; int 95; int 100])))
    = dict_get "low" (fuzzy_sets risk_variable) /\
  unique_keys
    (fuzzy_sets (add_fuzzy_set risk_variable
                   (fuzzy_set "extreme" "TRI" [int 90; int 95; int 100])))
    = true.
Proof.
  destruct (add_fuzzy_set_lookup risk_variable
              (fuzzy_set "extreme" "TRI" [int 90; int 95; int 100]))
    as (_ & H2 & _ & _ & _ & H6).
  split.
  - apply (H2 "low"). discriminate.
  - apply H6. reflexivity.
Defined.

(** ** The rule parser *)

Example parse_rule_two_clauses :
  parse_rule "proj_funding high or exp_level expert => risk low"
  = Some (Parsed ([("proj_funding", "high", "or");
                   ("exp_level", "expert", "and")], "risk", "low")).
Proof. reflexivity. Qed.

Example parse_rule_missing_operator :
  parse_rule "proj_funding high exp_level expert => risk low"
  = Some IndexError.
Proof. reflexivity. Qed.

Example parse_rule_no_arrow :
  parse_rule "proj_funding high risk low" = Some InvalidRuleFormat.
Proof. reflexivity. Qed.

Example parse_rule_bad_consequent :
  parse_rule "proj_funding high => risk" = Some UnpackError.
Proof. reflexivity. Qed.

Lemma in_operator_set_nonempty (token : string) :
  String.eqb (if in_operator_set token then token else "and") "" = false.
Proof.
  unfold in_operator_set.
  destruct (String.eqb token "and") eqn:E1.
  { apply String.eqb_eq in E1. subst. reflexivity. }
  destruct (String.eqb token "or") eqn:E2.
  { apply String.eqb_eq in E2. subst. reflexivity. }
  destruct (String.eqb token "and_not") eqn:E3.
  { apply String.eqb_eq in E3. subst. reflexivity. }
  reflexivity.
Qed.

(** The loop from any index: it reads three by three what is left of the
    conditions. *)
Lemma parse_loop_from fuel conditions idx in_vars :
  (List.length conditions - idx < fuel)%nat ->
  parse_loop fuel conditions idx in_vars =
  Some match clauses_by_three (skipn idx conditions) with
       | Some cs => Parsed (in_vars ++ cs)%list
       | None => IndexError
       end.
Proof.
  revert idx in_vars. induction fuel as [| fuel IH]; intros idx in_vars F.
  - lia.
  - cbn [parse_loop].
    assert (N : forall j, nth_error conditions (idx + j)%nat
                          = nth_error (skipn idx conditions) j)
      by (intros j; symmetry; apply nth_error_skipn).
    rewrite <- (Nat.add_0_r idx) at 2. rewrite !N.
    pose proof (length_skipn idx conditions) as L.
    destruct (skipn idx conditions) as [| v [| s [| token rest]]] eqn:K.
    + simpl in L. replace (idx <? List.length conditions)%nat with false
        by (symmetry; apply Nat.ltb_ge; lia).
      cbn [clauses_by_three]. rewrite app_nil_r. reflexivity.
    + simpl in L. replace (idx <? List.length conditions)%nat with true
        by (symmetry; apply Nat.ltb_lt; lia).
      reflexivity.
    + simpl in L. replace (idx <? List.length conditions)%nat with true
        by (symmetry; apply Nat.ltb_lt; lia).
      cbn [nth_error]. cbv zeta.
      change (String.eqb "and" "") with false. cbv iota.
      rewrite IH by lia.
      rewrite skipn_all2 by lia. simpl. rewrite app_nil_r. reflexivity.
    + simpl in L. replace (idx <? List.length conditions)%nat with true
        by (symmetry; apply Nat.ltb_lt; lia).
      cbn [nth_error]. cbv zeta.
      replace (idx + 2 <? List.length conditions)%nat with true
        by (symmetry; apply Nat.ltb_lt; lia).
      cbn [andb]. rewrite in_operator_set_nonempty.
      rewrite IH by lia.
      replace (skipn (idx + 3)%nat conditions) with rest.
      * cbn [clauses_by_three].
        destruct (clauses_by_three rest) as [cs |]; [| reflexivity].
        simpl. rewrite <- app_assoc. reflexivity.
      * rewrite (Nat.add_comm idx 3), <- skipn_skipn, K. reflexivity.
Qed.

(** X16: the loop that reads the conditions of a rule always terminates,
    within one iteration per condition, whatever the tokens; it reads them
    three by three (variable, set, operator), keeps an operator token only
    if it is "and", "or" or "and_not" and puts "and" in its place
    otherwise, gives the last clause the operator "and" when no token
    follows it, and raises an IndexError when a variable is left without a
    set.  More fuel does not change the result. *)
Theorem parse_loop_terminates conditions extra :
  parse_loop (S (List.length conditions) + extra)%nat conditions 0 [] =
  Some match clauses_by_three conditions with
       | Some cs => Parsed cs
       | None => IndexError
       end.
Proof.
  rewrite parse_loop_from by lia. reflexivity.
Qed.

Lemma list_ind3 {A} (P : list A -> Prop) :
  P [] ->
  (forall x, P [x]) ->
  (forall x y, P [x; y]) ->
  (forall x y z l, P l -> P (x :: y :: z :: l)) ->
  forall l, P l.
Proof.
  intros H0 H1 H2 H3.
  fix IH 1. intros [| x [| y [| z l]]].
  - exact H0.
  - apply H1.
  - apply H2.
  - apply H3. apply IH.
Qed.

Lemma clauses_by_three_None (tokens : list string) :
  clauses_by_three tokens = None <-> (List.length tokens mod 3 = 1)%nat.
Proof.
  induction tokens as [| x | x y | x y z l IH] using list_ind3.
  - split; discriminate.
  - split; reflexivity.
  - split; discriminate.
  - cbn [clauses_by_three].
    replace (List.length (x :: y :: z :: l)) with (List.length l + 1 * 3)%nat
      by (simpl; lia).
    rewrite Nat.Div0.mod_add. rewrite <- IH.
    destruct (clauses_by_three l); simpl; split; intros H;
      try discriminate H; reflexivity.
Qed.

Lemma clauses_by_three_length (tokens : list string) cs :
  clauses_by_three tokens = Some cs ->
  (3 * List.length cs = List.length tokens
   \/ 3 * List.length cs = List.length tokens + 1)%nat.
Proof.
  revert cs. induction tokens as [| x | x y | x y z l IH] using list_ind3;
    intros cs H.
  - inversion H. left. reflexivity.
  - discriminate.
  - inversion H. right. reflexivity.
  - cbn [clauses_by_three] in H.
    destruct (clauses_by_three l) as [cs' |]; [| discriminate].
    inversion H; subst cs. specialize (IH cs' eq_refl). simpl. lia.
Qed.

(** X17: reading the conditions raises the uncaught IndexError exactly
    when their number is 1 modulo 3, as when the operator between two
    clauses is left out (four tokens); an operator after the last clause is
    accepted.  Otherwise the loop returns one clause per group of three
    tokens, the last group possibly without its operator. *)
Theorem parse_conditions_index_error conditions :
  (parse_conditions conditions = Some IndexError
   <-> (List.length conditions mod 3 = 1)%nat) /\
  (forall in_vars,
      parse_conditions conditions = Some (Parsed in_vars) ->
      (3 * List.length in_vars = List.length conditions
       \/ 3 * List.length in_vars = List.length conditions + 1)%nat).
Proof.
  unfold parse_conditions. rewrite parse_loop_from by lia.
  cbn [skipn]. split.
  - rewrite <- clauses_by_three_None.
    destruct (clauses_by_three conditions); split; congruence.
  - intros in_vars H.
    destruct (clauses_by_three conditions) as [cs |] eqn:E;
      [| discriminate].
    inversion H; subst. apply clauses_by_three_length. exact E.
Qed.

Lemma parse_conditions_index_error_witness :
  parse_conditions ["proj_funding"; "high"; "exp_level"; "expert"]
    = Some IndexError /\
  (3 * List.length [("proj_funding", "high", "and")] = 3
   \/ 3 * List.length [("proj_funding", "high", "and")] = 3 + 1)%nat.
Proof.
  split.
  - apply (proj1 (parse_conditions_index_error
                    ["proj_funding"; "high"; "exp_level"; "expert"])).
    reflexivity.
  - apply (proj2 (parse_conditions_index_error
                    ["proj_funding"; "high"; "and"])
                 [("proj_funding", "high", "and")]).
    reflexivity.
Defined.

Lemma clauses_by_three_recognized (tokens : list string) cs :
  clauses_by_three tokens = Some cs ->
  forallb (fun c => recognized (operator_of c)) cs = true.
Proof.
  revert cs. induction tokens as [| x | x y | x y z l IH] using list_ind3;
    intros cs H.
  - inversion H. reflexivity.
  - discriminate.
  - inversion H. reflexivity.
  - cbn [clauses_by_three] in H.
    destruct (clauses_by_three l) as [cs' |]; [| discriminate].
    inversion H; subst cs. cbn [forallb]. rewrite (IH cs' eq_refl).
    rewrite andb_true_r. unfold operator_of. cbn [snd].
    unfold recognized.
    destruct (in_operator_set z) eqn:E; [exact E | reflexivity].
Qed.

Lemma warnings_recognized in_vars :
  forallb (fun c => recognized (operator_of c)) in_vars = true ->
  warnings in_vars = [].
Proof.
  unfold warnings. induction in_vars as [| c rest IH]; intros H.
  - reflexivity.
  - cbn [forallb] in H. apply andb_true_iff in H. destruct H as [Hc Hrest].
    cbn [filter]. rewrite Hc. simpl. apply IH. exact Hrest.
Qed.

Lemma py_min_silent (a b : value) : fst (py_min a b) = [].
Proof. destruct a, b; reflexivity. Qed.

Lemma py_max_silent (a b : value) : fst (py_max a b) = [].
Proof. destruct a, b; reflexivity. Qed.

(** Whatever the degrees, a clause loop that completes has printed the
    warnings of its clauses. *)
Lemma eval_clauses_out fz in_vars acc out v :
  eval_clauses fz in_vars acc = (out, Ok v) -> out = warnings in_vars.
Proof.
  revert acc out. induction in_vars as [| [[var_name set_name] op] rest IH];
    intros acc out H.
  - inversion H. reflexivity.
  - cbn [eval_clauses] in H. apply bind_inv_Ok in H.
    destruct H as (o1 & degrees & o2 & Hd & H & ->).
    pose proof (dict_index_silent var_name fz) as S. rewrite Hd in S.
    simpl in S. subst o1.
    apply bind_inv_Ok in H. destruct H as (o3 & md & o4 & Hop & H & ->).
    apply IH in H. subst o4.
    unfold warnings, recognized, operator_of. cbn [filter snd].
    set (degree := dict_get_default set_name degrees (VNum (Fin 0))) in *.
    destruct (String.eqb op "and").
    { pose proof (py_min_silent acc degree) as S. rewrite Hop in S.
      simpl in S. subst o3. reflexivity. }
    destruct (String.eqb op "or").
    { pose proof (py_max_silent acc degree) as S. rewrite Hop in S.
      simpl in S. subst o3. reflexivity. }
    destruct (String.eqb op "and_not").
    { apply bind_inv_Ok in Hop. destruct Hop as (o5 & d & o6 & H1 & H2 & ->).
      pose proof (py_min_silent acc d) as S.
      rewrite H2 in S. simpl in S. subst o6.
      destruct degree; [discriminate H1 |]. inversion H1; subst.
      reflexivity. }
    unfold bind, print in Hop.
    pose proof (py_min_silent acc degree) as S.
    destruct (py_min acc degree) as [o r]. simpl in S. subst o.
    inversion Hop; subst. reflexivity.
Qed.

(** X18: every clause the parser returns carries one of the three
    operators "and", "or", "and_not": a token it does not know in operator
    position is replaced by "and" without a word.  So the evaluation of
    parsed clauses never prints the unknown-operator warning: when it
    completes, it has printed nothing. *)
Theorem parsed_operators_recognized conditions in_vars :
  parse_conditions conditions = Some (Parsed in_vars) ->
  forallb (fun c => recognized (operator_of c)) in_vars = true /\
  forall fz acc out v,
    eval_clauses fz in_vars acc = (out, Ok v) -> out = [].
Proof.
  unfold parse_conditions. rewrite parse_loop_from by lia. cbn [skipn].
  intros H. destruct (clauses_by_three conditions) as [cs |] eqn:E;
    [| discriminate].
  inversion H; subst in_vars; clear H.
  pose proof (clauses_by_three_recognized conditions cs E) as R.
  split; [exact R |].
  intros fz acc out v H. apply eval_clauses_out in H.
  rewrite H. apply warnings_recognized. exact R.
Qed.

Lemma parsed_operators_recognized_witness :
  forallb (fun c => recognized (operator_of c))
    [("proj_funding", "high", "and"); ("exp_level", "expert", "and")] = true /\
  fst (eval_clauses demo_fuzzified
         [("proj_funding", "high", "and"); ("exp_level", "expert", "and")]
         (VNum (Fin 1))) = [].
Proof.
  destruct (parsed_operators_recognized
              ["proj_funding"; "high"; "xor"; "exp_level"; "expert"]
              [("proj_funding", "high", "and"); ("exp_level", "expert", "and")]
              eq_refl) as [H1 H2].
  split; [exact H1 |].
  exact (H2 demo_fuzzified (VNum (Fin 1))
            (fst (eval_clauses demo_fuzzified
                    [("proj_funding", "high", "and");
                     ("exp_level", "expert", "and")] (VNum (Fin 1))))
            (VNum (Fin 0)) eq_refl).
Defined.

Lemma Qmin_one_l (d : Q) : d <= 1 -> Qmin 1 d == d.
Proof. intros H. apply Q.min_r. exact H. Qed.

(** X19: how a typed rule with two clauses is evaluated.  The operator
    typed between the clauses is attached to the first clause, the second
    clause always gets "and", and the first clause is combined with the
    initial accumulator 1.  With degrees dA and dB in [0, 1] for the two
    clauses: "A or B" has firing strength dB (A plays no part),
    "A and_not B" has strength min(1 - dA, dB), that is (not A) and B, and
    "A and B" has strength min(dA, dB). *)
Theorem typed_rule_strength fz a sa b sb dA dB :
  clause_degree fz (a, sa, "and") = Some dA ->
  clause_degree fz (b, sb, "and") = Some dB ->
  0 <= dA <= 1 ->
  0 <= dB <= 1 ->
  (exists q,
      parse_conditions [a; sa; "or"; b; sb]
        = Some (Parsed [(a, sa, "or"); (b, sb, "and")]) /\
      eval_clauses fz [(a, sa, "or"); (b, sb, "and")] (VNum (Fin 1))
        = ([], Ok (VNum (Fin q))) /\
      q == dB) /\
  (exists q,
      parse_conditions [a; sa; "and_not"; b; sb]
        = Some (Parsed [(a, sa, "and_not"); (b, sb, "and")]) /\
      eval_clauses fz [(a, sa, "and_not"); (b, sb, "and")] (VNum (Fin 1))
        = ([], Ok (VNum (Fin q))) /\
      q == Qmin (1 - dA) dB) /\
  (exists q,
      parse_conditions [a; sa; "and"; b; sb]
        = Some (Parsed [(a, sa, "and"); (b, sb, "and")]) /\
      eval_clauses fz [(a, sa, "and"); (b, sb, "and")] (VNum (Fin 1))
        = ([], Ok (VNum (Fin q))) /\
      q == Qmin dA dB).
Proof.
  intros HA HB UA UB.
  assert (R : forall op,
             clauses_resolved fz [(a, sa, op); (b, sb, "and")] = true).
  { intros op. unfold clauses_resolved. cbn [forallb].
    unfold clause_degree in *.
    destruct (dict_get a fz); [| discriminate HA].
    destruct (dict_get b fz); [| discriminate HB].
    rewrite HA, HB. reflexivity. }
  assert (D : forall op, degree_of fz (a, sa, op) = dA /\
                         degree_of fz (b, sb, "and") = dB).
  { intros op. unfold degree_of. unfold clause_degree in *.
    destruct (dict_get a fz); [| discriminate HA].
    destruct (dict_get b fz); [| discriminate HB].
    rewrite HA, HB. split; reflexivity. }
  split; [| split].
  - eexists. split; [reflexivity |]. split.
    + rewrite (eval_clauses_fold fz _ 1 (R "or")). reflexivity.
    + cbn [fold_left]. destruct (D "or") as [-> ->].
      unfold spec_combine, operator_of. cbn [snd].
      change (String.eqb "or" "and") with false.
      change (String.eqb "or" "or") with true.
      change (String.eqb "and" "and") with true. cbv iota.
      rewrite Qmax_one by lra. apply Qmin_one_l. lra.
  - eexists. split; [reflexivity |]. split.
    + rewrite (eval_clauses_fold fz _ 1 (R "and_not")). reflexivity.
    + cbn [fold_left]. destruct (D "and_not") as [-> ->].
      unfold spec_combine, operator_of. cbn [snd].
      change (String.eqb "and_not" "and") with false.
      change (String.eqb "and_not" "or") with false.
      change (String.eqb "and_not" "and_not") with true.
      change (String.eqb "and" "and") with true. cbv iota.
      rewrite (Qmin_one_l (1 - dA)) by lra. reflexivity.
  - eexists. split; [reflexivity |]. split.
    + rewrite (eval_clauses_fold fz _ 1 (R "and")). reflexivity.
    + cbn [fold_left]. destruct (D "and") as [-> ->].
      unfold spec_combine, operator_of. cbn [snd].
      change (String.eqb "and" "and") with true. cbv iota.
      rewrite (Qmin_one_l dA) by lra. reflexivity.
Qed.

Lemma typed_rule_strength_witness :
  exists q,
    parse_conditions ["proj_funding"; "medium"; "or"; "exp_level"; "expert"]
      = Some (Parsed [("proj_funding", "medium", "or");
                      ("exp_level", "expert", "and")]) /\
    eval_clauses demo_fuzzified
      [("proj_funding", "medium", "or"); ("exp_level", "expert", "and")]
      (VNum (Fin 1)) = ([], Ok (VNum (Fin q))) /\
    q == 10 # 30.
Proof.
  apply (proj1 (typed_rule_strength demo_fuzzified
                  "proj_funding" "medium" "exp_level" "expert"
                  (10 # 20) (10 # 30) eq_refl eq_refl
                  (conj (Qle_bool_imp_le 0 (10 # 20) eq_refl)
                        (Qle_bool_imp_le (10 # 20) 1 eq_refl))
                  (conj (Qle_bool_imp_le 0 (10 # 30) eq_refl)
                        (Qle_bool_imp_le (10 # 30) 1 eq_refl)))).
Defined.

(** ** Sequencing of the loops *)

Lemma bind_assoc {A B C} (m : M A) (f : A -> M B) (g : B -> M C) :
  bind (bind m f) g = bind m (fun a => bind (f a) g).
Proof.
  destruct m as [o [a | e]]; simpl; [| reflexivity].
  destruct (f a) as [o1 [b | e]]; simpl; [| reflexivity].
  destruct (g b) as [o2 r]. rewrite app_assoc. reflexivity.
Qed.

Lemma bind_ret_r {A} (m : M A) : bind m ret = m.
Proof.
  destruct m as [o [a | e]]; simpl; [| reflexivity].
  rewrite app_nil_r. reflexivity.
Qed.

Lemma eval_clauses_app fz l1 l2 acc :
  eval_clauses fz (l1 ++ l2)%list acc
  = bind (eval_clauses fz l1 acc) (fun a => eval_clauses fz l2 a).
Proof.
  revert acc. induction l1 as [| [[v s] op] l1 IH]; intros acc.
  - cbn [app eval_clauses]. rewrite bind_ret. reflexivity.
  - simpl app. cbn [eval_clauses]. rewrite bind_assoc.
    apply bind_ext. intros degrees. rewrite bind_assoc.
    apply bind_ext. intros md. apply IH.
Qed.

Lemma infer_app fz l1 l2 io :
  infer fz (l1 ++ l2)%list io
  = bind (infer fz l1 io) (fun io' => infer fz l2 io').
Proof.
  revert io. induction l1 as [| [[in_vars out_var] out_set] l1 IH]; intros io.
  - cbn [app infer]. rewrite bind_ret. reflexivity.
  - simpl app. cbn [infer]. rewrite bind_assoc.
    apply bind_ext. intros st. cbv zeta. rewrite bind_assoc.
    apply bind_ext. intros output. rewrite bind_assoc.
    apply bind_ext. intros m. apply IH.
Qed.

(** X20: in a run, an antecedent clause on a variable that was not
    supplied stops the run with a KeyError naming that variable, as soon as
    the rules before it can be carried through and the clauses before it in
    its rule read numbers: no results are returned, whatever the rules that
    follow. *)
Theorem unsupplied_variable_raises_KeyError
    self crisp_values out0 fz done pre var_name set_name operator post
    out_var out_set rest :
  fuzzify_inputs self crisp_values [] = (out0, Ok (Some fz)) ->
  rules self
    = (done ++ (pre ++ (var_name, set_name, operator) :: post,
                out_var, out_set) :: rest)%list ->
  forallb (rule_ok self fz) done = true ->
  forallb (reads_number fz) pre = true ->
  dict_get var_name fz = None ->
  exists out,
    run_simulation self crisp_values = (out, Raise (KeyError var_name)).
Proof.
  intros Hfz Hr Hdone Hpre Hmiss.
  destruct (infer_completes self fz done [] Hdone (Forall_nil _))
    as (o1 & io & Hinfer & _).
  destruct (eval_clauses_completes fz pre (Fin 1) Hpre) as (o2 & r & Hev).
  unfold run_simulation. rewrite Hfz, Hr. unfold bind at 1.
  rewrite infer_app, Hinfer. cbn [infer].
  rewrite eval_clauses_app, Hev. cbn [eval_clauses].
  unfold dict_index. rewrite Hmiss.
  eexists. unfold bind, raise. cbn. reflexivity.
Qed.

Lemma unsupplied_variable_raises_KeyError_witness :
  exists out,
    run_simulation test_case [("proj_funding", int 50)]
      = (out, Raise (KeyError "exp_level")).
Proof.
  apply (unsupplied_variable_raises_KeyError test_case
           [("proj_funding", int 50)] []
           (match fuzzify_inputs test_case [("proj_funding", int 50)] [] with
            | (_, Ok (Some fz)) => fz
            | _ => []
            end)
           [] [("proj_funding", "high", "or")] "exp_level" "expert" "or" []
           "risk" "low"
           (tl (rules test_case))).
  - reflexivity.
  - reflexivity.
  - reflexivity.
  - reflexivity.
  - reflexivity.
Defined.

(** ** A clause on a fuzzy set that does not exist *)






(** ** Rules typed in the format of the prompt *)

Lemma append_assoc (a b c : string) :
  ((a ++ b) ++ c = a ++ (b ++ c))%string.
Proof. induction a as [| x a IH]; simpl; [| rewrite IH]; reflexivity. Qed.

Lemma append_nil_r (a : string) : (a ++ "" = a)%string.
Proof. induction a as [| x a IH]; simpl; [| rewrite IH]; reflexivity. Qed.

Lemma prefix_nil (s : string) : String.prefix "" s = true.
Proof. destruct s; reflexivity. Qed.

Lemma plain_char_not_space (c : ascii) :
  is_space c = false -> c <> " "%char.
Proof. intros H E. subst c. discriminate H. Qed.

Lemma prefix_space_false (sep' : string) (c : ascii) (s : string) :
  is_space c = false ->
  String.prefix (String " " sep') (String c s) = false.
Proof.
  intros H.
  change (String.prefix (String " " sep') (String c s))
    with (match ascii_dec " " c with
          | left _ => String.prefix sep' s
          | right _ => false
          end).
  destruct (ascii_dec " " c) as [E | N]; [| reflexivity].
  subst c. discriminate H.
Qed.

(** A run of characters that are not whitespace goes to the current
    piece, for any separator that starts with a space. *)
Lemma split_from_plain (sep' t rest piece : string) :
  plain_chars t = true ->
  split_from (String " " sep') (t ++ rest) 0 piece
  = split_from (String " " sep') rest 0 (piece ++ t).
Proof.
  revert piece. induction t as [| c t IH]; intros piece P.
  - simpl. rewrite append_nil_r. reflexivity.
  - cbn [plain_chars] in P. apply andb_true_iff in P. destruct P as [Pc Pt].
    apply andb_true_iff in Pc. destruct Pc as [Ps _].
    apply negb_true_iff in Ps.
    change (String c t ++ rest)%string with (String c (t ++ rest)%string).
    cbn [split_from]. rewrite (prefix_space_false sep' c _ Ps).
    rewrite IH by exact Pt. rewrite append_assoc. reflexivity.
Qed.

Lemma prefix_space_true (s : string) : String.prefix " " (String " " s) = true.
Proof.
  change (String.prefix " " (String " " s))
    with (match ascii_dec " " " " with
          | left _ => String.prefix "" s
          | right _ => false
          end).
  destruct (ascii_dec " " " ") as [_ | N]; [apply prefix_nil | congruence].
Qed.

Lemma prefix_arrow_false (c : ascii) (s : string) :
  Ascii.eqb c "=" = false ->
  String.prefix " => " (String " " (String c s)) = false.
Proof.
  intros H.
  change (String.prefix " => " (String " " (String c s)))
    with (match ascii_dec " " " " with
          | left _ =>
              match ascii_dec "=" c with
              | left _ => String.prefix "> " s
              | right _ => false
              end
          | right _ => false
          end).
  destruct (ascii_dec " " " ") as [_ | N]; [| reflexivity].
  destruct (ascii_dec "=" c) as [E | _]; [| reflexivity].
  subst c. discriminate H.
Qed.

Lemma prefix_arrow_true (s : string) :
  String.prefix " => " (" => " ++ s) = true.
Proof.
  change (String.prefix " => " (" => " ++ s))
    with (match ascii_dec " " " " with
          | left _ =>
              match ascii_dec "=" "=" with
              | left _ =>
                  match ascii_dec ">" ">" with
                  | left _ =>
                      match ascii_dec " " " " with
                      | left _ => String.prefix "" s
                      | right _ => false
                      end
                  | right _ => false
                  end
              | right _ => false
              end
          | right _ => false
          end).
  destruct (ascii_dec " " " "); [| congruence].
  destruct (ascii_dec "=" "="); [| congruence].
  destruct (ascii_dec ">" ">"); [| congruence].
  apply prefix_nil.
Qed.

Lemma plain_is_plain_chars (t : string) : plain t = true -> plain_chars t = true.
Proof. destruct t; [discriminate | exact (fun H => H)]. Qed.

Lemma concat_cons2 (sep x y : string) (l : list string) :
  String.concat sep (x :: y :: l)
  = (x ++ sep ++ String.concat sep (y :: l))%string.
Proof. reflexivity. Qed.

(** [" ".join(tokens).split(" ")] gives the tokens back. *)
Lemma split_space_concat (tokens : list string) (piece : string) :
  forallb plain tokens = true ->
  split_from " " (String.concat " " tokens) 0 piece
  = match tokens with
    | [] => [piece]
    | t :: rest => (piece ++ t)%string :: rest
    end.
Proof.
  revert piece. induction tokens as [| t [| t2 r] IH]; intros piece P.
  - reflexivity.
  - cbn [forallb] in P. apply andb_true_iff in P. destruct P as [Pt _].
    cbn [String.concat]. rewrite <- (append_nil_r t) at 1.
    rewrite (split_from_plain "" t "" piece (plain_is_plain_chars t Pt)).
    reflexivity.
  - cbn [forallb] in P. apply andb_true_iff in P. destruct P as [Pt Prest].
    rewrite concat_cons2.
    rewrite (split_from_plain "" t _ piece (plain_is_plain_chars t Pt)).
    change (" " ++ String.concat " " (t2 :: r))%string
      with (String " " (String.concat " " (t2 :: r))).
    cbn [split_from]. rewrite prefix_space_true.
    change (String.length " " - 1)%nat with 0%nat.
    rewrite (IH "" Prest). reflexivity.
Qed.

(** [" => "] is not found inside plain tokens joined by spaces. *)
Lemma split_arrow_concat (tokens : list string) (tail piece : string) :
  forallb plain tokens = true ->
  split_from " => " (String.concat " " tokens ++ tail) 0 piece
  = split_from " => " tail 0 (piece ++ String.concat " " tokens).
Proof.
  revert piece. induction tokens as [| t [| t2 r] IH]; intros piece P.
  - simpl. rewrite append_nil_r. reflexivity.
  - cbn [forallb] in P. apply andb_true_iff in P. destruct P as [Pt _].
    cbn [String.concat].
    apply (split_from_plain "=> " t tail piece (plain_is_plain_chars t Pt)).
  - cbn [forallb] in P. apply andb_true_iff in P. destruct P as [Pt Prest].
    specialize (IH ((piece ++ t) ++ " ")%string Prest).
    rewrite concat_cons2. rewrite !append_assoc.
    rewrite (split_from_plain "=> " t _ piece (plain_is_plain_chars t Pt)).
    rewrite <- (append_assoc piece t), <- (append_assoc (piece ++ t) " ").
    rewrite <- IH.
    assert (P2 : plain t2 = true).
    { cbn [forallb] in Prest. apply andb_true_iff in Prest. tauto. }
    destruct t2 as [| c t2']; [discriminate P2 |].
    cbn [plain plain_chars] in P2.
    apply andb_true_iff in P2. destruct P2 as [Pc _].
    apply andb_true_iff in Pc. destruct Pc as [_ Pe].
    apply negb_true_iff in Pe.
    assert (E : exists s', (String.concat " " (String c t2' :: r) ++ tail
                            = String c s')%string).
    { destruct r; cbn [String.concat]; eexists; reflexivity. }
    destruct E as [s' E]. rewrite E.
    change (" " ++ String c s')%string with (String " " (String c s')).
    cbn [split_from]. rewrite (prefix_arrow_false c s' Pe). reflexivity.
Qed.

Lemma split_whitespace_plain (t rest piece : string) :
  plain_chars t = true ->
  split_whitespace_from (t ++ rest) piece
  = split_whitespace_from rest (piece ++ t).
Proof.
  revert piece. induction t as [| c t IH]; intros piece P.
  - simpl. rewrite append_nil_r. reflexivity.
  - cbn [plain_chars] in P. apply andb_true_iff in P. destruct P as [Pc Pt].
    apply andb_true_iff in Pc. destruct Pc as [Ps _].
    apply negb_true_iff in Ps.
    change (String c t ++ rest)%string with (String c (t ++ rest)%string).
    cbn [split_whitespace_from]. rewrite Ps.
    rewrite IH by exact Pt. rewrite append_assoc. reflexivity.
Qed.

Lemma split_whitespace_pair (a b : string) :
  plain a = true -> plain b = true ->
  split_whitespace (a ++ " " ++ b) = [a; b].
Proof.
  intros Pa Pb. unfold split_whitespace.
  rewrite (split_whitespace_plain a _ "" (plain_is_plain_chars a Pa)).
  change ("" ++ a)%string with a.
  change (" " ++ b)%string with (String " " b).
  cbn [split_whitespace_from]. change (is_space " ") with true. cbv iota.
  destruct a as [| ca a']; [discriminate Pa |].
  rewrite <- (append_nil_r b) at 1.
  rewrite (split_whitespace_plain b "" "" (plain_is_plain_chars b Pb)).
  change ("" ++ b)%string with b. cbn [split_whitespace_from].
  destruct b; [discriminate Pb | reflexivity].
Qed.

Lemma in_operator_set_plain (token : string) :
  in_operator_set token = true -> plain token = true.
Proof.
  unfold in_operator_set. intros H.
  apply orb_true_iff in H. destruct H as [H | H].
  - apply orb_true_iff in H.
    destruct H as [H | H]; apply String.eqb_eq in H; subst; reflexivity.
  - apply String.eqb_eq in H; subst; reflexivity.
Qed.

Lemma prompt_tokens_plain (in_vars : list clause) :
  forallb (fun c => plain (fst (fst c)) && plain (snd (fst c))
                    && in_operator_set (snd c)) in_vars = true ->
  forallb plain (prompt_tokens in_vars) = true.
Proof.
  induction in_vars as [| [[v s] op] [| c2 r] IH]; intros H.
  - reflexivity.
  - cbn [forallb fst snd] in H. cbn [prompt_tokens forallb].
    apply andb_true_iff in H. destruct H as [H _].
    apply andb_true_iff in H. destruct H as [H _].
    apply andb_true_iff in H. destruct H as [Hv Hs].
    rewrite Hv, Hs. reflexivity.
  - cbn [forallb] in H. apply andb_true_iff in H. destruct H as [Hc Hrest].
    cbn [fst snd] in Hc.
    apply andb_true_iff in Hc. destruct Hc as [Hc Hop].
    apply andb_true_iff in Hc. destruct Hc as [Hv Hs].
    change (prompt_tokens ((v, s, op) :: c2 :: r))
      with (v :: s :: op :: prompt_tokens (c2 :: r)).
    cbn [forallb]. rewrite Hv, Hs, (in_operator_set_plain op Hop).
    apply IH. exact Hrest.
Qed.

Lemma clauses_by_three_prompt (in_vars : list clause) :
  in_vars <> [] ->
  forallb (fun c => in_operator_set (snd c)) in_vars = true ->
  last_operator in_vars = "and" ->
  clauses_by_three (prompt_tokens in_vars) = Some in_vars.
Proof.
  induction in_vars as [| [[v s] op] [| c2 r] IH]; intros N H L.
  - congruence.
  - unfold last_operator, operator_of in L. cbn in L. subst op. reflexivity.
  - cbn [forallb snd] in H. apply andb_true_iff in H.
    destruct H as [Hop Hrest].
    change (prompt_tokens ((v, s, op) :: c2 :: r))
      with (v :: s :: op :: prompt_tokens (c2 :: r)).
    cbn [clauses_by_three]. rewrite Hop.
    rewrite IH; [reflexivity | discriminate | exact Hrest | exact L].
Qed.

(** X22: a rule typed in the format of the prompt is read back exactly.
    For a rule with at least one clause, plain names (not empty, without
    whitespace or "="), operators among "and", "or", "and_not" and "and" on
    its last clause, the line "variable set operator ... variable set =>
    OUT_variable set" is parsed, without any error, into that rule. *)
Theorem parse_rule_prompt_line (r : rule) :
  typable r = true -> parse_rule (prompt_line r) = Some (Parsed r).
Proof.
  destruct r as [[in_vars out_var] out_set].
  unfold typable, prompt_line, antecedents, out_var_of, out_set_of.
  cbn [fst snd]. intros T.
  repeat (apply andb_true_iff in T; destruct T as [T ?]).
  assert (N : in_vars <> []) by (destruct in_vars; [discriminate | discriminate]).
  assert (Pt : forallb plain (prompt_tokens in_vars) = true)
    by (apply prompt_tokens_plain; assumption).
  assert (Hops : forallb (fun c => in_operator_set (snd c)) in_vars = true).
  { rewrite forallb_forall in *. intros c Hc.
    match goal with
    | [ F : forall x, In x in_vars -> _ = true |- _ ] =>
        specialize (F c Hc); apply andb_true_iff in F; tauto
    end. }
  assert (Hlast : last_operator in_vars = "and")
    by (apply String.eqb_eq; assumption).
  unfold parse_rule, split.
  rewrite (split_arrow_concat _ _ "" Pt).
  change ("" ++ String.concat " " (prompt_tokens in_vars))%string
    with (String.concat " " (prompt_tokens in_vars)).
  change (" => " ++ out_var ++ " " ++ out_set)%string
    with (String " " (String "=" (String ">" (String " "
            (out_var ++ " " ++ out_set)%string)))).
  cbn [split_from].
  change (String " " (String "=" (String ">" (String " "
            (out_var ++ " " ++ out_set)%string))))
    with (" => " ++ (out_var ++ " " ++ out_set))%string.
  rewrite prefix_arrow_true.
  change (String.length " => " - 1)%nat with 3%nat. cbv iota.
  rewrite <- (append_nil_r (out_var ++ " " ++ out_set)) at 1.
  change (out_var ++ " " ++ out_set)%string
    with (String.concat " " [out_var; out_set]) at 1.
  rewrite (split_arrow_concat [out_var; out_set] "" "").
  2: { cbn [forallb].
       repeat match goal with
              | [ H : plain _ = true |- _ ] => rewrite H; clear H
              end. reflexivity. }
  cbn [split_from String.concat append].
  rewrite (split_space_concat _ "" Pt).
  destruct (prompt_tokens in_vars) as [| t rest] eqn:E.
  { destruct in_vars as [| [[v s] op] [| c2 r]]; [congruence | |];
      discriminate E. }
  change ("" ++ t)%string with t. rewrite <- E.
  unfold parse_conditions. rewrite parse_loop_from by lia. cbn [skipn].
  rewrite (clauses_by_three_prompt in_vars N Hops Hlast). cbn [app].
  change (String " " out_set) with (" " ++ out_set)%string.
  rewrite split_whitespace_pair by assumption. reflexivity.
Qed.

Lemma parse_rule_prompt_line_witness :
  parse_rule
    (prompt_line
       ([("proj_funding", "very_low", "and_not");
         ("exp_level", "expert", "and")], "risk", "high"))
  = Some (Parsed
            ([("proj_funding", "very_low", "and_not");
              ("exp_level", "expert", "and")], "risk", "high")).
Proof.
  apply (parse_rule_prompt_line
           ([("proj_funding", "very_low", "and_not");
             ("exp_level", "expert", "and")], "risk", "high")).
  reflexivity.
Defined.

(** ** A consequent variable that is not in the model *)






(** * Properties in Python's arithmetic *)

(** ** Rounding to binary64 *)

Lemma round_half_even_bounds m :
  let f := Qfloor m in
  (round_half_even m = f \/ round_half_even m = f + 1)%Z.
Proof.
  unfold round_half_even. cbv zeta.
  destruct (Qcompare _ _); [destruct (Z.even _) | |]; auto.
Qed.

Lemma round_half_even_floor m (z : Z) :
  inject_Z z <= m -> (z <= round_half_even m)%Z.
Proof.
  intros H. assert (F : (z <= Qfloor m)%Z).
  { rewrite <- (Qfloor_Z z). apply Qfloor_resp_le. exact H. }
  destruct (round_half_even_bounds m) as [E | E]; rewrite E; lia.
Qed.

Lemma round_half_even_ceiling m (z : Z) :
  m <= inject_Z z -> (round_half_even m <= z)%Z.
Proof.
  intros H. unfold round_half_even.
  pose proof (Qfloor_le m) as F1. pose proof (Qlt_floor m) as F2.
  assert (F : (Qfloor m <= z)%Z).
  { rewrite <- (Qfloor_Z z). apply Qfloor_resp_le. exact H. }
  assert (G : m - inject_Z (Qfloor m) > 0 -> (Qfloor m + 1 <= z)%Z).
  { intros P. assert (L : inject_Z (Qfloor m) < inject_Z z) by lra.
    rewrite <- Zlt_Qlt in L. lia. }
  destruct (Qcompare_spec (m - inject_Z (Qfloor m)) (1 # 2)) as [C | C | C].
  - destruct (Z.even _); [exact F |]. apply G. lra.
  - exact F.
  - apply G. lra.
Qed.

Lemma round_half_even_mono m1 m2 :
  m1 <= m2 -> (round_half_even m1 <= round_half_even m2)%Z.
Proof.
  intros H.
  assert (F : (Qfloor m1 <= Qfloor m2)%Z) by (apply Qfloor_resp_le; exact H).
  destruct (Z.eq_dec (Qfloor m1) (Qfloor m2)) as [E | N].
  - unfold round_half_even. rewrite E.
    destruct (Qcompare_spec (m1 - inject_Z (Qfloor m2)) (1 # 2));
    destruct (Qcompare_spec (m2 - inject_Z (Qfloor m2)) (1 # 2));
      try destruct (Z.even (Qfloor m2)); try lia; exfalso; lra.
  - destruct (round_half_even_bounds m1) as [E1 | E1];
    destruct (round_half_even_bounds m2) as [E2 | E2]; rewrite E1, E2; lia.
Qed.

Lemma round_half_even_Z (z : Z) : round_half_even (inject_Z z) = z.
Proof.
  apply Z.le_antisymm.
  - apply round_half_even_ceiling. lra.
  - apply round_half_even_floor. lra.
Qed.

Lemma pow2_pos (k : Z) : 0 < 2 ^ k.
Proof. apply Qpower_0_lt. reflexivity. Qed.

Lemma pow2_add (a b : Z) : 2 ^ (a + b) == 2 ^ a * 2 ^ b.
Proof. apply Qpower_plus. discriminate. Qed.

Lemma pow2_le (a b : Z) : (a <= b)%Z -> 2 ^ a <= 2 ^ b.
Proof. intros H. apply Qpower_le_compat_l; [exact H | lra]. Qed.

Lemma pow2_lt (a b : Z) : (a < b)%Z -> 2 ^ a < 2 ^ b.
Proof. intros H. apply Qpower_lt_compat_l; [exact H | lra]. Qed.

Lemma pow2_Z (k : Z) : (0 <= k)%Z -> inject_Z (2 ^ k) == 2 ^ k.
Proof. intros H. rewrite Zpower_Qpower by exact H. reflexivity. Qed.

Lemma pow2_cancel (q : Q) (k : Z) : q * 2 ^ (- k) * 2 ^ k == q.
Proof.
  rewrite <- Qmult_assoc, <- pow2_add.
  replace (- k + k)%Z with 0%Z by lia. simpl. ring.
Qed.

Lemma floor_log2_spec (q : Q) :
  0 < q -> 2 ^ floor_log2 q <= q /\ q < 2 ^ (floor_log2 q + 1).
Proof.
  intros P. destruct q as [n d].
  assert (Pn : (0 < n)%Z).
  { unfold Qlt in P. simpl in P. lia. }
  unfold floor_log2. cbn [Qnum Qden].
  set (ln := Z.log2 n). set (ld := Z.log2 (Z.pos d)).
  destruct (Z.log2_spec n Pn) as [N1 N2]. fold ln in N1, N2.
  destruct (Z.log2_spec (Z.pos d) (Pos2Z.is_pos d)) as [D1 D2].
  fold ld in D1, D2.
  assert (Ln : (0 <= ln)%Z) by apply Z.log2_nonneg.
  assert (Ld : (0 <= ld)%Z) by apply Z.log2_nonneg.
  assert (E : n # d == inject_Z n / inject_Z (Z.pos d)) by apply Qmake_Qdiv.
  assert (Pd : 0 < inject_Z (Z.pos d)).
  { replace 0 with (inject_Z 0) by reflexivity. rewrite <- Zlt_Qlt. lia. }
  (* 2^(l-1) < q < 2^(l+1) *)
  assert (Up : n # d < 2 ^ (ln - ld + 1)).
  { rewrite E. apply Qlt_shift_div_r; [exact Pd |].
    replace (ln - ld + 1)%Z with ((ln + 1) + - ld)%Z by lia.
    rewrite pow2_add.
    apply Qlt_le_trans with (2 ^ (ln + 1) * 2 ^ (- ld) * 2 ^ ld).
    - rewrite pow2_cancel. rewrite <- pow2_Z by lia.
      rewrite <- Zlt_Qlt. replace (ln + 1)%Z with (Z.succ ln) by lia. exact N2.
    - apply Qmult_le_l.
      + apply Qmult_lt_0_compat; apply pow2_pos.
      + rewrite <- pow2_Z by lia. rewrite <- Zle_Qle. exact D1. }
  assert (Lo : 2 ^ (ln - ld - 1) <= n # d).
  { rewrite E. apply Qle_shift_div_l; [exact Pd |].
    replace (ln - ld - 1)%Z with (ln + - (ld + 1))%Z by lia.
    rewrite pow2_add.
    apply Qle_trans with (2 ^ ln * 2 ^ (- (ld + 1)) * 2 ^ (ld + 1)).
    - apply Qmult_le_l.
      + apply Qmult_lt_0_compat; apply pow2_pos.
      + rewrite <- pow2_Z by lia. rewrite <- Zle_Qle.
        replace (ld + 1)%Z with (Z.succ ld) by lia. lia.
    - rewrite pow2_cancel. rewrite <- pow2_Z by lia.
      rewrite <- Zle_Qle. exact N1. }
  destruct (Qle_bool (2 ^ (ln - ld)) (n # d)) eqn:B.
  - apply Qle_bool_iff in B. split; assumption.
  - split.
    + exact Lo.
    + replace (ln - ld - 1 + 1)%Z with (ln - ld)%Z by lia.
      apply Qnot_le_lt. intros C. apply Qle_bool_iff in C. congruence.
Qed.

Lemma pow2_le_inv (a b : Z) : 2 ^ a <= 2 ^ b -> (a <= b)%Z.
Proof. intros H. apply (Qpower_le_compat_l_inv 2); [exact H | reflexivity]. Qed.

Lemma pow2_lt_inv (a b : Z) : 2 ^ a < 2 ^ b -> (a < b)%Z.
Proof. intros H. apply (Qpower_lt_compat_l_inv 2); [exact H | reflexivity]. Qed.

Lemma floor_log2_mono (p q : Q) :
  0 < p -> p <= q -> (floor_log2 p <= floor_log2 q)%Z.
Proof.
  intros P H.
  destruct (floor_log2_spec p P) as [L1 _].
  destruct (floor_log2_spec q) as [_ U2]; [lra |].
  assert (L : 2 ^ floor_log2 p < 2 ^ (floor_log2 q + 1)) by lra.
  apply pow2_lt_inv in L. lia.
Qed.

Lemma binade_mono (p q : Q) : 0 < p -> p <= q -> (binade p <= binade q)%Z.
Proof.
  intros P H. unfold binade.
  pose proof (floor_log2_mono p q P H). lia.
Qed.

Lemma binade_min (q : Q) : (-1074 <= binade q)%Z.
Proof. unfold binade. lia. Qed.

(** The scaled value lies below the top of its binade. *)
Lemma scaled_below (q : Q) :
  0 < q -> q * 2 ^ (- binade q) <= inject_Z (2 ^ 53).
Proof.
  intros P. destruct (floor_log2_spec q P) as [_ U].
  rewrite pow2_Z by lia.
  apply Qle_trans with (2 ^ (binade q + 53) * 2 ^ (- binade q)).
  - apply Qmult_le_compat_r; [| apply Qlt_le_weak, pow2_pos].
    apply Qle_trans with (2 ^ (floor_log2 q + 1)); [lra |].
    apply pow2_le. unfold binade. lia.
  - rewrite <- pow2_add. apply pow2_le. lia.
Qed.

(** Above the subnormal binade it lies above the bottom. *)
Lemma scaled_above (q : Q) :
  0 < q -> (-1074 < binade q)%Z ->
  inject_Z (2 ^ 52) <= q * 2 ^ (- binade q).
Proof.
  intros P B. destruct (floor_log2_spec q P) as [L _].
  rewrite pow2_Z by lia.
  apply Qle_trans with (2 ^ (binade q + 52) * 2 ^ (- binade q)).
  - rewrite <- pow2_add. apply pow2_le. lia.
  - apply Qmult_le_compat_r; [| apply Qlt_le_weak, pow2_pos].
    apply Qle_trans with (2 ^ floor_log2 q); [| exact L].
    apply pow2_le. unfold binade in *. lia.
Qed.

Lemma nearest_mono (p q : Q) : 0 < p -> p <= q -> nearest p <= nearest q.
Proof.
  intros P H. unfold nearest.
  pose proof (binade_mono p q P H) as B.
  destruct (Z.eq_dec (binade p) (binade q)) as [E | N].
  - rewrite E. apply Qmult_le_compat_r; [| apply Qlt_le_weak, pow2_pos].
    rewrite <- Zle_Qle. apply round_half_even_mono.
    apply Qmult_le_compat_r; [exact H | apply Qlt_le_weak, pow2_pos].
  - assert (Q0 : 0 < q) by lra.
    pose proof (binade_min p) as Bp.
    assert (Bq : (-1074 < binade q)%Z) by lia.
    pose proof (scaled_below p P) as Sp.
    pose proof (scaled_above q Q0 Bq) as Sq.
    apply round_half_even_ceiling in Sp.
    apply round_half_even_floor in Sq.
    apply Qle_trans with (inject_Z (2 ^ 53) * 2 ^ binade p).
    { apply Qmult_le_compat_r; [| apply Qlt_le_weak, pow2_pos].
      rewrite <- Zle_Qle. exact Sp. }
    apply Qle_trans with (inject_Z (2 ^ 52) * 2 ^ binade q).
    2:{ apply Qmult_le_compat_r; [| apply Qlt_le_weak, pow2_pos].
        rewrite <- Zle_Qle. exact Sq. }
    rewrite !pow2_Z by lia. rewrite <- !pow2_add. apply pow2_le. lia.
Qed.

Lemma nearest_nonneg (q : Q) : 0 <= q -> 0 <= nearest q.
Proof.
  intros P. unfold nearest. apply Qmult_le_0_compat.
  - replace 0 with (inject_Z 0) by reflexivity. rewrite <- Zle_Qle.
    apply round_half_even_floor. simpl.
    apply Qmult_le_0_compat; [exact P | apply Qlt_le_weak, pow2_pos].
  - apply Qlt_le_weak, pow2_pos.
Qed.

(** A power of two of the grid is its own nearest value. *)
Lemma nearest_one : nearest 1 == 1.
Proof. apply Qeq_bool_eq. vm_compute. reflexivity. Qed.

Lemma nearest_unit (q : Q) : 0 < q -> q <= 1 -> 0 <= nearest q <= 1.
Proof.
  intros P H. split.
  - apply nearest_nonneg. lra.
  - rewrite <- nearest_one. apply nearest_mono; assumption.
Qed.

Lemma round_half_even_compat (m1 m2 : Q) :
  m1 == m2 -> round_half_even m1 = round_half_even m2.
Proof.
  intros E. apply Z.le_antisymm; apply round_half_even_mono; lra.
Qed.

Lemma floor_log2_compat (p q : Q) :
  0 < p -> p == q -> floor_log2 p = floor_log2 q.
Proof.
  intros P E. apply Z.le_antisymm; apply floor_log2_mono; lra.
Qed.

Lemma nearest_compat (p q : Q) : 0 < p -> p == q -> nearest p == nearest q.
Proof.
  intros P E. unfold nearest, binade.
  rewrite (floor_log2_compat p q P E).
  rewrite (round_half_even_compat
             (p * 2 ^ (- Z.max (floor_log2 q - 52) (-1074)))
             (q * 2 ^ (- Z.max (floor_log2 q - 52) (-1074)))).
  - reflexivity.
  - rewrite E. reflexivity.
Qed.

Lemma Qle_bool_compat (a p q : Q) : p == q -> Qle_bool a p = Qle_bool a q.
Proof.
  intros E. destruct (Qle_bool a q) eqn:B.
  - apply Qle_bool_iff. apply Qle_bool_iff in B. lra.
  - apply Qle_bool_false. apply Qle_bool_false in B. lra.
Qed.

Lemma round_pos_compat (p q : Q) :
  0 < p -> p == q -> round_pos p = round_pos q.
Proof.
  intros P E. unfold round_pos. cbv zeta.
  pose proof (nearest_compat p q P E) as N.
  rewrite (Qle_bool_compat _ _ _ N).
  destruct (Qle_bool (2 ^ 1024) (nearest q)); [reflexivity |].
  f_equal. apply Qred_complete. exact N.
Qed.

Lemma round_pos_inv (q r : Q) :
  round_pos q = Some r -> nearest q < 2 ^ 1024 /\ r == nearest q.
Proof.
  unfold round_pos. cbv zeta.
  destruct (Qle_bool (2 ^ 1024) (nearest q)) eqn:B; [discriminate |].
  intros H. apply Qle_bool_false in B. split; [exact B |].
  assert (E : r = Qred (nearest q)) by congruence.
  rewrite E. apply Qred_correct.
Qed.

Lemma round_pos_nonneg (q r : Q) : 0 <= q -> round_pos q = Some r -> 0 <= r.
Proof.
  intros P H. apply round_pos_inv in H. destruct H as [_ E].
  pose proof (nearest_nonneg q P). lra.
Qed.

(** Rounding keeps the order, an overflow counting as the largest value. *)
Lemma round_pos_mono (p q : Q) :
  0 < p -> p <= q ->
  match round_pos p, round_pos q with
  | Some a, Some b => a <= b
  | None, Some _ => False
  | _, None => True
  end.
Proof.
  intros P H. pose proof (nearest_mono p q P H) as N.
  unfold round_pos. cbv zeta.
  destruct (Qle_bool (2 ^ 1024) (nearest p)) eqn:Bp;
  destruct (Qle_bool (2 ^ 1024) (nearest q)) eqn:Bq; try exact I.
  - apply Qle_bool_iff in Bp. apply Qle_bool_false in Bq. lra.
  - pose proof (Qred_correct (nearest p)). pose proof (Qred_correct (nearest q)).
    lra.
Qed.

(** ** Rounding in [Py] *)

Lemma round_zero (q : Q) : q == 0 -> Py.round q = Py.Fin 0.
Proof.
  intros E. unfold Py.round.
  destruct (Qcompare_spec q 0) as [C | C | C]; [reflexivity | lra | lra].
Qed.

Lemma round_positive (q : Q) :
  0 < q ->
  Py.round q = match round_pos q with
               | Some r => Py.Fin r
               | None => Py.Inf false
               end.
Proof.
  intros P. unfold Py.round.
  destruct (Qcompare_spec q 0) as [C | C | C]; [lra | lra | reflexivity].
Qed.

Lemma round_negative (q : Q) :
  q < 0 ->
  Py.round q = match round_pos (- q) with
               | Some r => Py.Fin (- r)
               | None => Py.Inf true
               end.
Proof.
  intros P. unfold Py.round.
  destruct (Qcompare_spec q 0) as [C | C | C]; [lra | reflexivity | lra].
Qed.

Lemma round_compat (p q : Q) : p == q -> Py.round p = Py.round q.
Proof.
  intros E. destruct (Qcompare_spec p 0) as [C | C | C].
  - rewrite !round_zero by lra. reflexivity.
  - rewrite !round_negative by lra.
    rewrite (round_pos_compat (- p) (- q)) by lra. reflexivity.
  - rewrite !round_positive by lra.
    rewrite (round_pos_compat p q) by lra. reflexivity.
Qed.

Lemma round_mono (p q : Q) :
  p <= q -> Py.float_le (Py.round p) (Py.round q) = true.
Proof.
  intros H.
  destruct (Qcompare_spec p 0) as [Cp | Cp | Cp];
  destruct (Qcompare_spec q 0) as [Cq | Cq | Cq]; try (exfalso; lra).
  - rewrite !round_zero by assumption. reflexivity.
  - rewrite (round_zero p Cp), (round_positive q Cq).
    destruct (round_pos q) as [r |] eqn:R; [| reflexivity].
    apply Qle_bool_iff. apply (round_pos_nonneg q); [lra | exact R].
  - rewrite (round_negative p Cp), (round_zero q Cq).
    destruct (round_pos (- p)) as [r |] eqn:R; [| reflexivity].
    apply Qle_bool_iff. pose proof (round_pos_nonneg (- p) r) as N.
    assert (0 <= r) by (apply N; [lra | exact R]). lra.
  - rewrite (round_negative p Cp), (round_negative q Cq).
    assert (Hq : 0 < - q) by lra. assert (Hpq : - q <= - p) by lra.
    pose proof (round_pos_mono (- q) (- p) Hq Hpq) as M.
    destruct (round_pos (- q)) as [b |], (round_pos (- p)) as [a |];
      simpl; try reflexivity; try contradiction.
    apply Qle_bool_iff. lra.
  - rewrite (round_negative p Cp), (round_positive q Cq).
    destruct (round_pos (- p)) as [a |] eqn:Ra,
             (round_pos q) as [b |] eqn:Rb; simpl; try reflexivity.
    apply Qle_bool_iff.
    pose proof (round_pos_nonneg (- p) a) as Na.
    pose proof (round_pos_nonneg q b) as Nb.
    assert (0 <= a) by (apply Na; [lra | exact Ra]).
    assert (0 <= b) by (apply Nb; [lra | exact Rb]). lra.
  - rewrite (round_positive p Cp), (round_positive q Cq).
    pose proof (round_pos_mono p q Cp H) as M.
    destruct (round_pos p) as [a |], (round_pos q) as [b |];
      simpl; try reflexivity; try contradiction.
    apply Qle_bool_iff. exact M.
Qed.

Lemma round_one : Py.round 1 = Py.Fin 1.
Proof. vm_compute. reflexivity. Qed.

(** A quotient of the unit interval rounds to a float of the unit
    interval. *)
Lemma round_unit (q : Q) :
  0 <= q <= 1 -> exists r, Py.round q = Py.Fin r /\ 0 <= r <= 1.
Proof.
  intros [L U].
  pose proof (round_mono 0 q L) as M0.
  pose proof (round_mono q 1 U) as M1.
  rewrite (round_zero 0) in M0 by reflexivity. rewrite round_one in M1.
  destruct (Py.round q) as [r | s |]; simpl in M0, M1.
  - exists r. split; [reflexivity |].
    apply Qle_bool_iff in M0. apply Qle_bool_iff in M1. split; assumption.
  - destruct s; discriminate.
  - discriminate.
Qed.

(** ** [Py]: the spacing of the floats *)

Lemma inject_Z_sub (x y : Z) : inject_Z (x - y) == inject_Z x - inject_Z y.
Proof.
  unfold Z.sub, Qminus. rewrite inject_Z_plus, inject_Z_opp. reflexivity.
Qed.

Lemma inject_Z_pos (z : Z) : (0 < z)%Z -> 0 < inject_Z z.
Proof.
  intros H. replace 0 with (inject_Z 0) by reflexivity.
  rewrite <- Zlt_Qlt. exact H.
Qed.


Lemma nearest_grid (q : Q) :
  exists k : Z, nearest q == inject_Z k * 2 ^ (-1074).
Proof.
  unfold nearest. set (n := round_half_even _).
  pose proof (binade_min q) as B.
  exists (n * 2 ^ (binade q + 1074))%Z.
  rewrite inject_Z_mult, pow2_Z by lia.
  rewrite <- Qmult_assoc, <- pow2_add.
  replace (binade q + 1074 + -1074)%Z with (binade q) by lia. reflexivity.
Qed.

(** Every binary64 number is a multiple of the subnormal spacing. *)
Lemma binary64_grid (q : Q) :
  Py.is_binary64 q = true -> exists k : Z, q == inject_Z k * 2 ^ (-1074).
Proof.
  unfold Py.is_binary64.
  destruct (Qcompare_spec q 0) as [C | C | C].
  - intros _. exists 0%Z. rewrite C. reflexivity.
  - rewrite (round_negative q C).
    destruct (round_pos (- q)) as [r |] eqn:R; [| discriminate].
    intros E. apply Qeq_bool_iff in E.
    apply round_pos_inv in R. destruct R as [_ R].
    destruct (nearest_grid (- q)) as [k Hk].
    exists (- k)%Z. rewrite inject_Z_opp. rewrite <- E, R, Hk. ring.
  - rewrite (round_positive q C).
    destruct (round_pos q) as [r |] eqn:R; [| discriminate].
    intros E. apply Qeq_bool_iff in E.
    apply round_pos_inv in R. destruct R as [_ R].
    destruct (nearest_grid q) as [k Hk].
    exists k. rewrite <- E, R, Hk. reflexivity.
Qed.

(** Two different binary64 numbers are at least the subnormal spacing
    apart. *)
Lemma binary64_gap (a b : Q) :
  Py.is_binary64 a = true -> Py.is_binary64 b = true -> a < b ->
  2 ^ (-1074) <= b - a.
Proof.
  intros Ha Hb L.
  destruct (binary64_grid a Ha) as [ka Ea].
  destruct (binary64_grid b Hb) as [kb Eb].
  pose proof (pow2_pos (-1074)) as P.
  assert (K : (ka < kb)%Z).
  { apply Z.lt_nge. intros N. rewrite Zle_Qle in N.
    assert (inject_Z kb * 2 ^ (-1074) <= inject_Z ka * 2 ^ (-1074)).
    { apply Qmult_le_compat_r; [exact N | lra]. }
    lra. }
  assert (K1 : inject_Z 1 <= inject_Z (kb - ka)) by (rewrite <- Zle_Qle; lia).
  rewrite inject_Z_sub in K1.
  assert (1 * 2 ^ (-1074) <= (inject_Z kb - inject_Z ka) * 2 ^ (-1074)).
  { apply Qmult_le_compat_r; [exact K1 | lra]. }
  rewrite Ea, Eb. lra.
Qed.

Lemma round_spacing :
  exists r, Py.round (2 ^ (-1074)) = Py.Fin r /\ 0 < r.
Proof. eexists. split; [vm_compute; reflexivity | reflexivity]. Qed.

(** A value of at least the subnormal spacing does not round to zero. *)
Lemma round_gap (q : Q) :
  2 ^ (-1074) <= q -> Py.float_is_zero (Py.round q) = false.
Proof.
  intros H. pose proof (round_mono _ _ H) as M.
  destruct round_spacing as (r & E & P). rewrite E in M.
  destruct (Py.round q) as [v | s |]; simpl in *; try reflexivity.
  apply Qle_bool_iff in M. apply Qeq_bool_false. lra.
Qed.

(** ** Agreement with the floats of the kernel

    On each pair of [kernel_pairs], the operation of [Py] on the two floats
    read back from the kernel gives what the kernel's own binary64
    operation gives; and an integer is rounded as the kernel converts
    it. *)

Example float_add_agrees :
  map (fun p => Py.of_kernel (PrimFloat.add (fst p) (snd p))) Py.kernel_pairs
  = map (fun p => Py.float_add (Py.of_kernel (fst p)) (Py.of_kernel (snd p)))
        Py.kernel_pairs.
Proof. vm_compute. reflexivity. Qed.

Example float_sub_agrees :
  map (fun p => Py.of_kernel (PrimFloat.sub (fst p) (snd p))) Py.kernel_pairs
  = map (fun p => Py.float_sub (Py.of_kernel (fst p)) (Py.of_kernel (snd p)))
        Py.kernel_pairs.
Proof. vm_compute. reflexivity. Qed.

Example float_mul_agrees :
  map (fun p => Py.of_kernel (PrimFloat.mul (fst p) (snd p))) Py.kernel_pairs
  = map (fun p => Py.float_mul (Py.of_kernel (fst p)) (Py.of_kernel (snd p)))
        Py.kernel_pairs.
Proof. vm_compute. reflexivity. Qed.

Example float_quot_agrees :
  map (fun p => Py.of_kernel (PrimFloat.div (fst p) (snd p))) Py.kernel_pairs
  = map (fun p => Py.float_quot (Py.of_kernel (fst p)) (Py.of_kernel (snd p)))
        Py.kernel_pairs.
Proof. vm_compute. reflexivity. Qed.

Example round_agrees :
  map (fun z => Py.of_kernel (Py.kernel z 0)) Py.kernel_integers
  = map (fun z => Py.round (inject_Z z)) Py.kernel_integers.
Proof. vm_compute. reflexivity. Qed.

(** ** Python's arithmetic on examples *)

(** [10**400 / 10**399] is 10.0 and [1 / 10**400] is 0.0, although neither
    operand converts to a float; [10**400 / 1] and [10**400 / 0.0] raise
    OverflowError; [inf / 0.0] raises ZeroDivisionError. *)
Example int_true_division :
  Py.num_div (Py.Int (10 ^ 400)) (Py.Int (10 ^ 399))
    = ([], Ok (Py.Float (Py.Fin 10))) /\
  Py.num_div (Py.Int 1) (Py.Int (10 ^ 400))
    = ([], Ok (Py.Float (Py.Fin 0))) /\
  Py.num_div (Py.Int (10 ^ 400)) (Py.Int 1) = ([], Raise OverflowError) /\
  Py.num_div (Py.Int (10 ^ 400)) (Py.Float (Py.Fin 0))
    = ([], Raise OverflowError) /\
  Py.num_div (Py.Float (Py.Inf false)) (Py.Float (Py.Fin 0))
    = ([], Raise ZeroDivisionError).
Proof. repeat split; vm_compute; reflexivity. Qed.

(** [float(2**53 + 1)] is [2**53]; the largest integer that converts is
    [2**1024 - 2**970 - 1]; and the comparison [2**53 + 1 <= 2.0**53] is
    made on the exact values. *)
Example int_to_float :
  Py.to_float (Py.Int 9007199254740993) = ([], Ok (Py.Fin 9007199254740992)) /\
  Py.to_float (Py.Int (2 ^ 1024 - 2 ^ 970 - 1))
    = ([], Ok (Py.Fin (inject_Z (2 ^ 1024 - 2 ^ 971)))) /\
  Py.to_float (Py.Int (2 ^ 1024 - 2 ^ 970)) = ([], Raise OverflowError) /\
  Py.num_le (Py.Int 9007199254740993) (Py.Float (Py.Fin 9007199254740992))
    = false.
Proof. repeat split; vm_compute; reflexivity. Qed.

(** The centroid of the floats [-1e16, 3.0, 1e16] when [sum] rounds at each
    addition: the sum is 4.0, not 3.0, and the centroid 4.0 / 3. *)
Example float_sum_cancels :
  Py.centroid_of
    [Py.Float (Py.Fin (-10000000000000000)); Py.Float (Py.Fin 3);
     Py.Float (Py.Fin 10000000000000000)]
  = ([], Ok (Py.Float (Py.Fin (6004799503160661 # 4503599627370496)))).
Proof. vm_compute. reflexivity. Qed.

(** ** [Py]: arithmetic on integers *)

(** The quotient of two integers [0 <= n <= d], [d] not zero, is a float
    of the unit interval: the exact quotient rounded once. *)
Lemma int_div_unit (n d : Z) :
  (0 <= n <= d)%Z -> d <> 0%Z ->
  exists r,
    Py.num_div (Py.Int n) (Py.Int d) = ret (Py.Float (Py.Fin r)) /\
    Py.round (inject_Z n / inject_Z d) = Py.Fin r /\ 0 <= r <= 1.
Proof.
  intros [Hn Hd] Nz. unfold Py.num_div.
  replace (d =? 0)%Z with false by (symmetry; apply Z.eqb_neq; exact Nz).
  assert (Pd : 0 < inject_Z d) by (apply inject_Z_pos; lia).
  assert (U : 0 <= inject_Z n / inject_Z d <= 1).
  { split.
    - apply Qle_shift_div_l; [exact Pd |]. rewrite Qmult_0_l.
      replace 0 with (inject_Z 0) by reflexivity. rewrite <- Zle_Qle. exact Hn.
    - apply Qle_shift_div_r; [exact Pd |]. rewrite Qmult_1_l.
      rewrite <- Zle_Qle. exact Hd. }
  destruct (round_unit _ U) as (r & Hr & Ur).
  exists r. rewrite Hr. auto.
Qed.

Lemma slope_int (p q r s : Z) :
  Py.slope (Py.Int p) (Py.Int q) (Py.Int r) (Py.Int s)
  = (v <- Py.num_div (Py.Int (p - q)) (Py.Int (r - s)) ;; ret (Py.VNum v)).
Proof. unfold Py.slope, Py.num_sub. rewrite !bind_ret. reflexivity. Qed.

Lemma between_int (a x b : Z) :
  Py.between (Py.Int a) (Py.Int x) (Py.Int b) = true <-> (a <= x <= b)%Z.
Proof.
  unfold Py.between, Py.num_le. simpl.
  rewrite andb_true_iff, !Qle_bool_iff, <- !Zle_Qle. tauto.
Qed.

Lemma between_int_false (a x b : Z) :
  Py.between (Py.Int a) (Py.Int x) (Py.Int b) = false <-> (x < a \/ b < x)%Z.
Proof.
  unfold Py.between, Py.num_le. simpl.
  rewrite andb_false_iff, !Qle_bool_false, <- !Zlt_Qlt. tauto.
Qed.

(** A rising or falling edge on integers: the value returned, that it is
    the exact quotient rounded, and its range. *)
Lemma int_edge (p q r s : Z) :
  (0 <= p - q <= r - s)%Z -> (r - s <> 0)%Z ->
  exists v,
    Py.slope (Py.Int p) (Py.Int q) (Py.Int r) (Py.Int s)
      = ([], Ok (Py.VNum (Py.Float (Py.Fin v)))) /\
    Py.round ((inject_Z p - inject_Z q) / (inject_Z r - inject_Z s))
      = Py.Fin v /\
    0 <= v <= 1.
Proof.
  intros H N. destruct (int_div_unit _ _ H N) as (v & Hd & Hr & U).
  exists v. rewrite slope_int, Hd, bind_ret. split; [reflexivity |].
  split; [| exact U]. rewrite <- Hr. apply round_compat.
  rewrite !inject_Z_sub. reflexivity.
Qed.

(** ** [Py]: arithmetic on floats *)

(** The quotient of two rounded values [0 <= n <= d] is not-a-number (when
    both have overflowed) or lies in the unit interval. *)
Lemma float_quot_unit (n d : Q) :
  0 <= n <= d ->
  Py.float_is_zero (Py.round d) = false ->
  Py.unit_or_nan (Py.Float (Py.float_quot (Py.round n) (Py.round d))).
Proof.
  intros [Hn Hd] Z.
  pose proof (round_mono 0 n Hn) as M0.
  pose proof (round_mono n d Hd) as M1.
  rewrite (round_zero 0) in M0 by reflexivity.
  unfold Py.unit_or_nan.
  destruct (Py.round n) as [n' | [] |], (Py.round d) as [d' | [] |];
    simpl in *; try discriminate; try exact I; try lra.
  apply Qle_bool_iff in M0, M1. apply Qeq_bool_false in Z.
  assert (U : 0 <= n' / d' <= 1).
  { assert (0 < d') by (apply Qnot_le_lt; intros L; apply Z; lra).
    split; [apply Qle_shift_div_l | apply Qle_shift_div_r]; lra. }
  destruct (round_unit _ U) as (r & -> & Ur). exact Ur.
Qed.

Lemma slope_float (p q r s : Py.float) :
  Py.slope (Py.Float p) (Py.Float q) (Py.Float r) (Py.Float s)
  = (v <- Py.float_div (Py.float_sub p q) (Py.float_sub r s) ;;
     ret (Py.VNum (Py.Float v))).
Proof.
  unfold Py.slope, Py.num_sub, Py.num_div, Py.to_float.
  rewrite !bind_ret.
  destruct (Py.float_div (Py.float_sub p q) (Py.float_sub r s))
    as [o [v | e]]; unfold bind, ret; simpl; rewrite ?app_nil_r; reflexivity.
Qed.

Lemma float_div_inv (x y : Py.float) out r :
  Py.float_div x y = (out, Ok r) ->
  Py.float_is_zero y = false /\ out = [] /\ r = Py.float_quot x y.
Proof.
  unfold Py.float_div. destruct (Py.float_is_zero y); [discriminate |].
  intros H. inversion H. auto.
Qed.

Lemma between_float (a x b : Py.float) :
  Py.between (Py.Float a) (Py.Float x) (Py.Float b)
  = Py.float_le a x && Py.float_le x b.
Proof. reflexivity. Qed.

(** A rising edge on floats, infinities included. *)
Lemma float_rising_range (a x b : Py.float) out r :
  Py.float_le a x && Py.float_le x b = true ->
  Py.float_div (Py.float_sub x a) (Py.float_sub b a) = (out, Ok r) ->
  Py.unit_or_nan (Py.Float r).
Proof.
  intros B D. apply float_div_inv in D. destruct D as (Z & _ & ->).
  apply andb_true_iff in B. destruct B as [B1 B2].
  destruct a as [a | [] |], x as [x | [] |], b as [b | [] |];
    simpl in *; try discriminate; try exact I.
  - apply Qle_bool_iff in B1, B2.
    apply float_quot_unit; [lra | exact Z].
  - unfold Py.unit_or_nan.
    destruct (Py.round (x - a)) as [n | [] |]; simpl; try exact I; lra.
Qed.

(** A falling edge on floats. *)
Lemma float_falling_range (c x d : Py.float) out r :
  Py.float_le c x && Py.float_le x d = true ->
  Py.float_div (Py.float_sub d x) (Py.float_sub d c) = (out, Ok r) ->
  Py.unit_or_nan (Py.Float r).
Proof.
  intros B D. apply float_div_inv in D. destruct D as (Z & _ & ->).
  apply andb_true_iff in B. destruct B as [B1 B2].
  destruct c as [c | [] |], x as [x | [] |], d as [d | [] |];
    simpl in *; try discriminate; try exact I.
  - apply Qle_bool_iff in B1, B2.
    apply float_quot_unit; [lra | exact Z].
  - unfold Py.unit_or_nan.
    destruct (Py.round (d - x)) as [n | [] |]; simpl; try exact I; lra.
Qed.

(** ** [Py]: membership functions *)

Lemma between_int_Q (a x b : Z) :
  Py.between (Py.Int a) (Py.Int x) (Py.Int b) = true
  <-> inject_Z a <= inject_Z x <= inject_Z b.
Proof.
  unfold Py.between, Py.num_le. simpl.
  rewrite andb_true_iff, !Qle_bool_iff. tauto.
Qed.

Lemma between_int_Q_false (a x b : Z) :
  Py.between (Py.Int a) (Py.Int x) (Py.Int b) = false
  <-> inject_Z x < inject_Z a \/ inject_Z b < inject_Z x.
Proof.
  unfold Py.between, Py.num_le. simpl.
  rewrite andb_false_iff, !Qle_bool_false. tauto.
Qed.

(** An edge on integers, from inequalities between their rational
    values. *)
Lemma int_edge_Q (p q r s : Z) :
  inject_Z q <= inject_Z p ->
  inject_Z p - inject_Z q <= inject_Z r - inject_Z s ->
  inject_Z s < inject_Z r ->
  exists v,
    Py.slope (Py.Int p) (Py.Int q) (Py.Int r) (Py.Int s)
      = ([], Ok (Py.VNum (Py.Float (Py.Fin v)))) /\
    Py.round ((inject_Z p - inject_Z q) / (inject_Z r - inject_Z s))
      = Py.Fin v /\
    0 <= v <= 1.
Proof.
  intros H1 H2 H3. rewrite <- !inject_Z_sub in H2.
  rewrite <- Zle_Qle in H1, H2. rewrite <- Zlt_Qlt in H3.
  apply int_edge; lia.
Qed.


(** An edge on floats whose divisor is at least the subnormal spacing. *)
Lemma float_edge (p q r s : Q) :
  0 <= p - q <= r - s ->
  2 ^ (-1074) <= r - s ->
  Py.slope (Py.Float (Py.Fin p)) (Py.Float (Py.Fin q))
           (Py.Float (Py.Fin r)) (Py.Float (Py.Fin s))
    = ([], Ok (Py.VNum (Py.Float (Py.float_slope p q r s)))) /\
  Py.unit_or_nan (Py.Float (Py.float_slope p q r s)).
Proof.
  intros H G. pose proof (round_gap _ G) as Z.
  split.
  - rewrite slope_float. unfold Py.float_div. cbn [Py.float_sub].
    rewrite Z. rewrite bind_ret. reflexivity.
  - apply float_quot_unit; assumption.
Qed.



(** The same conversion makes a division fail between two different
    parameters: with a = 2^53+3 an integer and b = 2^53+4 a float, b - a
    is the float zero. *)
Example fuzzify_mixed_divides_by_zero :
  Py.num_lt (Py.Int 9007199254740995) (Py.Float (Py.Fin 9007199254740996))
    = true /\
  Py.fuzzify
    (Py.fuzzy_set "far" "TRI"
       [Py.Int 9007199254740995; Py.Float (Py.Fin 9007199254740996);
        Py.Float (Py.Fin 9007199254741002)])
    (Py.Int 9007199254740995)
  = ([], Raise ZeroDivisionError).
Proof. split; vm_compute; reflexivity. Qed.

(** On integers alone the degree is the reference degree rounded: at 5 the
    set "beginner" of the demonstration model has the reference degree
    1/3, and [fuzzify] returns the float nearest to it. *)
Example fuzzify_int_rounds_a_third :
  reference_degree (TRIANGULAR 0 15 30) 5 (1 # 3) /\
  Py.fuzzify (Py.fuzzy_set "beginner" "TRI" [Py.Int 0; Py.Int 15; Py.Int 30])
             (Py.Int 5)
    = ([], Ok (Py.VNum (Py.Float
                          (Py.Fin (6004799503160661 # 18014398509481984))))) /\
  Py.round (1 # 3) = Py.Fin (6004799503160661 # 18014398509481984) /\
  ~ (6004799503160661 # 18014398509481984) == 1 # 3.
Proof.
  split.
  { split; [intros _; vm_compute; reflexivity |]. split.
    - intros [H _]. exfalso. vm_compute in H. apply H. reflexivity.
    - intros [H | H]; vm_compute in H; discriminate H. }
  split; [vm_compute; reflexivity |].
  split; [vm_compute; reflexivity |].
  intros H. vm_compute in H. discriminate H.
Qed.



(** ** [Py]: the range of [fuzzify] on numbers of one kind *)

Lemma int_slope_range (p q r s : Z) out v :
  (0 <= p - q <= r - s)%Z ->
  Py.slope (Py.Int p) (Py.Int q) (Py.Int r) (Py.Int s) = (out, Ok v) ->
  out = [] /\ exists f, v = Py.VNum (Py.Float (Py.Fin f)) /\ 0 <= f <= 1.
Proof.
  intros H. rewrite slope_int.
  destruct (Z.eq_dec (r - s) 0) as [E | N].
  - rewrite E. discriminate.
  - destruct (int_div_unit _ _ H N) as (f & -> & _ & U).
    rewrite bind_ret. intros D. inversion D. eauto.
Qed.

Lemma float_slope_inv (p q r s : Py.float) out v :
  Py.slope (Py.Float p) (Py.Float q) (Py.Float r) (Py.Float s) = (out, Ok v) ->
  out = [] /\
  exists f,
    v = Py.VNum (Py.Float f) /\
    Py.float_div (Py.float_sub p q) (Py.float_sub r s) = ([], Ok f).
Proof.
  rewrite slope_float. unfold Py.float_div.
  destruct (Py.float_is_zero (Py.float_sub r s)); [discriminate |].
  rewrite bind_ret. intros H. inversion H. eauto.
Qed.

Lemma rising_range (a x b : Py.num) out v :
  Py.one_kind3 a x b = true ->
  Py.between a x b = true ->
  Py.slope x a b a = (out, Ok v) ->
  out = [] /\ exists r, v = Py.VNum r /\ Py.unit_or_nan r.
Proof.
  intros K B S. destruct a as [a | a], x as [x | x], b as [b | b];
    try discriminate K.
  - apply between_int in B.
    destruct (int_slope_range x a b a out v) as (-> & f & -> & U);
      [lia | exact S |].
    split; [reflexivity |]. eexists. split; [reflexivity | exact U].
  - apply float_slope_inv in S. destruct S as (-> & f & -> & D).
    split; [reflexivity |]. eexists. split; [reflexivity |].
    eapply float_rising_range; [| exact D]. exact B.
Qed.

Lemma falling_range (c x d : Py.num) out v :
  Py.one_kind3 c x d = true ->
  Py.between c x d = true ->
  Py.slope d x d c = (out, Ok v) ->
  out = [] /\ exists r, v = Py.VNum r /\ Py.unit_or_nan r.
Proof.
  intros K B S. destruct c as [c | c], x as [x | x], d as [d | d];
    try discriminate K.
  - apply between_int in B.
    destruct (int_slope_range d x d c out v) as (-> & f & -> & U);
      [lia | exact S |].
    split; [reflexivity |]. eexists. split; [reflexivity | exact U].
  - apply float_slope_inv in S. destruct S as (-> & f & -> & D).
    split; [reflexivity |]. eexists. split; [reflexivity |].
    eapply float_falling_range; [| exact D]. exact B.
Qed.

Lemma unit_zero : Py.unit_or_nan (Py.Int 0).
Proof. split; discriminate. Qed.

Lemma unit_one : Py.unit_or_nan (Py.Int 1).
Proof. split; discriminate. Qed.

(** When the parameters and the crisp value are all integers, or all
    floats, a number returned by [fuzzify] is not-a-number or lies in
    [0, 1]. *)
Lemma py_fuzzify_range (fs : Py.FuzzySet) (x : Py.num) out r :
  forallb Py.is_int (x :: Py.fs_values fs)
  || forallb Py.is_float (x :: Py.fs_values fs) = true ->
  Py.fuzzify fs x = (out, Ok (Py.VNum r)) ->
  Py.unit_or_nan r.
Proof.
  unfold Py.fuzzify. intros K.
  destruct (String.eqb (Py.fs_type fs) "TRI").
  - destruct (Py.fs_values fs) as [| a [| b [| c [| ? ?]]]]; try discriminate.
    assert (K1 : Py.one_kind3 a x b = true /\ Py.one_kind3 b x c = true).
    { unfold Py.one_kind3. cbn [forallb] in K.
      destruct x, a, b, c; simpl in *; (discriminate K || auto). }
    destruct K1 as [Ka Kb].
    destruct (Py.between a x b) eqn:B1.
    { intros H.
      destruct (rising_range a x b out _ Ka B1 H) as (_ & r' & Hr & U).
      inversion Hr; subst. exact U. }
    destruct (Py.between b x c) eqn:B2.
    { intros H.
      destruct (falling_range b x c out _ Kb B2 H) as (_ & r' & Hr & U).
      inversion Hr; subst. exact U. }
    intros H. inversion H. exact unit_zero.
  - destruct (String.eqb (Py.fs_type fs) "TRAP"); [| discriminate].
    destruct (Py.fs_values fs) as [| a [| b [| c [| d [| ? ?]]]]];
      try discriminate.
    assert (K1 : Py.one_kind3 a x b = true /\ Py.one_kind3 c x d = true).
    { unfold Py.one_kind3. cbn [forallb] in K.
      destruct x, a, b, c, d; simpl in *; (discriminate K || auto). }
    destruct K1 as [Ka Kc].
    destruct (Py.between a x b) eqn:B1.
    { intros H.
      destruct (rising_range a x b out _ Ka B1 H) as (_ & r' & Hr & U).
      inversion Hr; subst. exact U. }
    destruct (Py.between b x c) eqn:B2.
    { intros H. inversion H. exact unit_one. }
    destruct (Py.between c x d) eqn:B3.
    { intros H.
      destruct (falling_range c x d out _ Kc B3 H) as (_ & r' & Hr & U).
      inversion Hr; subst. exact U. }
    intros H. inversion H. exact unit_zero.
Qed.

(** ** [Py]: the degrees of a run *)

(** What every value returned by [fuzzify] satisfies is satisfied by every
    degree stored by the fuzzification loop. *)
Lemma py_fuzzify_sets_inv (P : Py.value -> Prop) items x acc out d :
  (forall name fs o v,
      In (name, fs) items -> Py.fuzzify fs x = (o, Ok v) -> P v) ->
  Forall (fun p => P (snd p)) acc ->
  Py.fuzzify_sets items x acc = (out, Ok d) ->
  Forall (fun p => P (snd p)) d.
Proof.
  revert acc out. induction items as [| [name fs] rest IH];
    intros acc out HP A H.
  - inversion H; subst. exact A.
  - cbn [Py.fuzzify_sets] in H. apply bind_inv_Ok in H.
    destruct H as (o1 & v & o2 & Hf & Hrest & _).
    apply (IH (dict_set name v acc) o2); [| | exact Hrest].
    + intros n f o w I. apply (HP n f o w). right. exact I.
    + apply dict_set_Forall; [exact A |]. intros k'. simpl.
      apply (HP name fs o1 v); [left; reflexivity | exact Hf].
Qed.

Lemma py_fuzzify_inputs_inv (P : Py.value -> Prop) self items fz0 out fz :
  (forall name x variable set_name fs o v,
      In (name, x) items ->
      dict_get name (Py.variables self) = Some variable ->
      In (set_name, fs) (Py.fuzzy_sets variable) ->
      Py.fuzzify fs x = (o, Ok v) -> P v) ->
  Forall (fun e => Forall (fun p => P (snd p)) (snd e)) fz0 ->
  Py.fuzzify_inputs self items fz0 = (out, Ok (Some fz)) ->
  Forall (fun e => Forall (fun p => P (snd p)) (snd e)) fz.
Proof.
  revert fz0 out. induction items as [| [name x] rest IH];
    intros fz0 out HP A H.
  - inversion H; subst. exact A.
  - cbn [Py.fuzzify_inputs] in H.
    destruct (dict_get name (Py.variables self)) as [variable |] eqn:G.
    + apply bind_inv_Ok in H.
      destruct H as (o1 & degrees & o2 & Hs & Hrest & _).
      apply (IH (dict_set name degrees fz0) o2); [| | exact Hrest].
      * intros n y w s f o v I. apply (HP n y w s f o v). right. exact I.
      * apply dict_set_Forall; [exact A |]. intros k'. simpl.
        eapply py_fuzzify_sets_inv; [| constructor | exact Hs].
        intros s f o v I. apply (HP name x variable s f o v);
          [left; reflexivity | exact G | exact I].
    + discriminate H.
Qed.

(** The parameters of a fuzzy set of the model are numbers of the
    model. *)
Lemma model_numbers_In self name variable set_name fs v :
  dict_get name (Py.variables self) = Some variable ->
  In (set_name, fs) (Py.fuzzy_sets variable) ->
  In v (Py.fs_values fs) ->
  In v (Py.model_numbers self).
Proof.
  intros G I V. unfold Py.model_numbers.
  apply in_flat_map. exists (name, variable).
  split; [apply dict_get_In; exact G |].
  apply in_flat_map. exists (set_name, fs). split; assumption.
Qed.

(** In a run on numbers of one kind every degree is [None], not-a-number
    or in the unit interval. *)
Lemma py_fuzzify_inputs_ok self crisp_values out fz :
  Py.one_kind self crisp_values = true ->
  Py.fuzzify_inputs self crisp_values [] = (out, Ok (Some fz)) ->
  Py.fuzzified_ok fz.
Proof.
  intros K H.
  apply (py_fuzzify_inputs_inv Py.degree_ok self crisp_values [] out fz);
    [| constructor | exact H].
  intros name x variable set_name fs o v Ix G Is F.
  destruct v as [| r]; [exact I |]. simpl.
  apply (py_fuzzify_range fs x o r); [| exact F].
  unfold Py.one_kind in K. cbv zeta in K.
  assert (M : forall P,
             forallb P (map snd crisp_values ++ Py.model_numbers self) = true
             -> forallb P (x :: Py.fs_values fs) = true).
  { intros P A. rewrite forallb_forall in A. apply forallb_forall.
    intros y [<- | Iy]; apply A; apply in_or_app.
    - left. apply in_map_iff. exists (name, x). auto.
    - right. eapply model_numbers_In; eauto. }
  apply orb_true_iff in K. apply orb_true_iff.
  destruct K as [K | K]; [left | right]; apply M; exact K.
Qed.

Lemma py_degree_read_ok fz var_name degrees set_name :
  Py.fuzzified_ok fz ->
  dict_get var_name fz = Some degrees ->
  Py.degree_ok (dict_get_default set_name degrees (Py.VNum (Py.Int 0))).
Proof.
  intros A G. destruct (dict_get_Forall _ _ _ _ A G) as [k' Hd]. simpl in Hd.
  unfold dict_get_default.
  destruct (dict_get set_name degrees) as [v |] eqn:S.
  - destruct (dict_get_Forall _ _ _ _ Hd S) as [k'' Hv]. exact Hv.
  - exact unit_zero.
Qed.

Lemma in_unit_or_nan (d : Py.num) : Py.in_unit d -> Py.unit_or_nan d.
Proof.
  unfold Py.in_unit, Py.unit_or_nan. destruct (Py.exact d); tauto.
Qed.

Lemma py_min_in_unit (acc d : Py.num) :
  Py.in_unit acc -> Py.unit_or_nan d ->
  exists r, Py.py_min (Py.VNum acc) (Py.VNum d) = ([], Ok (Py.VNum r))
            /\ Py.in_unit r.
Proof.
  intros Ha Hd. unfold Py.py_min, Py.value_lt. rewrite bind_ret.
  destruct (Py.num_lt d acc) eqn:L.
  - exists d. split; [reflexivity |].
    unfold Py.num_lt in L. unfold Py.in_unit, Py.unit_or_nan in *.
    destruct (Py.exact d); [exact Hd | contradiction | discriminate L].
  - exists acc. split; [reflexivity | exact Ha].
Qed.

Lemma py_max_in_unit (acc d : Py.num) :
  Py.in_unit acc -> Py.unit_or_nan d ->
  exists r, Py.py_max (Py.VNum acc) (Py.VNum d) = ([], Ok (Py.VNum r))
            /\ Py.in_unit r.
Proof.
  intros Ha Hd. unfold Py.py_max, Py.value_lt. rewrite bind_ret.
  destruct (Py.num_lt acc d) eqn:L.
  - exists d. split; [reflexivity |].
    unfold Py.num_lt in L. unfold Py.in_unit, Py.unit_or_nan in *.
    destruct (Py.exact d); [exact Hd | contradiction |].
    destruct (Py.exact acc); discriminate L.
  - exists acc. split; [reflexivity | exact Ha].
Qed.

Lemma to_float_one : Py.to_float (Py.Int 1) = ret (Py.Fin 1).
Proof. vm_compute. reflexivity. Qed.

Lemma to_float_zero : Py.to_float (Py.Int 0) = ret (Py.Fin 0).
Proof. vm_compute. reflexivity. Qed.

(** [1 - d] stays in the unit interval. *)
Lemma py_one_minus_unit (d : Py.num) :
  Py.unit_or_nan d ->
  exists r, Py.one_minus (Py.VNum d) = ([], Ok (Py.VNum r))
            /\ Py.unit_or_nan r.
Proof.
  intros U. unfold Py.one_minus, Py.num_sub.
  destruct d as [z | [q | s |]].
  - rewrite bind_ret. eexists. split; [reflexivity |].
    unfold Py.unit_or_nan in *. simpl in *. destruct U as [U0 U1].
    change (inject_Z 0 <= inject_Z z) in U0.
    change (inject_Z z <= inject_Z 1) in U1.
    rewrite <- Zle_Qle in U0, U1.
    change (inject_Z 0 <= inject_Z (1 - z) <= inject_Z 1).
    rewrite <- !Zle_Qle. lia.
  - rewrite to_float_one. rewrite !bind_ret. cbn [Py.to_float].
    rewrite !bind_ret. cbn [Py.float_sub].
    unfold Py.unit_or_nan in U. simpl in U.
    destruct (round_unit (1 - q)) as (r & Hr & Ur); [lra |].
    rewrite Hr. eexists. split; [reflexivity | exact Ur].
  - contradiction.
  - rewrite to_float_one. rewrite !bind_ret. cbn [Py.to_float].
    rewrite !bind_ret. eexists. split; [reflexivity | exact I].
Qed.

(** The clause loop, from degrees of the unit interval and an accumulator
    of the unit interval: when it completes, it has printed the warnings
    of the clauses and its result is a number of the unit interval. *)
Lemma py_eval_clauses_unit fz in_vars (acc : Py.num) out v :
  Py.fuzzified_ok fz ->
  Py.in_unit acc ->
  Py.eval_clauses fz in_vars (Py.VNum acc) = (out, Ok v) ->
  out = warnings in_vars /\ exists d, v = Py.VNum d /\ Py.in_unit d.
Proof.
  intros A. revert acc out.
  induction in_vars as [| [[var_name set_name] op] rest IH];
    intros acc out Hacc H.
  - inversion H; subst. split; [reflexivity | eauto].
  - cbn [Py.eval_clauses] in H. unfold dict_index in H.
    destruct (dict_get var_name fz) as [degrees |] eqn:G;
      [| discriminate H].
    rewrite bind_ret in H.
    pose proof (py_degree_read_ok fz var_name degrees set_name A G) as Hd.
    destruct (dict_get_default set_name degrees (Py.VNum (Py.Int 0)))
      as [| r].
    { exfalso. revert H. clear.
      assert (Hmin : Py.py_min (Py.VNum acc) Py.VNone = ([], Raise TypeError))
        by reflexivity.
      assert (Hmax : Py.py_max (Py.VNum acc) Py.VNone = ([], Raise TypeError))
        by reflexivity.
      destruct (String.eqb op "and"); [rewrite Hmin; discriminate |].
      destruct (String.eqb op "or"); [rewrite Hmax; discriminate |].
      destruct (String.eqb op "and_not"); [discriminate |].
      rewrite Hmin. discriminate. }
    simpl in Hd.
    destruct (py_min_in_unit acc r Hacc Hd) as (q1 & H1 & U1).
    destruct (py_max_in_unit acc r Hacc Hd) as (q2 & H2 & U2).
    destruct (py_one_minus_unit r Hd) as (m & Hm & Um).
    destruct (py_min_in_unit acc m Hacc Um) as (q3 & H3 & U3).
    unfold warnings, recognized, operator_of. cbn [filter snd].
    destruct (String.eqb op "and").
    { rewrite H1 in H.
      change ([], Ok (Py.VNum q1)) with (ret (Py.VNum q1)) in H.
      rewrite bind_ret in H. exact (IH q1 out U1 H). }
    destruct (String.eqb op "or").
    { rewrite H2 in H.
      change ([], Ok (Py.VNum q2)) with (ret (Py.VNum q2)) in H.
      rewrite bind_ret in H. exact (IH q2 out U2 H). }
    destruct (String.eqb op "and_not").
    { rewrite Hm in H.
      change ([], Ok (Py.VNum m)) with (ret (Py.VNum m)) in H.
      rewrite bind_ret, H3 in H.
      change ([], Ok (Py.VNum q3)) with (ret (Py.VNum q3)) in H.
      rewrite bind_ret in H. exact (IH q3 out U3 H). }
    rewrite H1 in H. unfold bind, print, ret in H.
    destruct (Py.eval_clauses fz rest (Py.VNum q1)) as [o r'] eqn:E.
    inversion H; subst. destruct (IH q1 o U1 E) as [-> Hq].
    split; [reflexivity | exact Hq].
Qed.

(** ** [Py]: rules that start with "or" *)

Lemma py_max_keeps_one (d : Py.num) :
  Py.unit_or_nan d ->
  Py.py_max (Py.VNum (Py.Int 1)) (Py.VNum d) = ret (Py.VNum (Py.Int 1)).
Proof.
  intros U. unfold Py.py_max, Py.value_lt. rewrite bind_ret.
  replace (Py.num_lt (Py.Int 1) d) with false; [reflexivity |].
  unfold Py.num_lt, Py.unit_or_nan in *. simpl.
  destruct (Py.exact d) as [q | s |]; simpl.
  - symmetry. apply Qlt_bool_false. change (inject_Z 1) with 1. lra.
  - contradiction.
  - reflexivity.
Qed.

Lemma py_reads_number_ok fz var_name set_name operator :
  Py.fuzzified_ok fz ->
  Py.reads_number fz (var_name, set_name, operator) = true ->
  exists degrees r,
    dict_get var_name fz = Some degrees /\
    dict_get_default set_name degrees (Py.VNum (Py.Int 0)) = Py.VNum r /\
    Py.unit_or_nan r.
Proof.
  intros A R. unfold Py.reads_number, Py.clause_degree in R.
  destruct (dict_get var_name fz) as [degrees |] eqn:G; [| discriminate].
  pose proof (py_degree_read_ok fz var_name degrees set_name A G) as D.
  destruct (dict_get_default set_name degrees (Py.VNum (Py.Int 0)))
    as [| r] eqn:E; [discriminate |].
  exists degrees, r. split; [reflexivity |]. split; [exact E | exact D].
Qed.

(** A rule made of "or" clauses that read degrees of the unit interval has
    strength 1. *)
Lemma py_all_or_strength fz in_vars :
  Py.fuzzified_ok fz ->
  forallb (fun c => String.eqb (operator_of c) "or" && Py.reads_number fz c)
          in_vars = true ->
  Py.eval_clauses fz in_vars (Py.VNum (Py.Int 1))
    = ([], Ok (Py.VNum (Py.Int 1))).
Proof.
  intros A. induction in_vars as [| [[v s] op] rest IH]; intros H.
  - reflexivity.
  - cbn [forallb] in H. apply andb_true_iff in H. destruct H as [Hc Hrest].
    apply andb_true_iff in Hc. destruct Hc as [Hop Hnum].
    unfold operator_of in Hop. simpl in Hop.
    apply String.eqb_eq in Hop. subst op.
    destruct (py_reads_number_ok fz v s "or" A Hnum)
      as (degrees & r & G & D & U).
    cbn [Py.eval_clauses]. unfold dict_index. rewrite G, bind_ret, D.
    change (String.eqb "or" "and") with false.
    change (String.eqb "or" "or") with true. cbv iota.
    rewrite (py_max_keeps_one r U), bind_ret. apply IH. exact Hrest.
Qed.

(** C2, as the specification states it, fails.  In the model [far_case]
    the only rule is made of one "or" clause; at the float 2^53+2 the
    integer parameters of its fuzzy set give the degree 2, and the firing
    strength of the rule is 2, which is also the aggregated degree of its
    consequent. *)
Lemma all_or_rule_exceeds_one :
  Py.rules Py.far_case = [([("x", "far", "or")], "y", "on")] /\
  Py.fuzzify_inputs Py.far_case [("x", Py.Float (Py.Fin 9007199254740994))] []
    = ([], Ok (Some [("x", [("far", Py.VNum (Py.Float (Py.Fin 2)))])])) /\
  Py.eval_clauses [("x", [("far", Py.VNum (Py.Float (Py.Fin 2)))])]
    [("x", "far", "or")] (Py.VNum (Py.Int 1))
    = ([], Ok (Py.VNum (Py.Float (Py.Fin 2)))) /\
  Py.infer [("x", [("far", Py.VNum (Py.Float (Py.Fin 2)))])]
    (Py.rules Py.far_case) []
    = ([], Ok [("y", [("on", Py.VNum (Py.Float (Py.Fin 2)))])]).
Proof. repeat split; vm_compute; reflexivity. Qed.

(** C2 (amended): a leading "or" clause whose degree d lies in [0, 1]
    leaves the accumulator at 1, so the rule evaluates as if the clause
    were absent; and in a run whose model parameters and crisp inputs are
    all integers, or all floats, a rule made only of "or" clauses that read
    numbers has firing strength 1. *)
Theorem leading_or_pins_accumulator :
  (forall fz c rest d,
      operator_of c = "or" ->
      Py.clause_degree fz c = Some d ->
      Py.in_unit d ->
      Py.eval_clauses fz (c :: rest) (Py.VNum (Py.Int 1))
        = Py.eval_clauses fz rest (Py.VNum (Py.Int 1))) /\
  (forall self crisp_values out fz in_vars,
      Py.one_kind self crisp_values = true ->
      Py.fuzzify_inputs self crisp_values [] = (out, Ok (Some fz)) ->
      forallb (fun c => String.eqb (operator_of c) "or"
                        && Py.reads_number fz c) in_vars = true ->
      Py.eval_clauses fz in_vars (Py.VNum (Py.Int 1))
        = ([], Ok (Py.VNum (Py.Int 1)))).
Proof.
  split.
  - intros fz [[v s] op] rest d Hop Hd U.
    unfold operator_of in Hop. simpl in Hop. subst op.
    unfold Py.clause_degree in Hd.
    destruct (dict_get v fz) as [degrees |] eqn:G; [| discriminate].
    destruct (dict_get_default s degrees (Py.VNum (Py.Int 0))) as [| r] eqn:D;
      [discriminate |].
    inversion Hd; subst r; clear Hd.
    cbn [Py.eval_clauses]. unfold dict_index. rewrite G, bind_ret, D.
    change (String.eqb "or" "and") with false.
    change (String.eqb "or" "or") with true. cbv iota.
    rewrite (py_max_keeps_one d (in_unit_or_nan d U)), bind_ret. reflexivity.
  - intros self crisp_values out fz in_vars K Hfz.
    apply py_all_or_strength.
    exact (py_fuzzify_inputs_ok self crisp_values out fz K Hfz).
Qed.

Lemma leading_or_pins_accumulator_witness :
  (Py.eval_clauses Py.demo_fuzzified
     [("proj_funding", "low", "or"); ("exp_level", "expert", "and")]
     (Py.VNum (Py.Int 1))
   = Py.eval_clauses Py.demo_fuzzified [("exp_level", "expert", "and")]
       (Py.VNum (Py.Int 1))) /\
  Py.eval_clauses Py.demo_fuzzified
    [("proj_funding", "high", "or"); ("exp_level", "expert", "or")]
    (Py.VNum (Py.Int 1)) = ([], Ok (Py.VNum (Py.Int 1))).
Proof.
  split.
  - apply (proj1 leading_or_pins_accumulator Py.demo_fuzzified
             ("proj_funding", "low", "or") [("exp_level", "expert", "and")]
             (Py.Float (Py.Fin (1 # 2)))).
    + reflexivity.
    + vm_compute. reflexivity.
    + split; discriminate.
  - apply (proj2 leading_or_pins_accumulator Py.test_case Py.demo_inputs []
             Py.demo_fuzzified).
    + vm_compute. reflexivity.
    + vm_compute. reflexivity.
    + vm_compute. reflexivity.
Defined.

(** ** [Py]: aggregated degrees *)

Lemma py_dict_index_ensured out_var (io : dict (dict Py.value)) :
  dict_index out_var (Py.ensured out_var io) = ret (Py.entry_of out_var io).
Proof.
  unfold dict_index, Py.ensured, Py.entry_of, dict_mem.
  destruct (dict_get out_var io) as [output |] eqn:G.
  - rewrite G. reflexivity.
  - rewrite dict_get_set_same. reflexivity.
Qed.

Lemma py_infer_unit fz rs io out io' :
  Py.fuzzified_ok fz ->
  Py.unit_outputs io ->
  Py.infer fz rs io = (out, Ok io') ->
  out = rule_warnings rs /\ Py.unit_outputs io'.
Proof.
  intros A. revert io out.
  induction rs as [| [[in_vars out_var] out_set] rest IH]; intros io out U H.
  - inversion H; subst. split; [reflexivity | exact U].
  - cbn [Py.infer] in H. apply bind_inv_Ok in H.
    destruct H as (o1 & st & o2 & Hst & H & ->). cbv beta zeta in H.
    apply py_eval_clauses_unit in Hst; [| exact A | split; discriminate].
    destruct Hst as (-> & q & -> & Uq).
    fold (Py.ensured out_var io) in H.
    rewrite py_dict_index_ensured, bind_ret in H.
    assert (Ue : Forall (fun p => exists d, snd p = Py.VNum d /\ Py.in_unit d)
                        (Py.entry_of out_var io)).
    { unfold Py.entry_of. destruct (dict_get out_var io) as [output |] eqn:G;
        [| constructor].
      destruct (dict_get_Forall _ _ _ _ U G) as [k' Ho]. exact Ho. }
    assert (Hex : exists e,
              dict_get_default out_set (Py.entry_of out_var io)
                (Py.VNum (Py.Int 0)) = Py.VNum e /\ Py.in_unit e).
    { unfold dict_get_default.
      destruct (dict_get out_set (Py.entry_of out_var io)) as [d |] eqn:G.
      - destruct (dict_get_Forall _ _ _ _ Ue G) as [k' Hd]. exact Hd.
      - exists (Py.Int 0). split; [reflexivity | split; discriminate]. }
    destruct Hex as (e & He & Ue').
    rewrite He in H.
    destruct (py_max_in_unit e q Ue' (in_unit_or_nan q Uq)) as (m & Hm & Um).
    rewrite Hm in H. change ([], Ok (Py.VNum m)) with (ret (Py.VNum m)) in H.
    rewrite bind_ret in H.
    apply IH in H.
    + destruct H as [-> U']. split; [reflexivity | exact U'].
    + unfold Py.unit_outputs. apply dict_set_Forall.
      * unfold Py.ensured. destruct (dict_mem out_var io); [exact U |].
        apply dict_set_Forall; [exact U |]. intros k'. constructor.
      * intros k'. simpl. apply dict_set_Forall; [exact Ue |].
        intros k''. simpl. eauto.
Qed.

(** X5: in a run whose model parameters and crisp inputs are all integers,
    or all floats (infinities and not-a-number included), every aggregated
    degree left by the rule loop is a number of [0, 1].  In particular none
    is an infinity: the guard of the defuzzification loop that skips
    infinite degrees is not taken in such a run. *)
Theorem aggregated_degrees_in_unit_interval
    self crisp_values out0 fz rs out io :
  Py.one_kind self crisp_values = true ->
  Py.fuzzify_inputs self crisp_values [] = (out0, Ok (Some fz)) ->
  Py.infer fz rs [] = (out, Ok io) ->
  forall var_name output set_name degree,
    In (var_name, output) io ->
    In (set_name, degree) output ->
    (exists d, degree = Py.VNum d /\ Py.in_unit d) /\
    Py.value_is_inf degree = false.
Proof.
  intros K Hfz Hinfer v output s d Hv Hs.
  pose proof (py_fuzzify_inputs_ok self crisp_values out0 fz K Hfz) as A.
  destruct (py_infer_unit fz rs [] out io A (Forall_nil _) Hinfer) as [_ U].
  unfold Py.unit_outputs in U. rewrite Forall_forall in U.
  specialize (U _ Hv). simpl in U. rewrite Forall_forall in U.
  destruct (U _ Hs) as (q & Hq & Uq). simpl in Hq. subst d.
  split; [eauto |].
  unfold Py.in_unit in Uq. destruct q as [z | [p | n |]]; simpl in *;
    try reflexivity. contradiction.
Qed.

Lemma aggregated_degrees_in_unit_interval_witness :
  (exists d,
     Py.VNum (Py.Float (Py.Fin (3002399751580331 # 4503599627370496)))
       = Py.VNum d /\ Py.in_unit d) /\
  Py.value_is_inf
    (Py.VNum (Py.Float (Py.Fin (3002399751580331 # 4503599627370496))))
    = false.
Proof.
  apply (aggregated_degrees_in_unit_interval Py.test_case Py.demo_inputs []
           Py.demo_fuzzified (Py.rules Py.test_case) []
           [("risk",
             [("low", Py.VNum (Py.Int 1));
              ("normal",
               Py.VNum (Py.Float
                          (Py.Fin (6004799503160661 # 18014398509481984))));
              ("high",
               Py.VNum (Py.Float
                          (Py.Fin (3002399751580331 # 4503599627370496))))])]
           eq_refl eq_refl eq_refl "risk"
           [("low", Py.VNum (Py.Int 1));
            ("normal",
             Py.VNum (Py.Float
                        (Py.Fin (6004799503160661 # 18014398509481984))));
            ("high",
             Py.VNum (Py.Float
                        (Py.Fin (3002399751580331 # 4503599627370496))))]
           "high").
  - left. reflexivity.
  - right. right. left. reflexivity.
Defined.

(** ** [Py]: completion of a run *)

Lemma num_div_float (x y : Py.num) out r :
  Py.num_div x y = (out, Ok r) -> out = [] /\ exists f, r = Py.Float f.
Proof.
  assert (F : forall fx fy,
             (r0 <- Py.float_div fx fy ;; ret (Py.Float r0)) = (out, Ok r) ->
             out = [] /\ exists f, r = Py.Float f).
  { intros fx fy. unfold Py.float_div.
    destruct (Py.float_is_zero fy); [discriminate |].
    rewrite bind_ret. intros H. inversion H. eauto. }
  assert (T : forall z (k : Py.float -> M Py.num),
             (forall f, k f = (out, Ok r) -> out = [] /\ exists f, r = Py.Float f) ->
             (fx <- Py.to_float (Py.Int z) ;; k fx) = (out, Ok r) ->
             out = [] /\ exists f, r = Py.Float f).
  { intros z k Hk. unfold Py.to_float.
    destruct (Py.round (inject_Z z)) as [q | s |]; try discriminate.
    rewrite bind_ret. apply Hk. }
  unfold Py.num_div. destruct x as [a | fx], y as [b | fy].
  - destruct (b =? 0)%Z; [discriminate |].
    destruct (Py.round (inject_Z a / inject_Z b)) as [q | s |];
      try discriminate.
    intros H. inversion H. eauto.
  - apply T. intros f. cbn [Py.to_float]. rewrite bind_ret. apply F.
  - cbn [Py.to_float]. rewrite bind_ret. apply T. intros f. apply F.
  - cbn [Py.to_float]. rewrite !bind_ret. apply F.
Qed.

Lemma slope_returns_float (p q r s : Py.num) out v :
  Py.slope p q r s = (out, Ok v) -> exists f, v = Py.VNum (Py.Float f).
Proof.
  unfold Py.slope. intros H.
  apply bind_inv_Ok in H. destruct H as (o1 & n & o2 & _ & H & _).
  apply bind_inv_Ok in H. destruct H as (o3 & d & o4 & _ & H & _).
  apply bind_inv_Ok in H. destruct H as (o5 & w & o6 & Hd & H & _).
  apply num_div_float in Hd. destruct Hd as (_ & f & ->).
  inversion H. eauto.
Qed.

(** Whatever the numbers, an integer returned by [fuzzify] is 0 or 1. *)
Lemma py_fuzzify_small (fs : Py.FuzzySet) (x : Py.num) out v :
  Py.fuzzify fs x = (out, Ok v) -> Py.small_value v.
Proof.
  unfold Py.fuzzify.
  assert (S : forall p q r s, Py.slope p q r s = (out, Ok v)
                              -> Py.small_value v).
  { intros p q r s H. apply slope_returns_float in H.
    destruct H as [f ->]. exact I. }
  assert (L0 : ret (Py.VNum (Py.Int 0)) = (out, Ok v) -> Py.small_value v).
  { intros H. inversion H. simpl. lia. }
  assert (L1 : ret (Py.VNum (Py.Int 1)) = (out, Ok v) -> Py.small_value v).
  { intros H. inversion H. simpl. lia. }
  destruct (String.eqb (Py.fs_type fs) "TRI").
  - destruct (Py.fs_values fs) as [| a [| b [| c [| ? ?]]]]; try discriminate.
    destruct (Py.between a x b); [apply S |].
    destruct (Py.between b x c); [apply S | exact L0].
  - destruct (String.eqb (Py.fs_type fs) "TRAP").
    + destruct (Py.fs_values fs) as [| a [| b [| c [| d [| ? ?]]]]];
        try discriminate.
      destruct (Py.between a x b); [apply S |].
      destruct (Py.between b x c); [exact L1 |].
      destruct (Py.between c x d); [apply S | exact L0].
    + intros H. inversion H. exact I.
Qed.

Lemma py_fuzzify_inputs_small self crisp_values out fz :
  Py.fuzzify_inputs self crisp_values [] = (out, Ok (Some fz)) ->
  Py.fuzzified_small fz.
Proof.
  intros H.
  apply (py_fuzzify_inputs_inv Py.small_value self crisp_values [] out fz);
    [| constructor | exact H].
  intros name x variable set_name fs o v _ _ _ F.
  exact (py_fuzzify_small fs x o v F).
Qed.

(** An integer between 0 and 2^63 converts to a float, positive when the
    integer is. *)
Lemma to_float_bounded (z : Z) :
  (0 <= z <= 2 ^ 63)%Z ->
  exists q, Py.to_float (Py.Int z) = ret (Py.Fin q) /\
            0 <= q /\ ((0 < z)%Z -> 0 < q).
Proof.
  intros [L U]. rewrite Zle_Qle in L, U.
  pose proof (round_mono _ _ L) as M0.
  pose proof (round_mono _ _ U) as M1.
  assert (P : (0 < z)%Z -> Py.float_le (Py.Fin 1) (Py.round (inject_Z z)) = true).
  { intros Pz. rewrite <- round_one. apply round_mono.
    change (inject_Z 1 <= inject_Z z). rewrite <- Zle_Qle. lia. }
  replace (Py.round (inject_Z 0)) with (Py.Fin 0) in M0
    by (vm_compute; reflexivity).
  replace (Py.round (inject_Z (2 ^ 63))) with (Py.Fin (inject_Z (2 ^ 63))) in M1
    by (vm_compute; reflexivity).
  unfold Py.to_float.
  destruct (Py.round (inject_Z z)) as [q | [] |]; try discriminate.
  exists q. split; [reflexivity |]. simpl in M0. apply Qle_bool_iff in M0.
  split; [exact M0 |]. intros Pz. specialize (P Pz). simpl in P.
  apply Qle_bool_iff in P. lra.
Qed.

Lemma small_to_float (z : Z) :
  (0 <= z <= 1)%Z -> exists q, Py.to_float (Py.Int z) = ret (Py.Fin q).
Proof.
  intros H. destruct (to_float_bounded z) as (q & E & _); [lia |]. eauto.
Qed.

Lemma py_min_returns (a b : Py.num) :
  Py.py_min (Py.VNum a) (Py.VNum b)
  = ret (Py.VNum (if Py.num_lt b a then b else a)).
Proof.
  unfold Py.py_min, Py.value_lt. rewrite bind_ret.
  destruct (Py.num_lt b a); reflexivity.
Qed.

Lemma py_max_returns (a b : Py.num) :
  Py.py_max (Py.VNum a) (Py.VNum b)
  = ret (Py.VNum (if Py.num_lt a b then b else a)).
Proof.
  unfold Py.py_max, Py.value_lt. rewrite bind_ret.
  destruct (Py.num_lt a b); reflexivity.
Qed.

Lemma one_minus_small (d : Py.num) :
  Py.small d ->
  exists r, Py.one_minus (Py.VNum d) = ret (Py.VNum r) /\ Py.small r.
Proof.
  intros S. unfold Py.one_minus, Py.num_sub. destruct d as [z | f].
  - rewrite bind_ret. eexists. split; [reflexivity |].
    unfold Py.small in *. lia.
  - rewrite to_float_one. cbn [Py.to_float]. rewrite !bind_ret.
    eexists. split; [reflexivity | exact I].
Qed.

(** The clause loop completes, with a number, when every clause reads a
    number. *)
Lemma py_eval_clauses_completes fz in_vars (acc : Py.num) :
  Py.fuzzified_small fz ->
  Py.small acc ->
  forallb (Py.reads_number fz) in_vars = true ->
  exists out r,
    Py.eval_clauses fz in_vars (Py.VNum acc) = (out, Ok (Py.VNum r))
    /\ Py.small r.
Proof.
  intros A. revert acc.
  induction in_vars as [| [[v s] op] rest IH]; intros acc Sa R.
  - exists [], acc. split; [reflexivity | exact Sa].
  - cbn [forallb] in R. apply andb_true_iff in R. destruct R as [Rc Rrest].
    unfold Py.reads_number, Py.clause_degree in Rc. cbv beta iota in Rc.
    destruct (dict_get v fz) as [degrees |] eqn:G; [| discriminate Rc].
    destruct (dict_get_default s degrees (Py.VNum (Py.Int 0))) as [| d] eqn:D;
      [discriminate Rc |].
    assert (Sd : Py.small d).
    { unfold dict_get_default in D.
      destruct (dict_get s degrees) as [w |] eqn:E.
      - destruct (dict_get_Forall _ _ _ _ A G) as [k' Hd]. simpl in Hd.
        destruct (dict_get_Forall _ _ _ _ Hd E) as [k'' Hw]. simpl in Hw.
        subst w. exact Hw.
      - inversion D. simpl. lia. }
    cbn [Py.eval_clauses]. unfold dict_index. rewrite G, bind_ret, D.
    destruct (one_minus_small d Sd) as (m & Hm & Sm).
    assert (Smin : forall b, Py.small b ->
                     Py.small (if Py.num_lt b acc then b else acc)).
    { intros b Sb. destruct (Py.num_lt b acc); assumption. }
    assert (Smax : Py.small (if Py.num_lt acc d then d else acc)).
    { destruct (Py.num_lt acc d); assumption. }
    destruct (String.eqb op "and").
    { rewrite py_min_returns, bind_ret. apply IH; [apply Smin; exact Sd | exact Rrest]. }
    destruct (String.eqb op "or").
    { rewrite py_max_returns, bind_ret. apply IH; [exact Smax | exact Rrest]. }
    destruct (String.eqb op "and_not").
    { rewrite Hm, bind_ret, py_min_returns, bind_ret.
      apply IH; [apply Smin; exact Sm | exact Rrest]. }
    destruct (IH _ (Smin d Sd) Rrest) as (out & r & H & Sr).
    exists (unknown_operator_message op :: out), r. split; [| exact Sr].
    rewrite py_min_returns. unfold bind, print, ret. rewrite H. reflexivity.
Qed.

Lemma dict_set_length {V} (k : string) (v : V) (d : dict V) :
  (List.length (dict_set k v d) <= S (List.length d))%nat.
Proof.
  induction d as [| [k' v'] rest IH]; simpl.
  - lia.
  - destruct (String.eqb k k'); simpl; lia.
Qed.

Lemma py_consequent_ok_inv self in_vars out_var out_set :
  Py.consequent_ok self (in_vars, out_var, out_set) = true ->
  exists variable,
    dict_get out_var (Py.variables self) = Some variable /\
    Py.set_ok variable out_set.
Proof.
  unfold Py.consequent_ok, out_var_of, out_set_of. simpl.
  destruct (dict_get out_var (Py.variables self)) as [variable |];
    [| discriminate].
  destruct (dict_get out_set (Py.fuzzy_sets variable)) as [fs |] eqn:S;
    [| discriminate].
  intros C. exists variable. split; [reflexivity |].
  exists fs. split; [exact S | exact C].
Qed.

Lemma entry_ok_weaken self (n m : Z) e :
  (n <= m)%Z -> Py.entry_ok self n e -> Py.entry_ok self m e.
Proof.
  intros L (variable & Hv & Hl & F). exists variable.
  split; [exact Hv |]. split; [lia | exact F].
Qed.

(** The rule loop completes, and leaves only entries that defuzzification
    can process, none with more fuzzy sets than there are rules. *)
Lemma py_infer_completes self fz rs io (n : Z) :
  Py.fuzzified_small fz ->
  forallb (Py.rule_ok self fz) rs = true ->
  (0 <= n)%Z ->
  Forall (Py.entry_ok self n) io ->
  exists out io',
    Py.infer fz rs io = (out, Ok io') /\
    Forall (Py.entry_ok self (n + Z.of_nat (List.length rs))) io'.
Proof.
  intros A. revert io n.
  induction rs as [| [[in_vars out_var] out_set] rest IH];
    intros io n R N F.
  - exists [], io. split; [reflexivity |].
    simpl. rewrite Z.add_0_r. exact F.
  - cbn [forallb] in R. apply andb_true_iff in R. destruct R as [Rr Rrest].
    unfold Py.rule_ok in Rr. apply andb_true_iff in Rr. destruct Rr as [Ra Rc].
    unfold antecedents in Ra. simpl in Ra.
    destruct (py_eval_clauses_completes fz in_vars (Py.Int 1) A)
      as (o1 & st & Hst & Sst); [simpl; lia | exact Ra |].
    destruct (py_consequent_ok_inv _ _ _ _ Rc) as (variable & Hv & Hs).
    assert (Fe : (Z.of_nat (List.length (Py.entry_of out_var io)) <= n)%Z /\
                 Forall
                   (fun p => (exists r, snd p = Py.VNum r /\ Py.small r)
                             /\ Py.set_ok variable (fst p))
                   (Py.entry_of out_var io)).
    { unfold Py.entry_of. destruct (dict_get out_var io) as [output |] eqn:G.
      - destruct (dict_get_Forall_key _ _ _ _ F G)
          as (variable' & Hv' & Hl & Ho).
        simpl in Hv', Hl, Ho. rewrite Hv in Hv'. inversion Hv'; subst variable'.
        split; assumption.
      - split; [simpl; lia | constructor]. }
    destruct Fe as [Le Fe].
    assert (Hex : exists d,
              dict_get_default out_set (Py.entry_of out_var io)
                (Py.VNum (Py.Int 0)) = Py.VNum d /\ Py.small d).
    { unfold dict_get_default.
      destruct (dict_get out_set (Py.entry_of out_var io)) as [d |] eqn:G.
      - destruct (dict_get_Forall_key _ _ _ _ Fe G) as [(r & Hr & Sr) _].
        simpl in Hr. subst d. eauto.
      - exists (Py.Int 0). split; [reflexivity | simpl; lia]. }
    destruct Hex as (d & Hd & Sd).
    set (m := if Py.num_lt d st then st else d).
    assert (Sm : Py.small m)
      by (unfold m; destruct (Py.num_lt d st); assumption).
    destruct (IH (dict_set out_var
                    (dict_set out_set (Py.VNum m) (Py.entry_of out_var io))
                    (Py.ensured out_var io)) (n + 1)%Z Rrest)
      as (o2 & io' & Hinfer & F'); [lia | |].
    { apply dict_set_Forall_key.
      - unfold Py.ensured. destruct (dict_mem out_var io).
        + eapply Forall_impl; [| exact F].
          intros e. apply entry_ok_weaken. lia.
        + apply dict_set_Forall_key.
          * eapply Forall_impl; [| exact F].
            intros e. apply entry_ok_weaken. lia.
          * exists variable. split; [exact Hv |].
            split; [simpl; lia | constructor].
      - exists variable. split; [exact Hv |]. simpl. split.
        + pose proof (dict_set_length out_set (Py.VNum m)
                        (Py.entry_of out_var io)). lia.
        + apply dict_set_Forall_key; [exact Fe |].
          split; [simpl; eauto | exact Hs]. }
    exists (o1 ++ o2)%list, io'. split.
    + cbn [Py.infer]. apply bind_Ok with (a := Py.VNum st); [exact Hst |].
      cbv beta zeta. fold (Py.ensured out_var io).
      rewrite py_dict_index_ensured, bind_ret, Hd, py_max_returns, bind_ret.
      exact Hinfer.
    + eapply Forall_impl; [| exact F'].
      intros e. apply entry_ok_weaken. simpl List.length. lia.
Qed.

(** ** [Py]: the defuzzification loop *)

Lemma centroid_ok_inv (values : list Py.num) :
  Py.centroid_ok values = true ->
  exists out f, Py.centroid_of values = (out, Ok (Py.Float f)).
Proof.
  unfold Py.centroid_ok.
  destruct (Py.centroid_of values) as [out [c | e]] eqn:E; [| discriminate].
  intros _. unfold Py.centroid_of in E. apply bind_inv_Ok in E.
  destruct E as (o1 & total & o2 & _ & Hd & _).
  apply num_div_float in Hd. destruct Hd as (_ & f & ->). eauto.
Qed.

Lemma num_mul_float (d : Py.num) (f : Py.float) :
  Py.small d -> exists w, Py.num_mul d (Py.Float f) = ret (Py.Float w).
Proof.
  intros S. unfold Py.num_mul. destruct d as [z | g].
  - destruct (small_to_float z S) as [q ->].
    cbn [Py.to_float]. rewrite !bind_ret. eauto.
  - cbn [Py.to_float]. rewrite !bind_ret. eauto.
Qed.

Lemma num_add_float (n : Py.num) (w : Py.float) :
  Py.numerator_ok n ->
  exists r, Py.num_add n (Py.Float w) = ret (Py.Float r).
Proof.
  intros N. unfold Py.num_add. destruct n as [z | g].
  - simpl in N. subst z. rewrite to_float_zero.
    cbn [Py.to_float]. rewrite !bind_ret. eauto.
  - cbn [Py.to_float]. rewrite !bind_ret. eauto.
Qed.

(** [denominator + degree] on a denominator counted up to [k]. *)
Lemma add_degree (den d : Py.num) (k : Z) :
  Py.denominator_ok k den -> Py.small d -> (0 <= k < 2 ^ 63)%Z ->
  exists r, Py.num_add den d = ret r /\ Py.denominator_ok (k + 1) r.
Proof.
  intros D S K. unfold Py.num_add. destruct den as [z | g], d as [w | h].
  - eexists. split; [reflexivity |]. simpl in *. lia.
  - simpl in D.
    destruct (to_float_bounded z) as (q & -> & _); [lia |].
    cbn [Py.to_float]. rewrite !bind_ret. eexists.
    split; [reflexivity | exact I].
  - destruct (small_to_float w S) as [q Hq]. rewrite Hq.
    cbn [Py.to_float]. rewrite !bind_ret.
    eexists. split; [reflexivity | exact I].
  - cbn [Py.to_float]. rewrite !bind_ret. eexists.
    split; [reflexivity | exact I].
Qed.

Lemma denominator_ok_weaken (k k' : Z) d :
  (k <= k')%Z -> Py.denominator_ok k d -> Py.denominator_ok k' d.
Proof. intros L. destruct d; simpl; [lia | auto]. Qed.

Lemma py_defuzz_sets_completes variable items (numerator denominator : Py.num)
    (k : Z) :
  Forall (fun p => (exists r, snd p = Py.VNum r /\ Py.small r)
                   /\ Py.set_ok variable (fst p)) items ->
  Py.numerator_ok numerator ->
  Py.denominator_ok k denominator ->
  (0 <= k)%Z ->
  (k + Z.of_nat (List.length items) <= 2 ^ 63)%Z ->
  exists out n d,
    Py.defuzz_sets variable items numerator denominator = (out, Ok (n, d)) /\
    Py.numerator_ok n /\ Py.denominator_ok (2 ^ 63) d.
Proof.
  revert numerator denominator k.
  induction items as [| [set_name degree] rest IH];
    intros numerator denominator k F N D K0 K.
  - exists [], numerator, denominator. split; [reflexivity |].
    split; [exact N |]. simpl in K.
    apply (denominator_ok_weaken k); [lia | exact D].
  - inversion F as [| ? ? [(r & Hr & Sr) (fs & Hfs & Hc)] Frest]; subst.
    simpl in Hr, Hfs. subst degree. cbn [Py.defuzz_sets].
    simpl List.length in K. rewrite Nat2Z.inj_succ in K.
    destruct (Py.value_is_inf (Py.VNum r)).
    { apply (IH numerator denominator k); try assumption. lia. }
    destruct (centroid_ok_inv _ Hc) as (oc & c & Hcen).
    destruct (num_mul_float r c Sr) as (w & Hw).
    destruct (num_add_float numerator w N) as (n' & Hn).
    destruct (add_degree denominator r k D Sr) as (d' & Hd & D'); [lia |].
    destruct (IH (Py.Float n') d' (k + 1)%Z Frest I D')
      as (o & n & d & Hrest & Nn & Dd); [lia | lia |].
    exists (oc ++ o)%list, n, d. split; [| split; assumption].
    unfold dict_index. rewrite Hfs, bind_ret.
    apply bind_Ok with (a := Py.Float c); [exact Hcen |].
    unfold Py.value_mul, Py.add_value.
    rewrite Hw, bind_ret, Hn, bind_ret, Hd, bind_ret. exact Hrest.
Qed.

Lemma positive_float_not_zero (f : Py.float) :
  Py.float_lt (Py.Fin 0) f = true -> Py.float_is_zero f = false.
Proof.
  destruct f as [q | s |]; simpl; try reflexivity.
  intros H. apply Qlt_bool_iff in H. apply Qeq_bool_false. lra.
Qed.

(** [numerator / denominator] on a positive denominator. *)
Lemma final_quotient (n d : Py.num) :
  Py.numerator_ok n -> Py.denominator_ok (2 ^ 63) d ->
  Py.num_lt (Py.Int 0) d = true ->
  exists r, Py.num_div n d = ret r.
Proof.
  intros N D P. unfold Py.num_lt in P.
  destruct n as [a | g], d as [z | f]; simpl in N, D, P.
  - subst a. apply Qlt_bool_iff in P. rewrite <- Zlt_Qlt in P.
    destruct (int_div_unit 0 z) as (r & Hr & _); [lia | lia |]. eauto.
  - subst a. unfold Py.num_div. rewrite to_float_zero.
    cbn [Py.to_float]. rewrite !bind_ret. unfold Py.float_div.
    rewrite (positive_float_not_zero f P), bind_ret. eauto.
  - apply Qlt_bool_iff in P. rewrite <- Zlt_Qlt in P.
    destruct (to_float_bounded z) as (q & Hq & _ & Pq); [lia |].
    unfold Py.num_div. rewrite Hq. cbn [Py.to_float]. rewrite !bind_ret.
    unfold Py.float_div.
    rewrite (positive_float_not_zero (Py.Fin q)), bind_ret; [eauto |].
    simpl. apply Qlt_bool_iff. apply Pq. exact P.
  - unfold Py.num_div. cbn [Py.to_float]. rewrite !bind_ret.
    unfold Py.float_div.
    rewrite (positive_float_not_zero f P), bind_ret. eauto.
Qed.

Lemma py_defuzz_variable_completes self var_name output :
  Py.entry_ok self (2 ^ 63) (var_name, output) ->
  exists out r, Py.defuzz_variable self var_name output = (out, Ok r).
Proof.
  intros (variable & Hv & Hl & F). simpl in Hv, Hl, F.
  unfold Py.defuzz_variable, dict_index. rewrite Hv, bind_ret.
  destruct (py_defuzz_sets_completes variable output (Py.Int 0) (Py.Int 0) 0 F)
    as (out & n & d & Hnd & Nn & Dd);
    [reflexivity | simpl; lia | lia | lia |].
  destruct (Py.num_lt (Py.Int 0) d) eqn:P.
  - destruct (final_quotient n d Nn Dd P) as [r Hr].
    exists (out ++ [])%list, r.
    apply bind_Ok with (a := (n, d)); [exact Hnd |].
    cbv beta iota. rewrite P. exact Hr.
  - exists (out ++ [])%list, (Py.Int 0).
    apply bind_Ok with (a := (n, d)); [exact Hnd |].
    cbv beta iota. rewrite P. reflexivity.
Qed.

Lemma py_defuzzify_completes self items results :
  Forall (Py.entry_ok self (2 ^ 63)) items ->
  exists out results', Py.defuzzify self items results = (out, Ok results').
Proof.
  revert results. induction items as [| [var_name output] rest IH];
    intros results F.
  - exists [], results. reflexivity.
  - inversion F as [| ? ? Fe Frest]; subst. cbn [Py.defuzzify].
    destruct (py_defuzz_variable_completes self var_name output Fe)
      as (o1 & r & Hr).
    destruct (IH (dict_set var_name r results) Frest) as (o2 & res & Hres).
    exists (o1 ++ o2)%list, res.
    apply bind_Ok with (a := r); [exact Hr | exact Hres].
Qed.

(** After a successful fuzzification, the rest of the run completes as
    soon as every rule is one the run can carry through. *)
Lemma py_run_completes self crisp_values out0 fz :
  Py.fuzzify_inputs self crisp_values [] = (out0, Ok (Some fz)) ->
  Py.rules_ok self fz = true ->
  (Z.of_nat (List.length (Py.rules self)) <= 2 ^ 63)%Z ->
  exists out results,
    Py.run_simulation self crisp_values = (out, Ok (Some results)).
Proof.
  intros Hfz R B.
  pose proof (py_fuzzify_inputs_small self crisp_values out0 fz Hfz) as A.
  destruct (py_infer_completes self fz (Py.rules self) [] 0 A R)
    as (o1 & io & Hinfer & F); [lia | constructor |].
  assert (F' : Forall (Py.entry_ok self (2 ^ 63)) io).
  { eapply Forall_impl; [| exact F]. intros e. apply entry_ok_weaken. lia. }
  destruct (py_defuzzify_completes self io [] F') as (o2 & results & Hres).
  exists (out0 ++ (o1 ++ (o2 ++ [])))%list, results.
  unfold Py.run_simulation. apply bind_Ok with (a := Some fz); [exact Hfz |].
  apply bind_Ok with (a := io); [exact Hinfer |].
  apply bind_Ok with (a := results); [exact Hres | reflexivity].
Qed.

(** C3, as the specification states it, fails.  With all input names
    defined and fuzzification successful, the demonstration model stops on
    a KeyError when a rule names a variable that was not supplied, and so
    does the model extended with a rule whose consequent variable, or
    consequent set, does not exist. *)
Lemma run_fails_on_rule_contents :
  (forallb (fun e => dict_mem (fst e) (Py.variables Py.test_case))
           [("proj_funding", Py.Int 50)] = true /\
   (exists fz, Py.fuzzify_inputs Py.test_case [("proj_funding", Py.Int 50)] []
               = ([], Ok (Some fz))) /\
   Py.run_simulation Py.test_case [("proj_funding", Py.Int 50)]
     = ([], Raise (KeyError "exp_level"))) /\
  (forallb (fun e => dict_mem (fst e) (Py.variables Py.test_case))
           Py.demo_inputs = true /\
   Py.run_simulation (Py.add_rule Py.test_case ([], "ghost", "low"))
     Py.demo_inputs = ([], Raise (KeyError "ghost")) /\
   Py.run_simulation (Py.add_rule Py.test_case ([], "risk", "extreme"))
     Py.demo_inputs = ([], Raise (KeyError "extreme"))).
Proof.
  split.
  - split; [reflexivity |]. split; [| vm_compute; reflexivity].
    eexists. vm_compute. reflexivity.
  - split; [reflexivity |]. split; vm_compute; reflexivity.
Qed.

(** The remaining ways a run stops after fuzzification: a rule that reads
    the [None] degree of a set of unknown type, a consequent set without
    parameters, and a consequent set whose parameters are integers beyond
    the floats. *)
Example run_fails_on_None_degree :
  Py.run_simulation
    (Py.add_rule
       (Py.with_sets Py.test_case "exp_level"
          [Py.fuzzy_set "odd" "GAUSS" [Py.Int 1]])
       ([("exp_level", "odd", "and")], "risk", "low"))
    Py.demo_inputs
  = ([], Raise TypeError).
Proof. vm_compute. reflexivity. Qed.

Example run_fails_on_empty_parameters :
  Py.run_simulation
    (Py.add_rule
       (Py.with_sets Py.test_case "risk" [Py.fuzzy_set "none" "TRI" []])
       ([], "risk", "none"))
    Py.demo_inputs
  = ([], Raise ZeroDivisionError).
Proof. vm_compute. reflexivity. Qed.

Example run_fails_on_huge_parameters :
  Py.run_simulation
    (Py.add_rule
       (Py.with_sets Py.test_case "risk"
          [Py.fuzzy_set "huge" "TRI"
             [Py.Int (10 ^ 400); Py.Int (10 ^ 400); Py.Int (10 ^ 400)]])
       ([], "risk", "huge"))
    Py.demo_inputs
  = ([], Raise OverflowError).
Proof. vm_compute. reflexivity. Qed.

(** C3 (amended): once fuzzification has succeeded, the run returns a
    results mapping provided every rule reads numbers from variables that
    were supplied (a missing set name still reads 0), concludes a fuzzy set
    of a variable of the model, and the centroid [sum(values) /
    len(values)] of that set can be computed: its parameter list is not
    empty, and neither the sum nor the quotient is beyond the floats.  The
    model has at most 2^63 rules, as any Python list has. *)
Theorem run_returns_results self crisp_values out0 fz :
  Py.fuzzify_inputs self crisp_values [] = (out0, Ok (Some fz)) ->
  Py.rules_ok self fz = true ->
  (Z.of_nat (List.length (Py.rules self)) <= 2 ^ 63)%Z ->
  exists out results,
    Py.run_simulation self crisp_values = (out, Ok (Some results)).
Proof. exact (py_run_completes self crisp_values out0 fz). Qed.

Lemma run_returns_results_witness :
  exists out results,
    Py.run_simulation Py.test_case Py.demo_inputs = (out, Ok (Some results)).
Proof.
  apply (run_returns_results Py.test_case Py.demo_inputs [] Py.demo_fuzzified).
  - vm_compute. reflexivity.
  - vm_compute. reflexivity.
  - vm_compute. discriminate.
Defined.

Example py_demo_run :
  Py.run_simulation Py.test_case Py.demo_inputs
  = ([], Ok (Some [("risk",
                    Py.Float (Py.Fin (1710351420984889 # 35184372088832)))])).
Proof. vm_compute. reflexivity. Qed.

(** ** [Py]: the outcomes of [fuzzify] *)

Lemma to_float_cases (x : Py.num) :
  (exists f, Py.to_float x = ret f) \/ Py.to_float x = raise OverflowError.
Proof.
  destruct x as [z | f]; simpl; [| eauto].
  destruct (Py.round (inject_Z z)); eauto.
Qed.

Lemma num_sub_cases (x y : Py.num) :
  (exists r, Py.num_sub x y = ret r) \/ Py.num_sub x y = raise OverflowError.
Proof.
  unfold Py.num_sub.
  destruct x as [a | fx], y as [b | fy]; [eauto | | |].
  - destruct (to_float_cases (Py.Int a)) as [[f ->] | ->]; [| auto].
    cbn [Py.to_float]. rewrite !bind_ret. eauto.
  - destruct (to_float_cases (Py.Int b)) as [[f E] | E]; rewrite E;
      cbn [Py.to_float]; rewrite ?bind_ret; eauto.
  - cbn [Py.to_float]. rewrite !bind_ret. eauto.
Qed.

Lemma float_div_cases (x y : Py.float) :
  (exists f, Py.float_div x y = ret f)
  \/ Py.float_div x y = raise ZeroDivisionError.
Proof. unfold Py.float_div. destruct (Py.float_is_zero y); eauto. Qed.

Lemma num_div_cases (x y : Py.num) :
  (exists f, Py.num_div x y = ret (Py.Float f))
  \/ Py.num_div x y = raise ZeroDivisionError
  \/ Py.num_div x y = raise OverflowError.
Proof.
  assert (F : forall fx fy,
             (exists f, (r <- Py.float_div fx fy ;; ret (Py.Float r))
                        = ret (Py.Float f))
             \/ (r <- Py.float_div fx fy ;; ret (Py.Float r))
                = raise ZeroDivisionError).
  { intros fx fy. destruct (float_div_cases fx fy) as [[f ->] | ->];
      [rewrite bind_ret; eauto | auto]. }
  unfold Py.num_div. destruct x as [a | fx], y as [b | fy].
  - destruct (b =? 0)%Z; [auto |].
    destruct (Py.round (inject_Z a / inject_Z b)); eauto.
  - destruct (to_float_cases (Py.Int a)) as [[f ->] | ->]; [| auto].
    cbn [Py.to_float]. rewrite !bind_ret.
    destruct (F f fy) as [H | H]; auto.
  - destruct (to_float_cases (Py.Int b)) as [[f E] | E]; rewrite E;
      cbn [Py.to_float]; rewrite ?bind_ret; [| auto].
    destruct (F fx f) as [H | H]; auto.
  - cbn [Py.to_float]. rewrite !bind_ret.
    destruct (F fx fy) as [H | H]; auto.
Qed.

Lemma slope_cases (p q r s : Py.num) :
  (exists f, Py.slope p q r s = ([], Ok (Py.VNum (Py.Float f))))
  \/ Py.slope p q r s = ([], Raise ZeroDivisionError)
  \/ Py.slope p q r s = ([], Raise OverflowError).
Proof.
  unfold Py.slope.
  destruct (num_sub_cases p q) as [[n ->] | ->];
    [| right; right; reflexivity].
  rewrite bind_ret.
  destruct (num_sub_cases r s) as [[d ->] | ->];
    [| right; right; reflexivity].
  rewrite bind_ret.
  destruct (num_div_cases n d) as [[f ->] | [-> | ->]];
    [| right; left; reflexivity | right; right; reflexivity].
  rewrite bind_ret. left. eexists. reflexivity.
Qed.

Lemma fuzzify_cases (fs : Py.FuzzySet) (x : Py.num) :
  (Py.fuzzify fs x = ([], Raise ValueError) /\ Py.wrong_count fs = true)
  \/ (Py.known_type fs = true /\ Py.wrong_count fs = false /\
      (Py.fuzzify fs x = ([], Raise ZeroDivisionError)
       \/ Py.fuzzify fs x = ([], Raise OverflowError)
       \/ exists r, Py.fuzzify fs x = ([], Ok (Py.VNum r))))
  \/ (Py.known_type fs = false /\ Py.fuzzify fs x = ([], Ok Py.VNone)).
Proof.
  assert (C : forall p q r s,
             Py.slope p q r s = ([], Raise ZeroDivisionError)
             \/ Py.slope p q r s = ([], Raise OverflowError)
             \/ exists v, Py.slope p q r s = ([], Ok (Py.VNum v))).
  { intros p q r s.
    destruct (slope_cases p q r s) as [[f H] | [H | H]]; eauto. }
  unfold Py.fuzzify, Py.known_type, Py.wrong_count.
  destruct (String.eqb (Py.fs_type fs) "TRI") eqn:Tri.
  - apply String.eqb_eq in Tri. rewrite Tri.
    destruct (Py.fs_values fs) as [| a [| b [| c [| ? ?]]]];
      try (left; split; reflexivity).
    right. left. split; [reflexivity |]. split; [reflexivity |].
    destruct (Py.between a x b); [apply C |].
    destruct (Py.between b x c); [apply C |].
    right. right. eexists. reflexivity.
  - destruct (String.eqb (Py.fs_type fs) "TRAP") eqn:Trap.
    + destruct (Py.fs_values fs) as [| a [| b [| c [| d [| ? ?]]]]];
        try (left; split; reflexivity).
      right. left. split; [reflexivity |]. split; [reflexivity |].
      destruct (Py.between a x b); [apply C |].
      destruct (Py.between b x c); [right; right; eexists; reflexivity |].
      destruct (Py.between c x d); [apply C |].
      right. right. eexists. reflexivity.
    + right. right. split; reflexivity.
Qed.

(** X1: whatever the type, the parameters and the crisp value, [fuzzify]
    prints nothing.  It raises a ValueError exactly for a known type with
    the wrong number of parameters, and otherwise only a ZeroDivisionError
    or an OverflowError; it returns [None] exactly for an unknown type; and
    a number it returns is the integer 0 or 1 or a float, which is
    not-a-number or lies in [0, 1] when the parameters and the crisp value
    are all integers or all floats. *)
Theorem fuzzify_outcomes (fs : Py.FuzzySet) (x : Py.num) :
  fst (Py.fuzzify fs x) = [] /\
  match snd (Py.fuzzify fs x) with
  | Raise ValueError => Py.wrong_count fs = true
  | Raise ZeroDivisionError | Raise OverflowError =>
      Py.known_type fs = true /\ Py.wrong_count fs = false
  | Raise _ => False
  | Ok Py.VNone => Py.known_type fs = false
  | Ok (Py.VNum r) =>
      Py.known_type fs = true /\ Py.wrong_count fs = false /\
      Py.small r /\
      (forallb Py.is_int (x :: Py.fs_values fs)
       || forallb Py.is_float (x :: Py.fs_values fs) = true ->
       Py.unit_or_nan r)
  end.
Proof.
  pose proof (py_fuzzify_small fs x) as S.
  pose proof (py_fuzzify_range fs x) as U.
  destruct (fuzzify_cases fs x)
    as [[E W] | [(K & W & [E | [E | [r E]]]) | [K E]]];
    rewrite E in *; simpl; auto.
  split; [reflexivity |]. split; [exact K |]. split; [exact W |]. split.
  - exact (S [] _ eq_refl).
  - intros Kd. exact (U [] r Kd eq_refl).
Qed.

(** ** [Py]: vertical edges *)

Lemma int_vertical_edge (a x : Z) :
  Py.slope (Py.Int x) (Py.Int a) (Py.Int a) (Py.Int a)
  = ([], Raise ZeroDivisionError).
Proof.
  rewrite slope_int. unfold Py.num_div. rewrite Z.sub_diag. reflexivity.
Qed.

Lemma float_vertical_edge (a b x : Q) :
  a == b ->
  Py.slope (Py.Float (Py.Fin x)) (Py.Float (Py.Fin a))
           (Py.Float (Py.Fin b)) (Py.Float (Py.Fin a))
  = ([], Raise ZeroDivisionError).
Proof.
  intros E. rewrite slope_float. unfold Py.float_div. cbn [Py.float_sub].
  rewrite (round_zero (b - a)) by lra. reflexivity.
Qed.

Lemma fuzzify_int_edges (fs : Py.FuzzySet) (s : shape) (x : Z) :
  Py.int_shape_of fs = Some s ->
  ordered_shape s ->
  (on_vertical_left_edge s (inject_Z x) ->
   Py.fuzzify fs (Py.Int x) = ([], Raise ZeroDivisionError)) /\
  (~ on_vertical_left_edge s (inject_Z x) ->
   exists r, Py.fuzzify fs (Py.Int x) = ([], Ok (Py.VNum r)) /\ Py.in_unit r).
Proof.
  unfold Py.int_shape_of, Py.fuzzify.
  destruct (String.eqb (Py.fs_type fs) "TRI") eqn:Tri.
  - destruct (Py.fs_values fs) as [| [a |] [| [b |] [| [c |] [| ? ?]]]];
      try discriminate.
    intros S; inversion S; subst s; clear S.
    cbn [ordered_shape on_vertical_left_edge]. intros [Hab Hbc]. split.
    + intros [E1 E2]. rewrite inject_Z_injective in E1, E2. subst b x.
      replace (Py.between (Py.Int a) (Py.Int a) (Py.Int a)) with true
        by (symmetry; apply between_int; lia).
      apply int_vertical_edge.
    + intros N.
      destruct (Py.between (Py.Int a) (Py.Int x) (Py.Int b)) eqn:B1.
      * apply between_int_Q in B1.
        assert (L : inject_Z a < inject_Z b).
        { apply Qnot_le_lt. intros L. apply N. lra. }
        destruct (int_edge_Q x a b a) as (v & Hs & _ & U); try lra.
        rewrite Hs. eexists. split; [reflexivity | exact U].
      * apply between_int_Q_false in B1.
        destruct (Py.between (Py.Int b) (Py.Int x) (Py.Int c)) eqn:B2.
        -- apply between_int_Q in B2.
           destruct (int_edge_Q c x c b) as (v & Hs & _ & U); try lra.
           rewrite Hs. eexists. split; [reflexivity | exact U].
        -- exists (Py.Int 0). split; [reflexivity | split; discriminate].
  - destruct (String.eqb (Py.fs_type fs) "TRAP") eqn:Trap; [| discriminate].
    destruct (Py.fs_values fs)
      as [| [a |] [| [b |] [| [c |] [| [d |] [| ? ?]]]]];
      try discriminate.
    intros S; inversion S; subst s; clear S.
    cbn [ordered_shape on_vertical_left_edge]. intros (Hab & Hbc & Hcd).
    split.
    + intros [E1 E2]. rewrite inject_Z_injective in E1, E2. subst b x.
      replace (Py.between (Py.Int a) (Py.Int a) (Py.Int a)) with true
        by (symmetry; apply between_int; lia).
      apply int_vertical_edge.
    + intros N.
      destruct (Py.between (Py.Int a) (Py.Int x) (Py.Int b)) eqn:B1.
      * apply between_int_Q in B1.
        assert (L : inject_Z a < inject_Z b).
        { apply Qnot_le_lt. intros L. apply N. lra. }
        destruct (int_edge_Q x a b a) as (v & Hs & _ & U); try lra.
        rewrite Hs. eexists. split; [reflexivity | exact U].
      * apply between_int_Q_false in B1.
        destruct (Py.between (Py.Int b) (Py.Int x) (Py.Int c)) eqn:B2.
        { exists (Py.Int 1). split; [reflexivity | split; discriminate]. }
        apply between_int_Q_false in B2.
        destruct (Py.between (Py.Int c) (Py.Int x) (Py.Int d)) eqn:B3.
        -- apply between_int_Q in B3.
           destruct (int_edge_Q d x d c) as (v & Hs & _ & U); try lra.
           rewrite Hs. eexists. split; [reflexivity | exact U].
        -- exists (Py.Int 0). split; [reflexivity | split; discriminate].
Qed.

Lemma between_fin_true (a x b : Q) :
  Qle_bool a x && Qle_bool x b = true <-> a <= x <= b.
Proof. rewrite andb_true_iff, !Qle_bool_iff. tauto. Qed.

Lemma between_fin_false (a x b : Q) :
  Qle_bool a x && Qle_bool x b = false <-> x < a \/ b < x.
Proof. rewrite andb_false_iff, !Qle_bool_false. tauto. Qed.

Lemma fuzzify_float_edges (fs : Py.FuzzySet) (s : shape) (x : Q) :
  Py.float_shape_of fs = Some s ->
  Py.is_binary64 x = true ->
  ordered_shape s ->
  (on_vertical_left_edge s x ->
   Py.fuzzify fs (Py.Float (Py.Fin x)) = ([], Raise ZeroDivisionError)) /\
  (~ on_vertical_left_edge s x ->
   exists r, Py.fuzzify fs (Py.Float (Py.Fin x)) = ([], Ok (Py.VNum r))
             /\ Py.unit_or_nan r).
Proof.
  unfold Py.float_shape_of, Py.fuzzify. intros S _.
  destruct (String.eqb (Py.fs_type fs) "TRI") eqn:Tri.
  - destruct (Py.fs_values fs)
      as [| [| [a | |]] [| [| [b | |]] [| [| [c | |]] [| ? ?]]]];
      try discriminate.
    destruct (Py.is_binary64 a) eqn:Ba; [| discriminate].
    destruct (Py.is_binary64 b) eqn:Bb; [| discriminate].
    destruct (Py.is_binary64 c) eqn:Bc; [| discriminate].
    inversion S; subst s; clear S. simpl ordered_shape.
    simpl on_vertical_left_edge. intros [Hab Hbc].
    rewrite !between_float. cbn [Py.float_le]. split.
    + intros [E1 E2].
      replace (Qle_bool a x && Qle_bool x b) with true
        by (symmetry; apply between_fin_true; lra).
      apply float_vertical_edge. exact E1.
    + intros N.
      destruct (Qle_bool a x && Qle_bool x b) eqn:B1.
      * apply between_fin_true in B1.
        assert (L : a < b).
        { apply Qnot_le_lt. intros L. apply N. lra. }
        destruct (float_edge x a b a) as [Hs U];
          [lra | apply binary64_gap; assumption |].
        rewrite Hs. eexists. split; [reflexivity | exact U].
      * apply between_fin_false in B1.
        destruct (Qle_bool b x && Qle_bool x c) eqn:B2.
        -- apply between_fin_true in B2.
           destruct (float_edge c x c b) as [Hs U];
             [lra | apply binary64_gap; try assumption; lra |].
           rewrite Hs. eexists. split; [reflexivity | exact U].
        -- exists (Py.Int 0). split; [reflexivity | exact unit_zero].
  - destruct (String.eqb (Py.fs_type fs) "TRAP") eqn:Trap; [| discriminate].
    destruct (Py.fs_values fs)
      as [| [| [a | |]] [| [| [b | |]] [| [| [c | |]] [| [| [d | |]] [| ? ?]]]]];
      try discriminate.
    destruct (Py.is_binary64 a) eqn:Ba; [| discriminate].
    destruct (Py.is_binary64 b) eqn:Bb; [| discriminate].
    destruct (Py.is_binary64 c) eqn:Bc; [| discriminate].
    destruct (Py.is_binary64 d) eqn:Bd; [| discriminate].
    inversion S; subst s; clear S. simpl ordered_shape.
    simpl on_vertical_left_edge. intros (Hab & Hbc & Hcd).
    rewrite !between_float. cbn [Py.float_le]. split.
    + intros [E1 E2].
      replace (Qle_bool a x && Qle_bool x b) with true
        by (symmetry; apply between_fin_true; lra).
      apply float_vertical_edge. exact E1.
    + intros N.
      destruct (Qle_bool a x && Qle_bool x b) eqn:B1.
      * apply between_fin_true in B1.
        assert (L : a < b).
        { apply Qnot_le_lt. intros L. apply N. lra. }
        destruct (float_edge x a b a) as [Hs U];
          [lra | apply binary64_gap; assumption |].
        rewrite Hs. eexists. split; [reflexivity | exact U].
      * apply between_fin_false in B1.
        destruct (Qle_bool b x && Qle_bool x c) eqn:B2.
        { exists (Py.Int 1). split; [reflexivity | exact unit_one]. }
        apply between_fin_false in B2.
        destruct (Qle_bool c x && Qle_bool x d) eqn:B3.
        -- apply between_fin_true in B3.
           destruct (float_edge d x d c) as [Hs U];
             [lra | apply binary64_gap; try assumption; lra |].
           rewrite Hs. eexists. split; [reflexivity | exact U].
        -- exists (Py.Int 0). split; [reflexivity | exact unit_zero].
Qed.

(** X2: for a triangular or trapezoidal set with parameters in order
    (equal neighbours allowed), all integers with an integer crisp value,
    or all binary64 floats with a float crisp value, [fuzzify] at x raises
    a ZeroDivisionError exactly when the first two parameters coincide and
    x equals them; everywhere else it returns a degree of [0, 1] (or, on
    floats, not-a-number when both differences overflow).  So a vertical
    left edge fails at its own abscissa, while a vertical right edge (last
    two parameters equal) is harmless. *)
Theorem fuzzify_division_by_zero :
  (forall fs s (x : Z),
      Py.int_shape_of fs = Some s ->
      ordered_shape s ->
      (on_vertical_left_edge s (inject_Z x) ->
       Py.fuzzify fs (Py.Int x) = ([], Raise ZeroDivisionError)) /\
      (~ on_vertical_left_edge s (inject_Z x) ->
       exists r, Py.fuzzify fs (Py.Int x) = ([], Ok (Py.VNum r))
                 /\ Py.in_unit r)) /\
  (forall fs s (x : Q),
      Py.float_shape_of fs = Some s ->
      Py.is_binary64 x = true ->
      ordered_shape s ->
      (on_vertical_left_edge s x ->
       Py.fuzzify fs (Py.Float (Py.Fin x)) = ([], Raise ZeroDivisionError)) /\
      (~ on_vertical_left_edge s x ->
       exists r, Py.fuzzify fs (Py.Float (Py.Fin x)) = ([], Ok (Py.VNum r))
                 /\ Py.unit_or_nan r)).
Proof.
  split.
  - exact fuzzify_int_edges.
  - exact fuzzify_float_edges.
Qed.

Lemma fuzzify_division_by_zero_witness :
  (Py.fuzzify (Py.fuzzy_set "very_low" "TRAP"
                 [Py.Int 0; Py.Int 0; Py.Int 10; Py.Int 30]) (Py.Int 0)
     = ([], Raise ZeroDivisionError) /\
   exists r,
     Py.fuzzify (Py.fuzzy_set "high" "TRAP"
                   [Py.Int 70; Py.Int 90; Py.Int 100; Py.Int 100])
       (Py.Int 100) = ([], Ok (Py.VNum r)) /\ Py.in_unit r) /\
  (Py.fuzzify (Py.fuzzy_set "very_low" "TRAP"
                 [Py.Float (Py.Fin 0); Py.Float (Py.Fin 0);
                  Py.Float (Py.Fin 10); Py.Float (Py.Fin 30)])
     (Py.Float (Py.Fin 0))
     = ([], Raise ZeroDivisionError) /\
   exists r,
     Py.fuzzify (Py.fuzzy_set "high" "TRAP"
                   [Py.Float (Py.Fin 70); Py.Float (Py.Fin 90);
                    Py.Float (Py.Fin 100); Py.Float (Py.Fin 100)])
       (Py.Float (Py.Fin 100)) = ([], Ok (Py.VNum r)) /\ Py.unit_or_nan r).
Proof.
  split; split.
  - apply (proj1 (proj1 fuzzify_division_by_zero
                    (Py.fuzzy_set "very_low" "TRAP"
                       [Py.Int 0; Py.Int 0; Py.Int 10; Py.Int 30])
                    (TRAPEZOIDAL 0 0 10 30) 0%Z eq_refl
                    (conj (Qle_refl 0) (conj (Qle_bool_imp_le 0 10 eq_refl)
                                             (Qle_bool_imp_le 10 30 eq_refl))))).
    split; reflexivity.
  - apply (proj2 (proj1 fuzzify_division_by_zero
                    (Py.fuzzy_set "high" "TRAP"
                       [Py.Int 70; Py.Int 90; Py.Int 100; Py.Int 100])
                    (TRAPEZOIDAL 70 90 100 100) 100%Z eq_refl
                    (conj (Qle_bool_imp_le 70 90 eq_refl)
                          (conj (Qle_bool_imp_le 90 100 eq_refl)
                                (Qle_refl 100))))).
    intros [E _]. discriminate E.
  - refine (proj1 (proj2 fuzzify_division_by_zero
                     (Py.fuzzy_set "very_low" "TRAP"
                        [Py.Float (Py.Fin 0); Py.Float (Py.Fin 0);
                         Py.Float (Py.Fin 10); Py.Float (Py.Fin 30)])
                     (TRAPEZOIDAL 0 0 10 30) 0 _ _ _) _).
    + vm_compute. reflexivity.
    + vm_compute. reflexivity.
    + split; [apply Qle_refl |]. split; apply Qle_bool_imp_le; reflexivity.
    + split; reflexivity.
  - refine (proj2 (proj2 fuzzify_division_by_zero
                     (Py.fuzzy_set "high" "TRAP"
                        [Py.Float (Py.Fin 70); Py.Float (Py.Fin 90);
                         Py.Float (Py.Fin 100); Py.Float (Py.Fin 100)])
                     (TRAPEZOIDAL 70 90 100 100) 100 _ _ _) _).
    + vm_compute. reflexivity.
    + vm_compute. reflexivity.
    + split; [| split; [| apply Qle_refl]]; apply Qle_bool_imp_le; reflexivity.
    + intros [E _]. discriminate E.
Defined.
